(** * Smart-Fantasy: the Yahoo Fantasy backfill tool, scripts/backfill_data.py

    A shallow embedding of [YahooDataCollector] and of the properties its
    specification states about it.

    - Python text is a [string] whose characters are the code points 0..255.
    - The conversions [int(str)] and [float(str)] belong to the Python runtime:
      the collector is defined over any runtime ([PyRuntime]), and [CPython]
      is the runtime the examples run on; floating-point values are IEEE 754
      binary64 values ([spec_float]).
    - The remote collaborators (the yfpy query object, the Supabase client,
      the clock) are oracles that answer from the history of the run
      ([Services]); every call, print and sleep is recorded in that history
      together with its outcome.
    - Errors are Python exceptions deriving from [Exception], the ones an
      [except Exception] clause handles; the user's interrupt, which is
      none of them, is an input of [main]. Calendar days are counted on
      the unbounded proleptic Gregorian ordinal, and [strftime] writes the
      year as the C library of Linux does, without padding. *)

From Stdlib Require Import ZArith List String Ascii Bool Lia.
From Stdlib Require Import Floats.SpecFloat.
From stdpp Require Import gmap strings list.
From Equations Require Import Equations.

Local Open Scope string_scope.
Local Open Scope list_scope.
Local Open Scope Z_scope.

(** ** Python values, exceptions and results *)

Inductive exc_class :=
| ValueError
| TypeError
| OtherException (name : string).

Record exception := Exc { exc_type : exc_class; exc_message : string }.

Inductive py_result (A : Type) :=
| Returns (a : A)
| Raises (e : exception).
Arguments Returns {A} a.
Arguments Raises {A} e.

(** The numbers a stat mapping holds: [int] or [float]. *)
Inductive number :=
| PyInt (n : Z)
| PyFloat (x : spec_float).

(** [v > 0] for a number [v]; a [float] is compared as IEEE 754 does. *)
Definition gt_zero (v : number) : bool :=
  match v with
  | PyInt n => 0 <? n
  | PyFloat x => SFltb (S754_zero false) x
  end.

(** [sub in s] for two strings. *)
Fixpoint str_in (sub s : string) : bool :=
  String.prefix sub s ||
  match s with
  | EmptyString => false
  | String _ s' => str_in sub s'
  end.

(** The runtime's conversions of text to numbers; [None] is [ValueError]. *)
Class PyRuntime := {
  py_int : string -> option Z;
  py_float : string -> option spec_float
}.

(** ** Dates: [datetime], [strptime], [strftime], [timedelta(days=1)]

    A [datetime] is the proleptic Gregorian ordinal of its day (1 is
    0001-01-01, as [date.toordinal]) and the microseconds since midnight. *)

Record datetime := { dt_ordinal : Z; dt_time : N }.

Definition dt_le (a b : datetime) : bool :=
  (dt_ordinal a <? dt_ordinal b)
  || ((dt_ordinal a =? dt_ordinal b) && (dt_time a <=? dt_time b)%N).

Definition dt_gt (a b : datetime) : bool := negb (dt_le a b).

(** [d + timedelta(days=n)], on the unbounded ordinal: CPython has no
    day after 9999-12-31 (ordinal 3652059) and raises [OverflowError]
    there, which the loop of [backfill_player] meets only when the clock
    itself stands on that day. *)
Definition add_days (d : datetime) (n : Z) : datetime :=
  {| dt_ordinal := dt_ordinal d + n; dt_time := dt_time d |}.

(** The calendar date with a given ordinal, as [strptime] gives it: at
    midnight. *)
Definition midnight (ordinal : Z) : datetime :=
  {| dt_ordinal := ordinal; dt_time := 0 |}.

Definition is_leap (year : Z) : bool :=
  (year mod 4 =? 0) && (negb (year mod 100 =? 0) || (year mod 400 =? 0)).

Definition days_in_month (year month : Z) : Z :=
  match month with
  | 1 | 3 | 5 | 7 | 8 | 10 | 12 => 31
  | 4 | 6 | 9 | 11 => 30
  | 2 => if is_leap year then 29 else 28
  | _ => 0
  end.

Definition days_before_month (year month : Z) : Z :=
  nth (Z.to_nat month) [0; 0; 31; 59; 90; 120; 151; 181; 212; 243; 273; 304; 334] 0
  + (if (2 <? month) && is_leap year then 1 else 0).

Definition days_before_year (year : Z) : Z :=
  let y := year - 1 in y * 365 + y / 4 - y / 100 + y / 400.

Definition ymd2ord (year month day : Z) : Z :=
  days_before_year year + days_before_month year month + day.

Definition ord2ymd (ordinal : Z) : Z * Z * Z :=
  let n := ordinal - 1 in
  let n400 := n / 146097 in
  let n := n mod 146097 in
  let n100 := n / 36524 in
  let n := n mod 36524 in
  let n4 := n / 1461 in
  let n := n mod 1461 in
  let n1 := n / 365 in
  let n := n mod 365 in
  let year := n400 * 400 + 1 + n100 * 100 + n4 * 4 + n1 in
  if (n1 =? 4) || (n100 =? 4) then (year - 1, 12, 31)
  else
    let leapyear := (n1 =? 3) && (negb (n4 =? 24) || (n100 =? 3)) in
    let month := (n + 50) / 32 in
    let preceding :=
      nth (Z.to_nat month) [0; 0; 31; 59; 90; 120; 151; 181; 212; 243; 273; 304; 334] 0
      + (if (2 <? month) && leapyear then 1 else 0) in
    if n <? preceding then
      let month := month - 1 in
      let preceding :=
        preceding
        - (nth (Z.to_nat month) [0; 31; 28; 31; 30; 31; 30; 31; 31; 30; 31; 30; 31] 0
           + (if (month =? 2) && leapyear then 1 else 0)) in
      (year, month, n - preceding + 1)
    else (year, month, n - preceding + 1).

(** The end of [ord2ymd] on its own: the month and the day of the day
    numbered [n] from 0 in a year, and the check that they are the date
    whose place in the year is [n]. *)
Definition month_day (leapyear : bool) (n : Z) : Z * Z :=
  let month := (n + 50) / 32 in
  let preceding :=
    nth (Z.to_nat month) [0; 0; 31; 59; 90; 120; 151; 181; 212; 243; 273; 304; 334] 0
    + (if (2 <? month) && leapyear then 1 else 0) in
  if n <? preceding then
    let month := month - 1 in
    let preceding :=
      preceding
      - (nth (Z.to_nat month) [0; 31; 28; 31; 30; 31; 30; 31; 31; 30; 31; 30; 31] 0
         + (if (month =? 2) && leapyear then 1 else 0)) in
    (month, n - preceding + 1)
  else (month, n - preceding + 1).

Definition month_day_ok (leapyear : bool) (n : Z) : bool :=
  let '(m, d) := month_day leapyear n in
  (1 <=? m) && (m <=? 12) && (1 <=? d)
  && (d <=? (match m with 2 => if leapyear then 29 else 28 | 4 | 6 | 9 | 11 => 30 | _ => 31 end))
  && (nth (Z.to_nat m) [0; 0; 31; 59; 90; 120; 151; 181; 212; 243; 273; 304; 334] 0
      + (if (2 <? m) && leapyear then 1 else 0) + d =? n + 1).

(** Decimal digits. *)
Definition digit_of (c : ascii) : option Z :=
  let n := Z.of_N (N_of_ascii c) in
  if (48 <=? n) && (n <=? 57) then Some (n - 48) else None.

Definition digit_char (d : Z) : ascii := ascii_of_N (Z.to_N (48 + d mod 10)).

(** The directive [%m]: the pattern 1[0-2]|0[1-9]|[1-9]. *)
Definition re_month (s : string) : option (Z * string) :=
  let one :=
    match s with
    | String a r =>
        match digit_of a with
        | Some x => if 1 <=? x then Some (x, r) else None
        | None => None
        end
    | EmptyString => None
    end in
  match s with
  | String a (String b r) =>
      match digit_of a, digit_of b with
      | Some 1, Some y => if y <=? 2 then Some (10 + y, r) else one
      | Some 0, Some y => if 1 <=? y then Some (y, r) else one
      | _, _ => one
      end
  | _ => one
  end.

(** The directive [%d]: the pattern 3[0-1]|[1-2]\d|0[1-9]|[1-9]| [1-9]. *)
Definition re_day (s : string) : option (Z * string) :=
  let one :=
    match s with
    | String a r =>
        match digit_of a with
        | Some x => if 1 <=? x then Some (x, r) else None
        | None =>
            if Ascii.eqb a " " then
              match r with
              | String b r' =>
                  match digit_of b with
                  | Some y => if 1 <=? y then Some (y, r') else None
                  | None => None
                  end
              | EmptyString => None
              end
            else None
        end
    | EmptyString => None
    end in
  match s with
  | String a (String b r) =>
      match digit_of a, digit_of b with
      | Some 3, Some y => if y <=? 1 then Some (30 + y, r) else one
      | Some 1, Some y => Some (10 + y, r)
      | Some 2, Some y => Some (20 + y, r)
      | Some 0, Some y => if 1 <=? y then Some (y, r) else one
      | _, _ => one
      end
  | _ => one
  end.

Definition strptime_error (s : string) : exception :=
  Exc ValueError ("time data does not match format: " +:+ s).

(** [datetime.strptime(s, '%Y-%m-%d')] *)
Definition strptime (s : string) : py_result datetime :=
  match s with
  | String y1 (String y2 (String y3 (String y4 (String sep1 rest)))) =>
      match digit_of y1, digit_of y2, digit_of y3, digit_of y4 with
      | Some a, Some b, Some c, Some d =>
          let year := 1000 * a + 100 * b + 10 * c + d in
          if negb (Ascii.eqb sep1 "-") then Raises (strptime_error s) else
          match re_month rest with
          | Some (month, String sep2 rest') =>
              if negb (Ascii.eqb sep2 "-") then Raises (strptime_error s) else
              match re_day rest' with
              | Some (day, EmptyString) =>
                  if (year =? 0) || (days_in_month year month <? day)
                  then Raises (strptime_error s)
                  else Returns (midnight (ymd2ord year month day))
              | _ => Raises (strptime_error s)
              end
          | _ => Raises (strptime_error s)
          end
      | _, _, _, _ => Raises (strptime_error s)
      end
  | _ => Raises (strptime_error s)
  end.

Definition two_digits (n : Z) : string :=
  String (digit_char (n / 10)) (String (digit_char n) EmptyString).

Definition four_digits (n : Z) : string :=
  String (digit_char (n / 1000)) (String (digit_char (n / 100)) (two_digits n)).

(** The directive [%Y] of [strftime], which CPython leaves to the C
    library: on Linux (glibc) the year in decimal without padding, so that
    a year before 1000 is written on fewer than four digits. *)
Definition year_digits (year : Z) : string :=
  if year <? 10 then String (digit_char year) EmptyString
  else if year <? 100 then two_digits year
  else if year <? 1000 then String (digit_char (year / 100)) (two_digits year)
  else four_digits year.

(** [d.strftime('%Y-%m-%d')] *)
Definition strftime (d : datetime) : string :=
  let '(year, month, day) := ord2ymd (dt_ordinal d) in
  year_digits year +:+ "-" +:+ two_digits month +:+ "-" +:+ two_digits day.

(** ** The remote stats payload

    [yahoo.get_player_stats_by_date] answers with an object whose
    [player_stats.stats] is a collection of entries; an entry wraps a [stat]
    object carrying [stat_id] and [value]. *)

(** [stat.stat.value]: text, or a value of another built-in type ([None], a
    number, bytes, a container), for which the test ['.' in value] or the
    conversion raises [TypeError]. *)
Inductive raw_value :=
| Text (s : string)
| NonText.

(** [stat.stat]; [stat_id] holds [str(stat.stat.stat_id)]. *)
Record stat_obj := { stat_id : string; value : raw_value }.

(** An entry of the collection: [None] when it has no attribute [stat]. *)
Definition stat_entry := option stat_obj.

(** The attribute [stats] of [player_stats]. *)
Inductive stats_attr :=
| NoStats
| NotIterable
| Entries (l : list stat_entry).

(** What the remote call returns. *)
Inductive stats_response :=
| Falsy
| NoPlayerStats
| PlayerStats (stats : stats_attr).

(** The record [get_player_stats_by_date] returns. *)
Record game_log := {
  gl_date : string;
  gl_stats : gmap string number;
  gl_minutes_played : option number;
  gl_has_game : bool
}.

(** ** The league roster *)

(** A player object of yfpy; [editorial_team_abbr] is [None] when the
    attribute is absent and [Some None] when it has no [value]. *)
Record yahoo_player := {
  yp_player_key : string;
  yp_name_full : string;
  yp_editorial_team_abbr : option (option string);
  yp_eligible_positions : option (list string)
}.

Record player := {
  player_key : string;
  player_name : string;
  team : string;
  positions : list string
}.

(** ** The store: table [player_game_logs] *)

Record game_log_row := {
  row_player_key : string;
  row_player_name : string;
  row_game_date : string;
  row_stats : gmap string number;
  row_minutes_played : option number;
  row_opponent : option string;
  row_home_away : option string;
  row_game_result : option string
}.

(** ** Counters *)

(** The dict [stats] of [backfill_player]. *)
Record BatchStats := {
  bs_player_key : string;
  bs_player_name : string;
  total_dates : nat;
  existing_games : nat;
  new_games : nat;
  api_calls : nat;
  errors : nat
}.

(** The dict [total_stats] of [backfill_season]. *)
Record SeasonTotals := {
  total_players : nat;
  processed_players : nat;
  total_new_games : nat;
  total_api_calls : nat;
  total_errors : nat
}.

(** ** What the program prints, one constructor per [print] call *)

Inductive message :=
| MsgFetchingPlayers
| MsgPlayersFound (n : nat)
| MsgPlayersFailed (e : exception)
| MsgSaveFailed (player_key date : string) (e : exception)
| MsgQueryFailed (e : exception)
| MsgInvalidSeason (season_key : string)
| MsgRule
| MsgSeasonStart (season_key : string)
| MsgDateRange (start_date end_date : string)
| MsgNoPlayers
| MsgLimit (max_players : Z)
| MsgPlayerHeader (i n : nat) (player_name player_key : string)
| MsgDashes
| MsgExisting (n : nat)
| MsgNew (n : nat)
| MsgApiCalls (n : nat)
| MsgErrors (n : nat)
| MsgDone
| MsgProcessed (processed total : nat)
| MsgTotalNew (n : nat)
| MsgTotalApiCalls (n : nat)
| MsgTotalErrors (n : nat).

(** ** The history of a run: every interaction with its outcome *)

Inductive event :=
| YahooLeagueInfo (r : py_result unit)
| YahooLeaguePlayers (r : py_result (list yahoo_player))
| YahooPlayerStats (player_key date : string) (r : py_result stats_response)
| SupabaseSelect (player_key : string) (r : py_result (list string))
| SupabaseUpsert (data : game_log_row) (r : py_result unit)
| Print (m : message)
| Sleep (milliseconds : Z).

Definition history := list event.

(** The collaborators: each answers from the history so far, so that an
    answer may depend on every earlier call and on its position in the run.
    [supabase_select] gives the [game_date] of the rows selected for a
    player key. *)
Class Services := {
  yahoo_get_league_info : history -> py_result unit;
  yahoo_get_league_players : history -> py_result (list yahoo_player);
  yahoo_get_player_stats_by_date :
    history -> string -> string -> py_result stats_response;
  supabase_select : history -> string -> py_result (list string);
  supabase_upsert : history -> game_log_row -> py_result unit;
  datetime_now : history -> datetime
}.

(** ** Computations: a result or an exception, and the history extended *)

Definition M (A : Type) : Type := history -> py_result A * history.

Definition ret {A} (a : A) : M A := fun h => (Returns a, h).

Definition bind {A B} (m : M A) (f : A -> M B) : M B :=
  fun h =>
    match m h with
    | (Returns a, h') => f a h'
    | (Raises e, h') => (Raises e, h')
    end.

(** [try: m except Exception as e: handler e] *)
Definition try_except {A} (m : M A) (handler : exception -> M A) : M A :=
  fun h =>
    match m h with
    | (Returns a, h') => (Returns a, h')
    | (Raises e, h') => handler e h'
    end.

(** A result computed without interaction. *)
Definition lift {A} (r : py_result A) : M A := fun h => (r, h).

(** A call to a collaborator: ask the oracle, record the call. *)
Definition call {A} (oracle : history -> py_result A)
    (record : py_result A -> event) : M A :=
  fun h => let r := oracle h in (r, h ++ [record r]).

Definition print (m : message) : M unit := fun h => (Returns tt, h ++ [Print m]).

Definition sleep (milliseconds : Z) : M unit :=
  fun h => (Returns tt, h ++ [Sleep milliseconds]).

Definition now `{Services} : M datetime := fun h => (Returns (datetime_now h), h).

Declare Scope py_scope.
Delimit Scope py_scope with py.
Notation "x <- m ;; k" := (bind m (fun x => k))
  (at level 100, m at next level, right associativity) : py_scope.
Notation "m ;;; k" := (bind m (fun _ => k))
  (at level 100, right associativity) : py_scope.
Local Open Scope py_scope.

(** ** The season table *)

Record season_info := { season_start : string; season_end : string }.

Definition SEASONS : gmap string season_info :=
  list_to_map
    [ ("2025-26", {| season_start := "2025-10-21"; season_end := "2026-06-30" |});
      ("2024-25", {| season_start := "2024-10-22"; season_end := "2025-06-17" |});
      ("2023-24", {| season_start := "2023-10-24"; season_end := "2024-06-17" |}) ].

(** ** Date-range generation: the [while] loop of [backfill_player] *)

Definition inspect {A} (a : A) : { b : A | a = b } := exist _ a eq_refl.

(** [while current <= end: dates.append(current.strftime(..)); current += timedelta(days=1)] *)
Equations? date_loop (current end_ : datetime) (dates : list string) : list string
  by wf (Z.to_nat (dt_ordinal end_ + 1 - dt_ordinal current)) lt :=
  date_loop current end_ dates with inspect (dt_le current end_) := {
    | exist _ true Hle =>
        date_loop (add_days current 1) end_ (dates ++ [strftime current]);
    | exist _ false _ => dates }.
Proof.
  unfold dt_le in Hle. simpl.
  destruct (Z.ltb_spec (dt_ordinal current) (dt_ordinal end_)); [lia|].
  destruct (Z.eqb_spec (dt_ordinal current) (dt_ordinal end_)); [lia|discriminate].
Qed.

(** [backfill_player], lines 247-254: clamp [end] to [today], then the loop. *)
Definition generate_dates (start end_ today : datetime) : list string :=
  let end_ := if dt_gt end_ today then today else end_ in
  date_loop start end_ [].

(** ** YahooDataCollector *)

Section YahooDataCollector.
Context `{PyRuntime} `{Services}.

Definition team_of (p : yahoo_player) : string :=
  match yp_editorial_team_abbr p with
  | Some (Some abbr) => abbr
  | Some None => "UNK"
  | None => "UNK"
  end.

Definition positions_of (p : yahoo_player) : list string :=
  match yp_eligible_positions p with
  | Some l => l
  | None => []
  end.

(** [get_league_players], lines 77-105. *)
Definition get_league_players : M (list player) :=
  print MsgFetchingPlayers ;;;
  try_except
    (_ <- call yahoo_get_league_info YahooLeagueInfo ;;
     players <- call yahoo_get_league_players YahooLeaguePlayers ;;
     let player_list :=
       map (fun p => {| player_key := yp_player_key p;
                        player_name := yp_name_full p;
                        team := team_of p;
                        positions := positions_of p |}) players in
     print (MsgPlayersFound (length player_list)) ;;;
     ret player_list)
    (fun e => print (MsgPlayersFailed e) ;;; ret []).

(** [get_player_stats_by_date], lines 134-138, the body of the inner [try]:
    [float(value)] when ['.' in value], [int(value)] otherwise. *)
Definition coerce (value : raw_value) : py_result number :=
  match value with
  | Text s =>
      if str_in "." s then
        match py_float s with
        | Some x => Returns (PyFloat x)
        | None => Raises (Exc ValueError "could not convert string to float")
        end
      else
        match py_int s with
        | Some n => Returns (PyInt n)
        | None => Raises (Exc ValueError "invalid literal for int() with base 10")
        end
  | NonText => Raises (Exc TypeError "argument is not iterable")
  end.

(** [except (ValueError, TypeError)] *)
Definition is_ValueError_or_TypeError (e : exception) : bool :=
  match exc_type e with
  | ValueError | TypeError => true
  | OtherException _ => false
  end.

(** Lines 128-141: [for stat in stats.player_stats.stats: ...]; an entry
    whose coercion raises is skipped by [continue]. *)
Fixpoint parse_stats (entries : list stat_entry) (stats_dict : gmap string number)
    : py_result (gmap string number) :=
  match entries with
  | [] => Returns stats_dict
  | None :: rest => parse_stats rest stats_dict
  | Some st :: rest =>
      match coerce (value st) with
      | Returns v => parse_stats rest (<[stat_id st := v]> stats_dict)
      | Raises e =>
          if is_ValueError_or_TypeError e then parse_stats rest stats_dict
          else Raises e
      end
  end.

(** [any(v > 0 for v in stats_dict.values() if isinstance(v, (int, float)))] *)
Definition any_positive (stats_dict : gmap string number) : bool :=
  existsb gt_zero (map_to_list stats_dict).*2.

(** [get_player_stats_by_date], lines 107-161. *)
Definition get_player_stats_by_date (player_key date : string) : M (option game_log) :=
  try_except
    (stats <- call (fun h => yahoo_get_player_stats_by_date h player_key date)
                   (YahooPlayerStats player_key date) ;;
     match stats with
     | Falsy | NoPlayerStats => ret None
     | PlayerStats attr =>
         stats_dict <- lift match attr with
                            | NoStats => Returns ∅
                            | NotIterable =>
                                Raises (Exc TypeError "object is not iterable")
                            | Entries l => parse_stats l ∅
                            end ;;
         let has_game := any_positive stats_dict in
         if negb has_game then ret None
         else
           let minutes_played := stats_dict !! "3" in
           ret (Some {| gl_date := date;
                        gl_stats := stats_dict;
                        gl_minutes_played := minutes_played;
                        gl_has_game := true |})
     end)
    (fun _ => ret None).

(** [save_game_log], lines 163-197. *)
Definition save_game_log (player_key player_name : string) (game_log : game_log)
    : M bool :=
  try_except
    (let data := {| row_player_key := player_key;
                    row_player_name := player_name;
                    row_game_date := gl_date game_log;
                    row_stats := gl_stats game_log;
                    row_minutes_played := gl_minutes_played game_log;
                    row_opponent := None;
                    row_home_away := None;
                    row_game_result := None |} in
     _ <- call (fun h => supabase_upsert h data) (SupabaseUpsert data) ;;
     ret true)
    (fun e => print (MsgSaveFailed player_key (gl_date game_log) e) ;;; ret false).

(** [get_existing_dates], lines 199-219. *)
Definition get_existing_dates (player_key : string) : M (gset string) :=
  try_except
    (result <- call (fun h => supabase_select h player_key)
                    (SupabaseSelect player_key) ;;
     ret (list_to_set result))
    (fun e => print (MsgQueryFailed e) ;;; ret ∅).

Definition incr_api_calls (s : BatchStats) : BatchStats :=
  {| bs_player_key := bs_player_key s; bs_player_name := bs_player_name s;
     total_dates := total_dates s; existing_games := existing_games s;
     new_games := new_games s; api_calls := S (api_calls s); errors := errors s |}.

Definition incr_new_games (s : BatchStats) : BatchStats :=
  {| bs_player_key := bs_player_key s; bs_player_name := bs_player_name s;
     total_dates := total_dates s; existing_games := existing_games s;
     new_games := S (new_games s); api_calls := api_calls s; errors := errors s |}.

Definition incr_errors (s : BatchStats) : BatchStats :=
  {| bs_player_key := bs_player_key s; bs_player_name := bs_player_name s;
     total_dates := total_dates s; existing_games := existing_games s;
     new_games := new_games s; api_calls := api_calls s; errors := S (errors s) |}.

(** Lines 277-288: [for date in dates: ...] of [backfill_player]. *)
Fixpoint fetch_loop (player_key player_name : string) (dates : list string)
    (stats : BatchStats) : M BatchStats :=
  match dates with
  | [] => ret stats
  | date :: rest =>
      game_log <- get_player_stats_by_date player_key date ;;
      let stats := incr_api_calls stats in
      stats <- match game_log with
               | Some game_log =>
                   saved <- save_game_log player_key player_name game_log ;;
                   ret (if saved : bool then incr_new_games stats
                        else incr_errors stats)
               | None => ret stats
               end ;;
      sleep 200 ;;;
      fetch_loop player_key player_name rest stats
  end.

(** [backfill_player], lines 221-290. *)
Definition backfill_player (player_key player_name start_date end_date : string)
    (skip_existing : bool) : M BatchStats :=
  start <- lift (strptime start_date) ;;
  end_ <- lift (strptime end_date) ;;
  today <- now ;;
  let dates := generate_dates start end_ today in
  filtered <- (if skip_existing then
                 existing_dates <- get_existing_dates player_key ;;
                 ret (existing_dates,
                      filter (fun d => d ∉ existing_dates) dates)
               else ret (∅, dates)) ;;
  let '(existing_dates, dates) := filtered in
  let stats := {| bs_player_key := player_key;
                  bs_player_name := player_name;
                  total_dates := length dates;
                  existing_games := size existing_dates;
                  new_games := 0;
                  api_calls := 0;
                  errors := 0 |} in
  if (length dates =? 0)%nat then ret stats
  else fetch_loop player_key player_name dates stats.

(** [players[:max_players]] *)
Definition slice_to {A} (l : list A) (stop : Z) : list A :=
  if 0 <=? stop then take (Z.to_nat stop) l
  else take (Z.to_nat (Z.of_nat (length l) + stop)) l.

Definition add_batch (t : SeasonTotals) (stats : BatchStats) : SeasonTotals :=
  {| total_players := total_players t;
     processed_players := processed_players t + 1;
     total_new_games := total_new_games t + new_games stats;
     total_api_calls := total_api_calls t + api_calls stats;
     total_errors := total_errors t + errors stats |}%nat.

(** Lines 335-362: [for i, player in enumerate(players, 1): ...] of
    [backfill_season]. *)
Fixpoint season_loop (n : nat) (info : season_info) (i : nat)
    (players : list player) (total_stats : SeasonTotals) : M SeasonTotals :=
  match players with
  | [] => ret total_stats
  | player :: rest =>
      print (MsgPlayerHeader i n (player_name player) (player_key player)) ;;;
      print MsgDashes ;;;
      stats <- backfill_player (player_key player) (player_name player)
                 (season_start info) (season_end info) true ;;
      let total_stats := add_batch total_stats stats in
      print (MsgExisting (existing_games stats)) ;;;
      print (MsgNew (new_games stats)) ;;;
      print (MsgApiCalls (api_calls stats)) ;;;
      (if (0 <? errors stats)%nat then print (MsgErrors (errors stats)) else ret tt) ;;;
      season_loop n info (S i) rest total_stats
  end.

(** [backfill_season], lines 292-372. *)
Definition backfill_season (season_key : string) (max_players : option Z) : M unit :=
  match SEASONS !! season_key with
  | None => print (MsgInvalidSeason season_key)
  | Some info =>
      print MsgRule ;;;
      print (MsgSeasonStart season_key) ;;;
      print (MsgDateRange (season_start info) (season_end info)) ;;;
      print MsgRule ;;;
      players <- get_league_players ;;
      match players with
      | [] => print MsgNoPlayers
      | _ :: _ =>
          players <- match max_players with
                     | Some n =>
                         if n =? 0 then ret players
                         else print (MsgLimit n) ;;; ret (slice_to players n)
                     | None => ret players
                     end ;;
          let total_stats := {| total_players := length players;
                                processed_players := 0;
                                total_new_games := 0;
                                total_api_calls := 0;
                                total_errors := 0 |} in
          total_stats <- season_loop (length players) info 1 players total_stats ;;
          print MsgRule ;;;
          print MsgDone ;;;
          print MsgRule ;;;
          print (MsgProcessed (processed_players total_stats)
                              (total_players total_stats)) ;;;
          print (MsgTotalNew (total_new_games total_stats)) ;;;
          print (MsgTotalApiCalls (total_api_calls total_stats)) ;;;
          print (MsgTotalErrors (total_errors total_stats)) ;;;
          print MsgRule
      end
  end.

End YahooDataCollector.

(** ** A runtime: CPython's [int] and [float] on text of code points 0..255 *)

Module CPython.

(** Whitespace for the numeric conversions: tab to carriage return,
    space, U+0085 and U+00A0. *)
Definition is_space (c : ascii) : bool :=
  let n := N_of_ascii c in
  ((9 <=? n) && (n <=? 13) || (n =? 32) || (n =? 133) || (n =? 160))%N.

Fixpoint lstrip (s : string) : string :=
  match s with
  | String c r => if is_space c then lstrip r else s
  | EmptyString => EmptyString
  end.

Fixpoint rstrip (s : string) : string :=
  match s with
  | String c r =>
      match rstrip r with
      | EmptyString => if is_space c then EmptyString else String c EmptyString
      | r' => String c r'
      end
  | EmptyString => EmptyString
  end.

Definition strip (s : string) : string := rstrip (lstrip s).

Definition split_sign (s : string) : bool * string :=
  match s with
  | String c r =>
      if Ascii.eqb c "-" then (true, r)
      else if Ascii.eqb c "+" then (false, r)
      else (false, s)
  | EmptyString => (false, s)
  end.

(** Digits with single underscores between them: the value and the number
    of digits. *)
Fixpoint int_digits (s : string) (after_digit : bool) (acc : Z) (count : nat)
    : option (Z * nat) :=
  match s with
  | EmptyString => if after_digit then Some (acc, count) else None
  | String c r =>
      match digit_of c with
      | Some d => int_digits r true (10 * acc + d) (S count)
      | None =>
          if Ascii.eqb c "_" && after_digit then int_digits r false acc count
          else None
      end
  end.

(** [sys.get_int_max_str_digits()] *)
Definition int_max_str_digits : nat := 4300.

(** [int(s)] *)
Definition int (s : string) : option Z :=
  let '(negative, body) := split_sign (strip s) in
  match int_digits body false 0 0 with
  | Some (n, count) =>
      if (int_max_str_digits <? count)%nat then None
      else Some (if negative : bool then - n else n)
  | None => None
  end.

Definition is_digit (c : ascii) : bool :=
  match digit_of c with Some _ => true | None => false end.

(** An underscore stands between two digits. *)
Fixpoint underscores_ok (s : string) (prev : ascii) : bool :=
  match s with
  | EmptyString => negb (Ascii.eqb prev "_")
  | String c r =>
      (if Ascii.eqb c "_" then is_digit prev
       else negb (Ascii.eqb prev "_") || is_digit c)
      && underscores_ok r c
  end.

Fixpoint remove_underscores (s : string) : string :=
  match s with
  | EmptyString => EmptyString
  | String c r =>
      if Ascii.eqb c "_" then remove_underscores r
      else String c (remove_underscores r)
  end.

Fixpoint take_digits (s : string) (acc : Z) (count : nat) : Z * nat * string :=
  match s with
  | String c r =>
      match digit_of c with
      | Some d => take_digits r (10 * acc + d) (S count)
      | None => (acc, count, s)
      end
  | EmptyString => (acc, count, s)
  end.

Definition lower (c : ascii) : ascii :=
  let n := N_of_ascii c in
  if ((65 <=? n) && (n <=? 90))%N then ascii_of_N (n + 32) else c.

Fixpoint lowercase (s : string) : string :=
  match s with
  | EmptyString => EmptyString
  | String c r => String (lower c) (lowercase r)
  end.

(** The exponent part: empty, or [e], an optional sign and digits. *)
Definition exponent (s : string) : option Z :=
  match s with
  | EmptyString => Some 0
  | String c r =>
      if Ascii.eqb (lower c) "e" then
        let '(negative, r) := split_sign r in
        match take_digits r 0 0 with
        | (e, S _, EmptyString) => Some (if negative : bool then - e else e)
        | _ => None
        end
      else None
  end.

(** The binary64 value nearest to [digits * 10 ^ exp10], ties to even. *)
Definition binary64_of_decimal (negative : bool) (digits exp10 : Z) : spec_float :=
  match digits with
  | Zpos m =>
      if 0 <=? exp10 then
        binary_round 53 1024 negative (m * Z.to_pos (10 ^ exp10)) 0
      else
        let '(q, e, l) :=
          SFdiv_core_binary 53 1024 (Zpos m) 0 (10 ^ (- exp10)) 0 in
        binary_round_aux 53 1024 negative q e l
  | _ => S754_zero negative
  end.

(** [float(s)] *)
Definition float (s : string) : option spec_float :=
  if negb (underscores_ok s "000") then None
  else
    let '(negative, body) := split_sign (strip (remove_underscores s)) in
    let name := lowercase body in
    if String.eqb name "inf" || String.eqb name "infinity"
    then Some (S754_infinity negative)
    else if String.eqb name "nan" then Some S754_nan
    else
      let '(int_part, n1, rest) := take_digits body 0 0 in
      let '(mantissa, n2, rest) :=
        match rest with
        | String c r => if Ascii.eqb c "." then take_digits r int_part 0
                        else (int_part, 0%nat, rest)
        | EmptyString => (int_part, 0%nat, rest)
        end in
      if (n1 + n2 =? 0)%nat then None
      else
        match exponent rest with
        | Some e => Some (binary64_of_decimal negative mantissa (e - Z.of_nat n2))
        | None => None
        end.

#[export] Instance runtime : PyRuntime := {| py_int := int; py_float := float |}.

End CPython.

(** ** Vocabulary of the specification *)

Section Vocabulary.
Context `{PyRuntime} `{Services}.

(** The value of a result, when there is one. *)
Definition value_of {A} (r : py_result A) : option A :=
  match r with
  | Returns a => Some a
  | Raises _ => None
  end.

(** The raw stat entries of an answer of the remote call; none when the
    call raises or there is no stats payload. *)
Definition payload_entries (r : py_result stats_response) : list stat_entry :=
  match r with
  | Returns (PlayerStats (Entries l)) => l
  | _ => []
  end.

(** An entry with its coerced value, when the coercion succeeds. *)
Definition coerced_entry (entry : stat_entry) : option (string * number) :=
  match entry with
  | Some st => (fun v => (stat_id st, v)) <$> value_of (coerce (value st))
  | None => None
  end.

(** The coerced stat mapping: the entries that coerce, a later entry for
    a stat id replacing an earlier one. *)
Definition coerced_mapping (entries : list stat_entry) : gmap string number :=
  foldl (fun m kv => <[kv.1 := kv.2]> m) ∅ (omap coerced_entry entries).

(** "At least one coerced value is strictly greater than zero." *)
Definition has_positive (m : gmap string number) : Prop :=
  exists k v, m !! k = Some v /\ gt_zero v = true.

(** The game record for a date and a stat mapping. *)
Definition game_record (date : string) (m : gmap string number) : game_log :=
  {| gl_date := date; gl_stats := m; gl_minutes_played := m !! "3";
     gl_has_game := true |}.

(** What the fetcher returns for an answer of the remote call. *)
Definition fetched (date : string) (r : py_result stats_response) : option game_log :=
  let m := coerced_mapping (payload_entries r) in
  if any_positive m then Some (game_record date m) else None.

(** The calls to the remote stats query in a history, in order. *)
Definition fetch_calls (h : history) : list (string * string) :=
  omap (fun ev => match ev with
                  | YahooPlayerStats k d _ => Some (k, d)
                  | _ => None
                  end) h.

Definition count_events (f : event -> bool) (h : history) : nat :=
  length (List.filter f h).

Definition is_roster_fetch (ev : event) : bool :=
  match ev with
  | YahooLeagueInfo _ | YahooLeaguePlayers _ => true
  | _ => false
  end.

Definition is_upsert (ev : event) : bool :=
  match ev with SupabaseUpsert _ _ => true | _ => false end.

Definition is_saved (ev : event) : bool :=
  match ev with SupabaseUpsert _ (Returns _) => true | _ => false end.

Definition is_failed_save (ev : event) : bool :=
  match ev with SupabaseUpsert _ (Raises _) => true | _ => false end.

(** The set the existing-record filter gives for a player key at a
    history, and what its query adds to the history. *)
Definition existing_set (h : history) (player_key : string) : gset string :=
  match supabase_select h player_key with
  | Returns rows => list_to_set rows
  | Raises _ => ∅
  end.

Definition existing_query (h : history) (player_key : string) : history :=
  match supabase_select h player_key with
  | Returns rows => [SupabaseSelect player_key (Returns rows)]
  | Raises e => [SupabaseSelect player_key (Raises e); Print (MsgQueryFailed e)]
  end.

(** The counters [after] are the counters [before] advanced by the
    interactions [h] of a loop over [dates]: one remote call per date, in
    order; a new game per upsert that succeeds, an error per upsert that
    fails, at most one upsert per date; nothing else moves. *)
Definition advanced_by (player_key : string) (dates : list string) (h : history)
    (before after : BatchStats) : Prop :=
  fetch_calls h = (fun d => (player_key, d)) <$> dates
  /\ api_calls after = (api_calls before + length dates)%nat
  /\ new_games after = (new_games before + count_events is_saved h)%nat
  /\ errors after = (errors before + count_events is_failed_save h)%nat
  /\ (count_events is_saved h + count_events is_failed_save h <= length dates)%nat
  /\ count_events is_roster_fetch h = 0%nat
  /\ total_dates after = total_dates before
  /\ existing_games after = existing_games before
  /\ bs_player_key after = bs_player_key before
  /\ bs_player_name after = bs_player_name before.

(** What the season loop prints after an entity's run. *)
Definition progress_lines (stats : BatchStats) : history :=
  [Print (MsgExisting (existing_games stats));
   Print (MsgNew (new_games stats));
   Print (MsgApiCalls (api_calls stats))]
  ++ (if (0 <? errors stats)%nat then [Print (MsgErrors (errors stats))] else []).

(** What a season run prints before it fetches the roster. *)
Definition season_banner (season_key : string) (info : season_info) : history :=
  [Print MsgRule; Print (MsgSeasonStart season_key);
   Print (MsgDateRange (season_start info) (season_end info)); Print MsgRule].

(** The final summary of a season run. *)
Definition summary_lines (t : SeasonTotals) : history :=
  [Print MsgRule; Print MsgDone; Print MsgRule;
   Print (MsgProcessed (processed_players t) (total_players t));
   Print (MsgTotalNew (total_new_games t));
   Print (MsgTotalApiCalls (total_api_calls t));
   Print (MsgTotalErrors (total_errors t));
   Print MsgRule].

(** The per-entity runs of a season: [entity_runs n info i players h l h']
    when, from the history [h], the entities [players] (numbered from [i]
    out of [n]) are backfilled one after the other with
    [skip_existing = true], giving the BatchStats [l] in listing order and
    leaving the history [h']. *)
Inductive entity_runs (n : nat) (info : season_info)
    : nat -> list player -> history -> list BatchStats -> history -> Prop :=
| entity_runs_nil i h : entity_runs n info i [] h [] h
| entity_runs_cons i p players h stats h1 l h2 :
    backfill_player (player_key p) (player_name p)
      (season_start info) (season_end info) true
      (h ++ [Print (MsgPlayerHeader i n (player_name p) (player_key p));
             Print MsgDashes])
    = (Returns stats, h1) ->
    entity_runs n info (S i) players (h1 ++ progress_lines stats) l h2 ->
    entity_runs n info i (p :: players) h (stats :: l) h2.

Definition sum_of (f : BatchStats -> nat) (l : list BatchStats) : nat :=
  foldr (fun s acc => (f s + acc)%nat) 0%nat l.

(** The numbers a season summary reports. *)
Definition reported_counters (t : SeasonTotals) : list nat :=
  [total_players t; processed_players t; total_new_games t;
   total_api_calls t; total_errors t].

(** The entities a season run processes: the roster, cut at the cap. *)
Definition capped (players : list player) (max_players : option Z) : list player :=
  match max_players with
  | Some n => if n =? 0 then players else slice_to players n
  | None => players
  end.

End Vocabulary.

(** ** A concrete run: the end-to-end scenario of the specification

    Entity "nba.p.123"; the remote has a game on 2024-10-22 (stat "3" is
    "34", another stat is "10"), fails on 2024-10-23 and has all zeros on
    2024-10-24; the store keeps what is upserted. *)

Module Scenario.

Definition entry (id text : string) : stat_entry :=
  Some {| stat_id := id; value := Text text |}.

Definition remote (player_key date : string) : py_result stats_response :=
  if String.eqb date "2024-10-22" then
    Returns (PlayerStats (Entries [entry "3" "34"; entry "12" "10"]))
  else if String.eqb date "2024-10-23" then
    Raises (Exc (OtherException "HTTPError") "503")
  else if String.eqb date "2024-10-24" then
    Returns (PlayerStats (Entries [entry "3" "0"; entry "12" "0"; entry "5" "0.0"]))
  else Returns Falsy.

(** The dates stored for a player key by the upserts of a history. *)
Definition stored_dates (h : history) (player_key : string) : list string :=
  omap (fun ev => match ev with
                  | SupabaseUpsert data (Returns _) =>
                      if String.eqb (row_player_key data) player_key
                      then Some (row_game_date data) else None
                  | _ => None
                  end) h.

Definition roster : list yahoo_player :=
  [ {| yp_player_key := "nba.p.123"; yp_name_full := "A Player";
       yp_editorial_team_abbr := Some None;
       yp_eligible_positions := Some ["PG"; "SG"] |} ].

(** Noon of the day with the given ordinal. *)
Definition noon (ordinal : Z) : datetime :=
  {| dt_ordinal := ordinal; dt_time := 43200000000 |}.

(** The collaborators, with the dates the store holds at the start, the
    error of the store's queries and upserts if they fail, and the clock. *)
Definition services (initial : list string)
    (select_error upsert_error : option exception) (today : datetime) : Services :=
  {| yahoo_get_league_info := fun _ => Returns tt;
     yahoo_get_league_players := fun _ => Returns roster;
     yahoo_get_player_stats_by_date := fun _ => remote;
     supabase_select := fun h k =>
       match select_error with
       | Some e => Raises e
       | None => Returns (initial ++ stored_dates h k)
       end;
     supabase_upsert := fun _ _ =>
       match upsert_error with
       | Some e => Raises e
       | None => Returns tt
       end;
     datetime_now := fun _ => today |}.

(** 2024-11-01, after the window. *)
Definition november : datetime := noon 739191.

(** 2024-10-24, inside the 2024-25 season. *)
Definition october_24 : datetime := noon 739183.

Definition store_down : exception := Exc (OtherException "APIError") "timeout".

(** Nothing stored, the clock after the window. *)
Definition fresh : Services := services [] None None november.

(** 2024-10-23 already stored. *)
Definition one_stored : Services := services ["2024-10-23"] None None november.

(** A date of an earlier season stored, none of the window. *)
Definition old_row : Services := services ["2023-01-01"] None None november.

(** The store's queries fail. *)
Definition store_failing : Services :=
  services [] (Some store_down) None november.

(** The third day of the 2024-25 season, its first two days stored. *)
Definition half_stored : Services :=
  services ["2024-10-22"; "2024-10-23"] None None october_24.


End Scenario.

(** ** Vocabulary for the traces of a run *)

Section Traces.
Context `{PyRuntime} `{Services}.

Definition is_stats_call (ev : event) : bool :=
  match ev with YahooPlayerStats _ _ _ => true | _ => false end.

Definition is_sleep (ev : event) : bool :=
  match ev with Sleep _ => true | _ => false end.

Definition is_select (ev : event) : bool :=
  match ev with SupabaseSelect _ _ => true | _ => false end.

(** The rows given to the store's upsert in a history, in order. *)
Definition upserts (h : history) : list game_log_row :=
  omap (fun ev => match ev with
                  | SupabaseUpsert data _ => Some data
                  | _ => None
                  end) h.

(** The player keys of the store's selects in a history, in order. *)
Definition selects (h : history) : list string :=
  omap (fun ev => match ev with
                  | SupabaseSelect k _ => Some k
                  | _ => None
                  end) h.

(** The dates whose upsert for a player key succeeded in a history. *)
Definition saved_dates (h : history) (player_key : string) : list string :=
  omap (fun ev => match ev with
                  | SupabaseUpsert data (Returns _) =>
                      if decide (row_player_key data = player_key)
                      then Some (row_game_date data) else None
                  | _ => None
                  end) h.

(** A history without remote stats call, upsert, select or pause. *)
Definition quiet (h : history) : Prop :=
  count_events is_stats_call h = 0%nat
  /\ count_events is_saved h = 0%nat
  /\ count_events is_failed_save h = 0%nat
  /\ count_events is_sleep h = 0%nat
  /\ selects h = []
  /\ upserts h = [].

(** The row [save_game_log] builds, lines 176-185. *)
Definition row_of (player_key player_name : string) (g : game_log) : game_log_row :=
  {| row_player_key := player_key; row_player_name := player_name;
     row_game_date := gl_date g; row_stats := gl_stats g;
     row_minutes_played := gl_minutes_played g;
     row_opponent := None; row_home_away := None; row_game_result := None |}.

(** What one turn of the loop of [backfill_player] adds to the history for
    a date: the remote call, the upsert of the record if there is one (and
    the diagnostic if the upsert fails), the pause. *)
Inductive iteration (player_key player_name date : string) : history -> Prop :=
| iteration_no_game r :
    fetched date r = None ->
    iteration player_key player_name date
      [YahooPlayerStats player_key date r; Sleep 200]
| iteration_saved r g u :
    fetched date r = Some g ->
    iteration player_key player_name date
      [YahooPlayerStats player_key date r;
       SupabaseUpsert (row_of player_key player_name g) (Returns u);
       Sleep 200]
| iteration_failed r g e :
    fetched date r = Some g ->
    iteration player_key player_name date
      [YahooPlayerStats player_key date r;
       SupabaseUpsert (row_of player_key player_name g) (Raises e);
       Print (MsgSaveFailed player_key date e);
       Sleep 200].

(** A history made of one turn per date, in order. *)
Definition iterations (player_key player_name : string) (dates : list string)
    (h : history) : Prop :=
  exists blocks,
    h = concat blocks
    /\ Forall2 (iteration player_key player_name) dates blocks.

(** Every remote stats call of a history is followed by a pause of 200 ms
    before the next remote stats call, and there is no other pause. *)
Inductive paced : history -> Prop :=
| paced_nil : paced []
| paced_call player_key date r between rest :
    count_events is_stats_call between = 0%nat ->
    count_events is_sleep between = 0%nat ->
    paced rest ->
    paced (YahooPlayerStats player_key date r :: between ++ Sleep 200 :: rest).

(** The value that the entry gives to the stat id [k], if it coerces. *)
Definition entry_value_for (k : string) (entry : stat_entry) : option number :=
  match coerced_entry entry with
  | Some (k', v) => if decide (k' = k) then Some v else None
  | None => None
  end.

(** How many entities a season run processes for a roster and a cap. *)
Definition processed_count (roster_size : nat) (max_players : option Z) : nat :=
  match max_players with
  | None => roster_size
  | Some n =>
      if n =? 0 then roster_size
      else if 0 <? n then Nat.min (Z.to_nat n) roster_size
      else Z.to_nat (Z.of_nat roster_size + n)
  end.

End Traces.

(** ** The command line: [__init__] and [main] *)

(** The environment variables the module reads when it is loaded, each
    unset ([None]) or set to a text. *)
Record environ := {
  SUPABASE_URL : option string;
  SUPABASE_KEY : option string;
  YAHOO_CLIENT_ID : option string;
  YAHOO_CLIENT_SECRET : option string;
  YAHOO_LEAGUE_ID : option string
}.

(** Truth value of a variable that is [None] or a [str]. *)
Definition truthy (v : option string) : bool :=
  match v with
  | Some (String _ _) => true
  | _ => false
  end.

(** The constructors of the two clients, which may raise. *)
Class Clients := {
  create_client : string -> string -> py_result unit;
  new_yahoo_query :
    string -> string -> Z -> option string -> option string -> py_result unit
}.

(** What [main] and [__init__] print, one constructor per [print]: the
    rule after a line feed (line 378), the title (379), the rule before a
    line feed (380), the lines of the two usage errors (384-389 and
    398-400), the line of [__init__] (75), the notice of line 429 and the
    error of line 432. *)
Inductive main_message :=
| MainRuleTop
| MainTitle
| MainRuleBottom
| MainMissingEnv
| MainNeeds
| MainNeedsVariable (name : string)
| MainNoLeague
| MainUsage
| MainOrEnvironment
| MainInitialized (game_code league_id : string) (season : Z)
| MainInterrupted
| MainError (e : exception).

(** What a process does: its own prints, the construction of the clients,
    the interactions of the season run, the traceback. *)
Inductive process_event :=
| Out (m : main_message)
| CreateClient (url key : string) (r : py_result unit)
| NewYahooQuery (league_id game_code : string) (season : Z) (r : py_result unit)
| Core (ev : event)
| Traceback (e : exception).

Section CommandLine.
Context `{PyRuntime} `{Services} `{Clients}.

(** [YahooDataCollector.__init__], lines 47-75. *)
Definition init (env : environ) (league_id game_code : string) (season : Z)
    : py_result unit * list process_event :=
  if negb (truthy (SUPABASE_URL env)) || negb (truthy (SUPABASE_KEY env)) then
    (Raises (Exc ValueError "Supabase credentials not found in .env"), [])
  else
    let url := default "" (SUPABASE_URL env) in
    let key := default "" (SUPABASE_KEY env) in
    match create_client url key with
    | Raises e => (Raises e, [CreateClient url key (Raises e)])
    | Returns u =>
        match new_yahoo_query league_id game_code season
                (YAHOO_CLIENT_ID env) (YAHOO_CLIENT_SECRET env) with
        | Raises e =>
            (Raises e,
             [CreateClient url key (Returns u);
              NewYahooQuery league_id game_code season (Raises e)])
        | Returns q =>
            (Returns tt,
             [CreateClient url key (Returns u);
              NewYahooQuery league_id game_code season (Returns q);
              Out (MainInitialized game_code league_id season)])
        end
    end.

(** Line 383: [all([SUPABASE_URL, SUPABASE_KEY, YAHOO_CLIENT_ID, YAHOO_CLIENT_SECRET])]. *)
Definition credentials_present (env : environ) : bool :=
  truthy (SUPABASE_URL env) && truthy (SUPABASE_KEY env)
  && truthy (YAHOO_CLIENT_ID env) && truthy (YAHOO_CLIENT_SECRET env).

(** Lines 393-395: the league id of the environment, replaced by the first
    argument of the command line when there is one. *)
Definition league_id_of (env : environ) (argv : list string) : option string :=
  match argv !! 1%nat with
  | Some a => Some a
  | None => YAHOO_LEAGUE_ID env
  end.

(** Lines 404-412: the season label and the cap of the command line. *)
Definition season_key_of (argv : list string) : string :=
  default "2024-25" (argv !! 2%nat).

Definition max_players_of (argv : list string) : option Z :=
  match argv !! 3%nat with
  | Some a => py_int a
  | None => None
  end.

(** The [try] block of [main], lines 414-426, when it is left to run: the
    collector is constructed, then the season is run on it. The history of
    the season run starts with the collector. *)
Definition collect (env : environ) (argv : list string)
    : py_result unit * list process_event :=
  match init env (default "" (league_id_of env argv)) "nba" 2025 with
  | (Raises e, evs) => (Raises e, evs)
  | (Returns _, evs) =>
      match backfill_season (season_key_of argv) (max_players_of argv) [] with
      | (r, h) => (r, evs ++ (Core <$> h))
      end
  end.

(** [main], lines 375-435: the exit status of [sys.exit], or [None] when
    [main] returns, and what the process did.

    The user's interrupt is an input of the process. [KeyboardInterrupt]
    is no [Exception]: no handler of the collector catches it, so that
    from any step of the [try] block it reaches the handler of line 428.
    [interrupt] is [Some n] when it is raised by the step of the [try]
    block that would give the block's event of index [n] (a call, a print
    or a pause), which then gives no event; it is [None], or an index the
    block does not reach, when the block is not interrupted. *)
Definition main (env : environ) (argv : list string) (interrupt : option nat)
    : option Z * list process_event :=
  let banner := [Out MainRuleTop; Out MainTitle; Out MainRuleBottom] in
  if negb (credentials_present env) then
    (Some 1,
     banner ++ [Out MainMissingEnv; Out MainNeeds;
                Out (MainNeedsVariable "NEXT_PUBLIC_SUPABASE_URL");
                Out (MainNeedsVariable "NEXT_PUBLIC_SUPABASE_ANON_KEY");
                Out (MainNeedsVariable "YAHOO_CLIENT_ID");
                Out (MainNeedsVariable "YAHOO_CLIENT_SECRET")])
  else
    if negb (truthy (league_id_of env argv)) then
      (Some 1, banner ++ [Out MainNoLeague; Out MainUsage; Out MainOrEnvironment])
    else
      let '(r, evs) := collect env argv in
      let uninterrupted :=
        match r with
        | Returns _ => (None, banner ++ evs)
        | Raises e => (Some 1, banner ++ evs ++ [Out (MainError e); Traceback e])
        end in
      match interrupt with
      | Some n =>
          if (n <? length evs)%nat
          then (Some 0, banner ++ take n evs ++ [Out MainInterrupted])
          else uninterrupted
      | None => uninterrupted
      end.

(** The environment with another league id. *)
Definition with_league_id (env : environ) (v : option string) : environ :=
  {| SUPABASE_URL := SUPABASE_URL env; SUPABASE_KEY := SUPABASE_KEY env;
     YAHOO_CLIENT_ID := YAHOO_CLIENT_ID env;
     YAHOO_CLIENT_SECRET := YAHOO_CLIENT_SECRET env;
     YAHOO_LEAGUE_ID := v |}.

Definition is_output (ev : process_event) : bool :=
  match ev with Out _ => true | _ => false end.

End CommandLine.

(** ** More concrete runs *)

Module Cases.

(** The clients are constructed without error. *)
Definition clients_ok : Clients :=
  {| create_client := fun _ _ => Returns tt;
     new_yahoo_query := fun _ _ _ _ _ => Returns tt |}.

(** The construction of the Yahoo query fails. *)
Definition clients_failing : Clients :=
  {| create_client := fun _ _ => Returns tt;
     new_yahoo_query := fun _ _ _ _ _ =>
       Raises (Exc (OtherException "OAuthError") "no token") |}.

Definition full_env : environ :=
  {| SUPABASE_URL := Some "https://db.example"; SUPABASE_KEY := Some "anon";
     YAHOO_CLIENT_ID := Some "id"; YAHOO_CLIENT_SECRET := Some "secret";
     YAHOO_LEAGUE_ID := Some "12345" |}.

(** The Yahoo secret is set to the empty text. *)
Definition env_without_secret : environ :=
  {| SUPABASE_URL := Some "https://db.example"; SUPABASE_KEY := Some "anon";
     YAHOO_CLIENT_ID := Some "id"; YAHOO_CLIENT_SECRET := Some "";
     YAHOO_LEAGUE_ID := Some "12345" |}.

(** The roster cannot be fetched. *)
Definition no_roster : Services :=
  {| yahoo_get_league_info := fun _ => Returns tt;
     yahoo_get_league_players := fun _ =>
       Raises (Exc (OtherException "HTTPError") "503");
     yahoo_get_player_stats_by_date := fun _ => Scenario.remote;
     supabase_select := fun _ _ => Returns [];
     supabase_upsert := fun _ _ => Returns tt;
     datetime_now := fun _ => Scenario.october_24 |}.

(** Three players, on the third day of the 2024-25 season. *)
Definition three_players : Services :=
  {| yahoo_get_league_info := fun _ => Returns tt;
     yahoo_get_league_players := fun _ =>
       Returns
         [ {| yp_player_key := "nba.p.1"; yp_name_full := "One";
              yp_editorial_team_abbr := Some (Some "LAL");
              yp_eligible_positions := None |};
           {| yp_player_key := "nba.p.2"; yp_name_full := "Two";
              yp_editorial_team_abbr := None;
              yp_eligible_positions := Some ["C"] |};
           {| yp_player_key := "nba.p.3"; yp_name_full := "Three";
              yp_editorial_team_abbr := Some None;
              yp_eligible_positions := Some [] |} ];
     yahoo_get_player_stats_by_date := fun _ => Scenario.remote;
     supabase_select := fun h k => Returns (Scenario.stored_dates h k);
     supabase_upsert := fun _ _ => Returns tt;
     datetime_now := fun _ => Scenario.october_24 |}.

(** The upserts fail. *)
Definition upsert_failing : Services :=
  Scenario.services [] None (Some Scenario.store_down) Scenario.november.

End Cases.

(** * Properties *)

(** ** Text *)


(** ** Dates *)

Lemma dt_le_midnight (c e : Z) (t : N) :
  dt_le (midnight c) {| dt_ordinal := e; dt_time := t |} = (c <=? e).
Proof.
  unfold dt_le; simpl.
  destruct (Z.ltb_spec c e), (Z.eqb_spec c e), (Z.leb_spec c e); simpl;
    try lia; try reflexivity.
  destruct (N.leb_spec 0 t); [reflexivity | lia].
Qed.

(** The calendar: [ymd2ord] undoes [ord2ymd], and [strptime] reads back
    what [strftime] writes from the year 1000 on. *)

Lemma month_day_ok_all (leapyear : bool) (n : Z) :
  0 <= n < 365 -> month_day_ok leapyear n = true.
Proof.
  intros Hn.
  assert (Hall : forallb (fun n => month_day_ok true n && month_day_ok false n) (seqZ 0 365) = true)
    by (vm_compute; reflexivity).
  rewrite forallb_forall in Hall.
  specialize (Hall n). rewrite andb_true_iff in Hall.
  destruct leapyear; apply Hall; apply list_elem_of_In, elem_of_seqZ; lia.
Qed.

Lemma ord2ymd_unfold (o : Z) :
  ord2ymd o =
  let n := o - 1 in
  let n400 := n / 146097 in
  let n := n mod 146097 in
  let n100 := n / 36524 in
  let n := n mod 36524 in
  let n4 := n / 1461 in
  let n := n mod 1461 in
  let n1 := n / 365 in
  let n := n mod 365 in
  let year := n400 * 400 + 1 + n100 * 100 + n4 * 4 + n1 in
  if (n1 =? 4) || (n100 =? 4) then (year - 1, 12, 31)
  else let '(m, d) := month_day ((n1 =? 3) && (negb (n4 =? 24) || (n100 =? 3))) n in (year, m, d).
Proof.
  unfold ord2ymd, month_day. cbv zeta.
  destruct (_ || _); [reflexivity|].
  destruct (_ <? _); reflexivity.
Qed.

Lemma ord2ymd_spec (o : Z) :
  1 <= o ->
  let '(y, m, d) := ord2ymd o in
  ymd2ord y m d = o /\ 1 <= y /\ 1 <= m <= 12 /\ 1 <= d <= days_in_month y m
  /\ (o <= 3652059 -> y <= 9999).
Proof.
  intros Ho. rewrite ord2ymd_unfold. cbv zeta.
  set (n0 := o - 1).
  set (n400 := n0 / 146097). set (r := n0 mod 146097).
  set (n100 := r / 36524). set (r1 := r mod 36524).
  set (n4 := r1 / 1461). set (r2 := r1 mod 1461).
  set (n1 := r2 / 365). set (r3 := r2 mod 365).
  assert (H0 : n0 = 146097 * n400 + r /\ 0 <= r < 146097)
    by (subst n400 r; pose proof (Z.div_mod n0 146097); pose proof (Z.mod_pos_bound n0 146097); lia).
  assert (H1 : r = 36524 * n100 + r1 /\ 0 <= r1 < 36524)
    by (subst n100 r1; pose proof (Z.div_mod r 36524); pose proof (Z.mod_pos_bound r 36524); lia).
  assert (H2 : r1 = 1461 * n4 + r2 /\ 0 <= r2 < 1461)
    by (subst n4 r2; pose proof (Z.div_mod r1 1461); pose proof (Z.mod_pos_bound r1 1461); lia).
  assert (H3 : r2 = 365 * n1 + r3 /\ 0 <= r3 < 365)
    by (subst n1 r3; pose proof (Z.div_mod r2 365); pose proof (Z.mod_pos_bound r2 365); lia).
  assert (Hn400 : 0 <= n400) by (subst n400; apply Z.div_pos; lia).
  clearbody n400 r n100 r1 n4 r2 n1 r3.
  assert (Hb : 0 <= n100 <= 4 /\ 0 <= n4 <= 24 /\ 0 <= n1 <= 4) by lia.
  assert (Hleap : forall b n4' n1', 0 <= b <= 3 -> 0 <= n4' <= 24 -> 0 <= n1' <= 3 ->
            is_leap (n400 * 400 + 1 + b * 100 + n4' * 4 + n1')
            = (n1' =? 3) && (negb (n4' =? 24) || (b =? 3))).
  { intros b n4' n1' Hb1 Hb2 Hb3. unfold is_leap.
    destruct (Z.eqb_spec n1' 3), (Z.eqb_spec n4' 24), (Z.eqb_spec b 3);
      repeat match goal with
             | |- context [?x mod ?k =? 0] => destruct (Z.eqb_spec (x mod k) 0)
             end; simpl; try reflexivity; exfalso;
      Z.div_mod_to_equations; lia. }
  assert (Hdby : forall b n4' n1', 0 <= b <= 3 -> 0 <= n4' <= 24 -> 0 <= n1' <= 3 ->
            days_before_year (n400 * 400 + 1 + b * 100 + n4' * 4 + n1')
            = 146097 * n400 + 36524 * b + 1461 * n4' + 365 * n1').
  { intros b n4' n1' Hb1 Hb2 Hb3. unfold days_before_year. cbv zeta.
    Z.div_mod_to_equations. lia. }
  destruct (Z.eqb_spec n1 4) as [E1|E1]; [|destruct (Z.eqb_spec n100 4) as [E2|E2]]; simpl orb; cbv iota.
  - (* the last day of a leap year *)
    assert (n100 <= 3 /\ n4 <= 23 /\ r3 = 0) as (Hc & Hn4 & ->) by lia.
    replace (n400 * 400 + 1 + n100 * 100 + n4 * 4 + n1 - 1)
      with (n400 * 400 + 1 + n100 * 100 + n4 * 4 + 3) by lia.
    unfold ymd2ord, days_before_month, days_in_month.
    rewrite Hleap, Hdby by lia.
    destruct (Z.eqb_spec n4 24); [lia|]. simpl. lia.
  - (* the last day of a cycle of 400 years *)
    assert (n4 = 0 /\ n1 = 0 /\ r3 = 0) as (-> & -> & ->) by lia.
    replace (n400 * 400 + 1 + n100 * 100 + 0 * 4 + 0 - 1)
      with (n400 * 400 + 1 + 3 * 100 + 24 * 4 + 3) by lia.
    unfold ymd2ord, days_before_month, days_in_month.
    rewrite Hleap, Hdby by lia. simpl. lia.
  - assert (Hc : n100 <= 3 /\ n1 <= 3) by lia.
    pose proof (month_day_ok_all ((n1 =? 3) && (negb (n4 =? 24) || (n100 =? 3))) r3
                  ltac:(lia)) as Hok.
    unfold month_day_ok in Hok.
    destruct (month_day _ r3) as [m d].
    rewrite !andb_true_iff in Hok. destruct Hok as ((((Hm1 & Hm2) & Hd1) & Hd2) & Hsum).
    unfold ymd2ord, days_before_month, days_in_month.
    rewrite Hleap, Hdby by lia.
    set (leap := (n1 =? 3) && (negb (n4 =? 24) || (n100 =? 3))) in *.
    split; [lia|]. split; [lia|]. split; [lia|]. split; [|lia].
    split; [lia|].
    assert (Hm : m = 1 \/ m = 2 \/ m = 3 \/ m = 4 \/ m = 5 \/ m = 6 \/ m = 7
                 \/ m = 8 \/ m = 9 \/ m = 10 \/ m = 11 \/ m = 12) by lia.
    repeat destruct Hm as [-> | Hm]; try subst m; simpl in *; lia.
Qed.

Lemma digit_of_char (k : Z) : digit_of (digit_char k) = Some (k mod 10).
Proof.
  unfold digit_char. pose proof (Z.mod_pos_bound k 10 ltac:(lia)) as Hk.
  assert (Hc : k mod 10 = 0 \/ k mod 10 = 1 \/ k mod 10 = 2 \/ k mod 10 = 3
               \/ k mod 10 = 4 \/ k mod 10 = 5 \/ k mod 10 = 6 \/ k mod 10 = 7
               \/ k mod 10 = 8 \/ k mod 10 = 9) by lia.
  repeat destruct Hc as [-> | Hc]; try rewrite Hc; reflexivity.
Qed.

Lemma re_month_two_digits (m : Z) (rest : string) :
  1 <= m <= 12 ->
  re_month (two_digits m +:+ String "-" rest) = Some (m, String "-" rest).
Proof.
  intros Hm.
  assert (Hc : m = 1 \/ m = 2 \/ m = 3 \/ m = 4 \/ m = 5 \/ m = 6 \/ m = 7
               \/ m = 8 \/ m = 9 \/ m = 10 \/ m = 11 \/ m = 12) by lia.
  repeat destruct Hc as [-> | Hc]; try subst m; reflexivity.
Qed.

Lemma re_day_two_digits (d : Z) :
  1 <= d <= 31 -> re_day (two_digits d) = Some (d, EmptyString).
Proof.
  intros Hd.
  assert (Hall : forallb (fun d => match re_day (two_digits d) with
                                   | Some (d', EmptyString) => d' =? d
                                   | _ => false
                                   end) (seqZ 1 31) = true)
    by (vm_compute; reflexivity).
  rewrite forallb_forall in Hall.
  assert (Htrue := Hall d ltac:(apply list_elem_of_In, elem_of_seqZ; lia)).
  destruct (re_day (two_digits d)) as [[d' [|]]|]; try discriminate.
  apply Z.eqb_eq in Htrue. now subst.
Qed.

Lemma days_in_month_le_31 (y m : Z) : days_in_month y m <= 31.
Proof.
  unfold days_in_month.
  repeat match goal with
         | |- context [match ?x with _ => _ end] => destruct x
         end; lia.
Qed.

(** The years from 1000 on start at the ordinal 364878. *)
Lemma ord2ymd_year_four_digits (o : Z) :
  1 <= o -> (364878 <= o <-> 1000 <= (ord2ymd o).1.1).
Proof.
  intros Ho. rewrite ord2ymd_unfold. cbv zeta.
  set (n0 := o - 1).
  set (n400 := n0 / 146097). set (r := n0 mod 146097).
  set (n100 := r / 36524). set (r1 := r mod 36524).
  set (n4 := r1 / 1461). set (r2 := r1 mod 1461).
  set (n1 := r2 / 365). set (r3 := r2 mod 365).
  assert (H0 : n0 = 146097 * n400 + r /\ 0 <= r < 146097)
    by (subst n400 r; pose proof (Z.div_mod n0 146097); pose proof (Z.mod_pos_bound n0 146097); lia).
  assert (H1 : r = 36524 * n100 + r1 /\ 0 <= r1 < 36524)
    by (subst n100 r1; pose proof (Z.div_mod r 36524); pose proof (Z.mod_pos_bound r 36524); lia).
  assert (H2 : r1 = 1461 * n4 + r2 /\ 0 <= r2 < 1461)
    by (subst n4 r2; pose proof (Z.div_mod r1 1461); pose proof (Z.mod_pos_bound r1 1461); lia).
  assert (H3 : r2 = 365 * n1 + r3 /\ 0 <= r3 < 365)
    by (subst n1 r3; pose proof (Z.div_mod r2 365); pose proof (Z.mod_pos_bound r2 365); lia).
  assert (Hn400 : 0 <= n400) by (subst n400; apply Z.div_pos; lia).
  clearbody n400 r n100 r1 n4 r2 n1 r3.
  destruct (Z.eqb_spec n1 4) as [E1|E1]; [|destruct (Z.eqb_spec n100 4) as [E2|E2]];
    simpl orb; cbv iota.
  - simpl. lia.
  - simpl. lia.
  - destruct (month_day _ r3) as [m d]. simpl. lia.
Qed.

Lemma strptime_strftime (o : Z) :
  364878 <= o <= 3652059 -> strptime (strftime (midnight o)) = Returns (midnight o).
Proof.
  intros Ho.
  pose proof (proj1 (ord2ymd_year_four_digits o ltac:(lia)) ltac:(lia)) as Hy1000.
  unfold strftime. simpl dt_ordinal.
  pose proof (ord2ymd_spec o ltac:(lia)) as Hspec.
  destruct (ord2ymd o) as [[y m] d]. simpl in Hy1000.
  destruct Hspec as (Hord & Hy & Hm & Hd & Hy'). specialize (Hy' ltac:(lia)).
  pose proof (days_in_month_le_31 y m) as H31.
  unfold year_digits.
  destruct (Z.ltb_spec y 10); [lia|]. destruct (Z.ltb_spec y 100); [lia|].
  destruct (Z.ltb_spec y 1000); [lia|].
  change (strptime
            (String (digit_char (y / 1000))
               (String (digit_char (y / 100))
                  (String (digit_char (y / 10))
                     (String (digit_char y)
                        (String "-" (two_digits m +:+ String "-" (two_digits d)))))))
          = Returns (midnight o)).
  unfold strptime. rewrite !digit_of_char.
  replace (1000 * ((y / 1000) mod 10) + 100 * ((y / 100) mod 10)
           + 10 * ((y / 10) mod 10) + y mod 10) with y
    by (Z.div_mod_to_equations; lia).
  cbn [Ascii.eqb Bool.eqb negb].
  rewrite re_month_two_digits by lia.
  cbn [Ascii.eqb Bool.eqb negb].
  rewrite re_day_two_digits by lia.
  destruct (Z.eqb_spec y 0); [lia|].
  destruct (Z.ltb_spec (days_in_month y m) d); [lia|].
  simpl. now rewrite Hord.
Qed.

Lemma digit_char_inj (a b : Z) : digit_char a = digit_char b -> a mod 10 = b mod 10.
Proof.
  intros Heq. apply (f_equal digit_of) in Heq.
  rewrite !digit_of_char in Heq. now injection Heq.
Qed.

(** The text of a date tells its year, month and day. *)
Lemma date_text_injective (y1 m1 d1 y2 m2 d2 : Z) :
  1 <= y1 <= 9999 -> 1 <= m1 <= 12 -> 1 <= d1 <= 31 ->
  1 <= y2 <= 9999 -> 1 <= m2 <= 12 -> 1 <= d2 <= 31 ->
  year_digits y1 +:+ "-" +:+ two_digits m1 +:+ "-" +:+ two_digits d1
  = year_digits y2 +:+ "-" +:+ two_digits m2 +:+ "-" +:+ two_digits d2 ->
  y1 = y2 /\ m1 = m2 /\ d1 = d2.
Proof.
  intros Hy1 Hm1 Hd1 Hy2 Hm2 Hd2. unfold year_digits.
  destruct (Z.ltb_spec y1 10), (Z.ltb_spec y1 100), (Z.ltb_spec y1 1000);
    try lia;
    destruct (Z.ltb_spec y2 10), (Z.ltb_spec y2 100), (Z.ltb_spec y2 1000);
    try lia;
    cbn [append two_digits four_digits]; intros Heq;
    try (apply (f_equal String.length) in Heq; discriminate Heq);
    injection Heq as Heq;
    repeat match goal with
           | E : digit_char _ = digit_char _ |- _ => apply digit_char_inj in E
           end;
    Z.div_mod_to_equations; lia.
Qed.

Lemma strftime_injective (o1 o2 : Z) :
  1 <= o1 <= 3652059 -> 1 <= o2 <= 3652059 ->
  strftime (midnight o1) = strftime (midnight o2) -> o1 = o2.
Proof.
  intros H1 H2. unfold strftime. simpl dt_ordinal.
  pose proof (ord2ymd_spec o1 ltac:(lia)) as S1.
  pose proof (ord2ymd_spec o2 ltac:(lia)) as S2.
  destruct (ord2ymd o1) as [[y1 m1] d1], (ord2ymd o2) as [[y2 m2] d2].
  destruct S1 as (<- & Hy1 & Hm1 & Hd1 & Hmax1), S2 as (<- & Hy2 & Hm2 & Hd2 & Hmax2).
  pose proof (days_in_month_le_31 y1 m1). pose proof (days_in_month_le_31 y2 m2).
  intros Heq.
  apply date_text_injective in Heq as (-> & -> & ->); [reflexivity | lia ..].
Qed.

Lemma digit_of_range (c : ascii) (a : Z) : digit_of c = Some a -> 0 <= a <= 9.
Proof.
  unfold digit_of.
  destruct (Z.leb_spec 48 (Z.of_N (N_of_ascii c))), (Z.leb_spec (Z.of_N (N_of_ascii c)) 57);
    simpl; intros [= <-]; lia.
Qed.

Lemma re_month_range (s r : string) (m : Z) :
  re_month s = Some (m, r) -> 1 <= m <= 12.
Proof.
  unfold re_month. intros Hs.
  repeat match type of Hs with
         | match ?x with _ => _ end = _ =>
             let E := fresh "E" in destruct x eqn:E; try discriminate
         | (if ?b then _ else _) = _ =>
             let E := fresh "E" in destruct b eqn:E; try discriminate
         end;
    injection Hs as <- <-;
    repeat match goal with
           | E : digit_of _ = Some _ |- _ => apply digit_of_range in E
           | E : (_ <=? _) = true |- _ => apply Z.leb_le in E
           end; lia.
Qed.

Lemma re_day_range (s r : string) (d : Z) :
  re_day s = Some (d, r) -> 1 <= d <= 31.
Proof.
  unfold re_day. intros Hs.
  repeat match type of Hs with
         | match ?x with _ => _ end = _ =>
             let E := fresh "E" in destruct x eqn:E; try discriminate
         | (if ?b then _ else _) = _ =>
             let E := fresh "E" in destruct b eqn:E; try discriminate
         end;
    injection Hs as <- <-;
    repeat match goal with
           | E : digit_of _ = Some _ |- _ => apply digit_of_range in E
           | E : (_ <=? _) = true |- _ => apply Z.leb_le in E
           end; lia.
Qed.

Lemma ymd2ord_range (y m d : Z) :
  1 <= y <= 9999 -> 1 <= m <= 12 -> 1 <= d <= days_in_month y m ->
  1 <= ymd2ord y m d <= 3652059.
Proof.
  intros Hy Hm Hd. unfold ymd2ord, days_before_year, days_before_month. cbv zeta.
  unfold days_in_month in Hd.
  assert (Hc : m = 1 \/ m = 2 \/ m = 3 \/ m = 4 \/ m = 5 \/ m = 6 \/ m = 7
               \/ m = 8 \/ m = 9 \/ m = 10 \/ m = 11 \/ m = 12) by lia.
  assert (Hleap : is_leap y = true -> y <= 9996).
  { unfold is_leap. rewrite andb_true_iff. intros [H4 _].
    apply Z.eqb_eq in H4. Z.div_mod_to_equations. lia. }
  repeat destruct Hc as [-> | Hc]; try subst m; simpl in *;
    destruct (is_leap y); try specialize (Hleap eq_refl);
    Z.div_mod_to_equations; lia.
Qed.

Lemma strptime_range (s : string) (d : datetime) :
  strptime s = Returns d -> 1 <= dt_ordinal d <= 3652059.
Proof.
  unfold strptime. intros Hs.
  repeat match type of Hs with
         | match ?x with _ => _ end = _ =>
             let E := fresh "E" in destruct x eqn:E; try discriminate
         | (if ?b then _ else _) = _ =>
             let E := fresh "E" in destruct b eqn:E; try discriminate
         end.
  injection Hs as <-. simpl.
  repeat match goal with
         | E : digit_of _ = Some _ |- _ => apply digit_of_range in E
         | E : re_month _ = Some _ |- _ => apply re_month_range in E
         | E : re_day _ = Some _ |- _ => apply re_day_range in E
         | E : (_ || _) = false |- _ => apply orb_false_iff in E as [? ?]
         | E : (_ =? _) = false |- _ => apply Z.eqb_neq in E
         | E : (_ <? _) = false |- _ => apply Z.ltb_ge in E
         end.
  apply ymd2ord_range; lia.
Qed.

Lemma strptime_midnight (s : string) (d : datetime) :
  strptime s = Returns d -> d = midnight (dt_ordinal d).
Proof.
  unfold strptime. intros Hs.
  repeat match type of Hs with
         | match ?x with _ => _ end = _ => destruct x; try discriminate
         | (if ?b then _ else _) = _ => destruct b; try discriminate
         end.
  injection Hs as <-. reflexivity.
Qed.

Lemma date_loop_step (current end_ : datetime) (dates : list string) :
  date_loop current end_ dates =
  if dt_le current end_
  then date_loop (add_days current 1) end_ (dates ++ [strftime current])
  else dates.
Proof.
  rewrite date_loop_equation_1. unfold date_loop_unfold_clause_1, inspect.
  destruct (dt_le current end_); reflexivity.
Qed.

Lemma date_loop_range (n : nat) :
  forall (c e : Z) (t : N) (acc : list string),
    Z.to_nat (e + 1 - c) = n ->
    date_loop (midnight c) {| dt_ordinal := e; dt_time := t |} acc
    = acc ++ ((fun o => strftime (midnight o)) <$> seqZ c (e + 1 - c)).
Proof.
  induction n as [|n IH]; intros c e t acc Hn;
    rewrite date_loop_step, dt_le_midnight.
  - destruct (Z.leb_spec c e); [lia|].
    rewrite seqZ_nil by lia. simpl. now rewrite app_nil_r.
  - destruct (Z.leb_spec c e); [|lia].
    change (add_days (midnight c) 1) with (midnight (c + 1)).
    rewrite IH by lia. rewrite (seqZ_cons c) by lia.
    rewrite fmap_cons, <- app_assoc. simpl.
    replace (e + 1 - (c + 1)) with (Z.pred (e + 1 - c)) by lia.
    reflexivity.
Qed.

Lemma generate_dates_range (start end_ : Z) (today : datetime) :
  generate_dates (midnight start) (midnight end_) today
  = (fun o => strftime (midnight o))
      <$> seqZ start (Z.min end_ (dt_ordinal today) + 1 - start).
Proof.
  unfold generate_dates, dt_gt. destruct today as [o t].
  rewrite dt_le_midnight. simpl.
  destruct (Z.leb_spec end_ o); simpl.
  - unfold midnight at 2. rewrite (date_loop_range _ _ _ _ _ eq_refl).
    rewrite Z.min_l by lia. reflexivity.
  - rewrite (date_loop_range _ _ _ _ _ eq_refl).
    rewrite Z.min_r by lia. reflexivity.
Qed.

Lemma generate_dates_NoDup (start end_ : Z) (today : datetime) :
  1 <= start -> end_ <= 3652059 ->
  NoDup (generate_dates (midnight start) (midnight end_) today).
Proof.
  intros Hs He. rewrite generate_dates_range.
  apply NoDup_fmap_2_strong; [|apply NoDup_seqZ].
  intros x y Hx Hy. apply elem_of_seqZ in Hx, Hy.
  apply strftime_injective; lia.
Qed.

Lemma length_filter_split (E : gset string) (l : list string) :
  length l
  = (length (filter (fun d => d ∈ E) l) + length (filter (fun d => d ∉ E) l))%nat.
Proof.
  induction l as [|d l IH]; [reflexivity|].
  rewrite !filter_cons. destruct (decide (d ∈ E)), (decide (d ∉ E));
    try contradiction; simpl; lia.
Qed.

Lemma removed_count (E : gset string) (l : list string) :
  NoDup l ->
  let removed := (length l - length (filter (fun d => d ∉ E) l))%nat in
  (removed <= size E)%nat /\ (size E = removed <-> forall d, d ∈ E -> d ∈ l).
Proof.
  intros Hnd removed.
  set (K := filter (fun d => d ∈ E) l).
  assert (Hrem : removed = length K)
    by (subst removed K; rewrite (length_filter_split E l); lia).
  assert (HK : NoDup K) by now apply NoDup_filter.
  assert (Hsize : size (list_to_set K : gset string) = length K)
    by now apply size_list_to_set.
  assert (Hsub : (list_to_set K : gset string) ⊆ E).
  { intros d Hd. apply elem_of_list_to_set, list_elem_of_filter in Hd. tauto. }
  rewrite Hrem, <- Hsize. split; [now apply subseteq_size|]. split.
  - intros Heq d Hd.
    assert (Hset : (list_to_set K : gset string) = E)
      by (apply set_subseteq_size_eq; [assumption | lia]).
    rewrite <- Hset in Hd. apply elem_of_list_to_set, list_elem_of_filter in Hd. tauto.
  - intros Hall. f_equal. apply set_eq. intros d. split; [|apply Hsub].
    intros Hd. apply elem_of_list_to_set, list_elem_of_filter. auto.
Qed.

(** C6. Date-range generation from [start] to [end_] at the time [today],
    with [start <= end_]: when [start] is not after the clamped end
    [min(end_, today's date)], the dates generated are the consecutive
    calendar dates from [start] to the clamped end, so there are
    [min(end_, today) - start + 1] of them, the first is [start], the last
    is [end_] when [end_ <= today] and today's date when [end_ > today];
    when [start] is after the clamped end, no date is generated. *)
Theorem date_range_clamped (start end_ : Z) (today : datetime) :
  start <= end_ ->
  let clamped := Z.min end_ (dt_ordinal today) in
  let dates := generate_dates (midnight start) (midnight end_) today in
  (start <= clamped ->
     dates = (fun o => strftime (midnight o)) <$> seqZ start (clamped - start + 1)
     /\ Z.of_nat (length dates) = clamped - start + 1
     /\ head dates = Some (strftime (midnight start))
     /\ (end_ <= dt_ordinal today ->
           last dates = Some (strftime (midnight end_)))
     /\ (dt_ordinal today < end_ ->
           last dates = Some (strftime (midnight (dt_ordinal today)))))
  /\ (clamped < start -> dates = []).
Proof.
  intros _ clamped dates. subst dates. rewrite generate_dates_range.
  fold clamped. split.
  - intros Hle.
    replace (clamped + 1 - start) with (clamped - start + 1) by lia.
    split; [reflexivity|]. split; [|split; [|split]].
    + rewrite length_fmap, length_seqZ. lia.
    + rewrite seqZ_cons by lia. reflexivity.
    + intros Hend.
      replace (clamped - start + 1) with (Z.of_nat (S (Z.to_nat (clamped - start)))) by lia.
      rewrite seqZ_S, fmap_app. simpl. rewrite last_snoc. do 3 f_equal. lia.
    + intros Hend.
      replace (clamped - start + 1) with (Z.of_nat (S (Z.to_nat (clamped - start)))) by lia.
      rewrite seqZ_S, fmap_app. simpl. rewrite last_snoc. do 3 f_equal. lia.
  - intros Hlt. now rewrite seqZ_nil by lia.
Qed.

(** ** The stats fetcher *)

Section Fetcher.
Context `{PyRuntime} `{Services}.

Lemma coerce_raises_caught (v : raw_value) (e : exception) :
  coerce v = Raises e -> is_ValueError_or_TypeError e = true.
Proof.
  destruct v as [s|]; simpl.
  - destruct (str_in "." s); [destruct (py_float s) | destruct (py_int s)];
      intros [= <-]; reflexivity.
  - intros [= <-]; reflexivity.
Qed.

(** The loop over the entries inserts the [coerced_entry] of each entry and
    never raises. *)
Lemma parse_stats_run (entries : list stat_entry) (m : gmap string number) :
  parse_stats entries m
  = Returns (foldl (fun m kv => <[kv.1 := kv.2]> m) m (omap coerced_entry entries)).
Proof.
  revert m. induction entries as [|[st|] entries IH]; intros m; simpl.
  - reflexivity.
  - destruct (coerce (value st)) as [v|e] eqn:Hc; simpl.
    + apply IH.
    + rewrite (coerce_raises_caught _ _ Hc). apply IH.
  - apply IH.
Qed.

Lemma any_positive_spec (m : gmap string number) :
  any_positive m = true <-> has_positive m.
Proof.
  unfold any_positive, has_positive. rewrite existsb_exists. split.
  - intros (v & Hin & Hv). apply list_elem_of_In, list_elem_of_fmap in Hin.
    destruct Hin as ([k v'] & -> & Hin). apply elem_of_map_to_list in Hin.
    eauto.
  - intros (k & v & Hk & Hv). exists v. split; [|assumption].
    apply list_elem_of_In, list_elem_of_fmap. exists (k, v). split; [reflexivity|].
    now apply elem_of_map_to_list.
Qed.

(** One run of the fetcher: one remote call, recorded, and a result that
    is never an exception. *)
Lemma get_player_stats_by_date_run (player_key date : string) (h : history) :
  let r := yahoo_get_player_stats_by_date h player_key date in
  get_player_stats_by_date player_key date h
  = (Returns (fetched date r), h ++ [YahooPlayerStats player_key date r]).
Proof.
  unfold get_player_stats_by_date, try_except, bind, call, lift, ret, fetched.
  destruct (yahoo_get_player_stats_by_date h player_key date)
    as [[| |[| |l]]|e]; simpl; try reflexivity.
  unfold coerced_mapping. rewrite parse_stats_run.
  destruct (any_positive _); reflexivity.
Qed.

End Fetcher.

Section FetcherClaims.
Context `{PyRuntime} `{Services}.

(** C1. For every (entity key, date) given to the stats fetcher, a record
    is returned if and only if at least one coerced stat value is strictly
    greater than zero; a returned record carries has_game = true, the
    input date, the coerced stat mapping, and as minutes_played the
    mapping's value at stat id "3" (unset when the id is absent); when no
    coerced value is strictly positive, nothing is returned. *)
Theorem fetcher_record_iff_positive (player_key date : string) (h : history) :
  let m := coerced_mapping
             (payload_entries (yahoo_get_player_stats_by_date h player_key date)) in
  let result := (get_player_stats_by_date player_key date h).1 in
  ((exists g, result = Returns (Some g)) <-> has_positive m)
  /\ (forall g, result = Returns (Some g) ->
        gl_has_game g = true /\ gl_date g = date /\ gl_stats g = m
        /\ gl_minutes_played g = m !! "3")
  /\ (~ has_positive m -> result = Returns None).
Proof.
  intros m result. subst result. rewrite get_player_stats_by_date_run. simpl.
  unfold fetched. fold m. pose proof (any_positive_spec m) as Hpos.
  destruct (any_positive m).
  - split; [|split].
    + split; [intros _; now apply Hpos | intros _; eauto].
    + intros g [= <-]. simpl. auto.
    + intros Hn. exfalso. apply Hn. now apply Hpos.
  - split; [|split].
    + split; [intros (g & [=]) | intros Hp; apply Hpos in Hp; discriminate].
    + intros g [=].
    + reflexivity.
Qed.


(** C3. The stats fetcher never propagates an exception to its caller: it
    always returns; if the remote call raises an error, or returns no
    stats payload, or returns one whose entries cannot be read, it returns
    nothing. *)
Theorem fetcher_never_raises (player_key date : string) (h : history) :
  let answer := yahoo_get_player_stats_by_date h player_key date in
  let result := (get_player_stats_by_date player_key date h).1 in
  (exists outcome, result = Returns outcome)
  /\ (forall e, answer = Raises e -> result = Returns None)
  /\ (answer = Returns Falsy \/ answer = Returns NoPlayerStats ->
      result = Returns None)
  /\ (answer = Returns (PlayerStats NotIterable) -> result = Returns None).
Proof.
  intros answer result. subst result. rewrite get_player_stats_by_date_run.
  fold answer. simpl. split; [eauto|]. split; [|split].
  - intros e ->. reflexivity.
  - intros [-> | ->]; reflexivity.
  - intros ->. reflexivity.
Qed.

End FetcherClaims.

(** ** The per-entity backfill *)

Section Orchestrator.
Context `{PyRuntime} `{Services}.

Lemma count_events_app (f : event -> bool) (h1 h2 : history) :
  count_events f (h1 ++ h2) = (count_events f h1 + count_events f h2)%nat.
Proof. unfold count_events. now rewrite List.filter_app, length_app. Qed.

Lemma fetch_calls_app (h1 h2 : history) :
  fetch_calls (h1 ++ h2) = fetch_calls h1 ++ fetch_calls h2.
Proof. apply omap_app. Qed.

Lemma save_game_log_run (player_key player_name : string) (g : game_log)
    (h : history) :
  let data := {| row_player_key := player_key; row_player_name := player_name;
                 row_game_date := gl_date g; row_stats := gl_stats g;
                 row_minutes_played := gl_minutes_played g;
                 row_opponent := None; row_home_away := None;
                 row_game_result := None |} in
  save_game_log player_key player_name g h
  = match supabase_upsert h data with
    | Returns u => (Returns true, h ++ [SupabaseUpsert data (Returns u)])
    | Raises e =>
        (Returns false,
         h ++ [SupabaseUpsert data (Raises e);
               Print (MsgSaveFailed player_key (gl_date g) e)])
    end.
Proof.
  unfold save_game_log, try_except, bind, call, print, ret. simpl.
  destruct (supabase_upsert h _); simpl; [reflexivity|].
  now rewrite <- app_assoc.
Qed.

Lemma get_existing_dates_run (player_key : string) (h : history) :
  get_existing_dates player_key h
  = (Returns (existing_set h player_key), h ++ existing_query h player_key).
Proof.
  unfold get_existing_dates, try_except, bind, call, print, ret,
    existing_set, existing_query.
  destruct (supabase_select h player_key); simpl; [reflexivity|].
  now rewrite <- app_assoc.
Qed.

Lemma advanced_by_cons (player_key date : string) (dates : list string)
    (pre h' : history) (stats mid after : BatchStats) :
  fetch_calls pre = [(player_key, date)] ->
  api_calls mid = S (api_calls stats) ->
  new_games mid = (new_games stats + count_events is_saved pre)%nat ->
  errors mid = (errors stats + count_events is_failed_save pre)%nat ->
  (count_events is_saved pre + count_events is_failed_save pre <= 1)%nat ->
  count_events is_roster_fetch pre = 0%nat ->
  total_dates mid = total_dates stats ->
  existing_games mid = existing_games stats ->
  bs_player_key mid = bs_player_key stats ->
  bs_player_name mid = bs_player_name stats ->
  advanced_by player_key dates h' mid after ->
  advanced_by player_key (date :: dates) (pre ++ h') stats after.
Proof.
  intros Hf Ha Hn He Hle Hr Ht Hx Hk Hm
    (Hf' & Ha' & Hn' & He' & Hle' & Hr' & Ht' & Hx' & Hk' & Hm').
  unfold advanced_by. rewrite fetch_calls_app, !count_events_app, Hf, Hf'.
  cbn [length fmap list_fmap app].
  repeat split; try congruence; lia.
Qed.

Lemma fetch_loop_run (player_key player_name : string) (dates : list string) :
  forall (stats : BatchStats) (h : history),
  exists after h',
    fetch_loop player_key player_name dates stats h = (Returns after, h ++ h')
    /\ advanced_by player_key dates h' stats after.
Proof.
  induction dates as [|date dates IH]; intros stats h.
  - exists stats, []. split; [simpl; unfold ret; now rewrite app_nil_r|].
    unfold advanced_by, count_events; simpl. repeat split; lia.
  - cbn [fetch_loop]. unfold bind at 1. rewrite get_player_stats_by_date_run.
    set (r := yahoo_get_player_stats_by_date h player_key date).
    destruct (fetched date r) as [g|].
    + unfold bind at 1. unfold bind at 1. rewrite save_game_log_run.
      destruct (supabase_upsert _ _) as [u|e]; unfold ret, bind at 1, sleep.
      * match goal with
        | |- context [fetch_loop _ _ _ ?s ?h0] =>
            destruct (IH s h0) as (after & h' & Hrun & Hadv)
        end.
        exists after. eexists ([_; _; _] ++ h'). split.
        { rewrite Hrun. f_equal. rewrite <- !app_assoc. reflexivity. }
        eapply advanced_by_cons; [..|exact Hadv]; reflexivity || (cbn; lia).
      * match goal with
        | |- context [fetch_loop _ _ _ ?s ?h0] =>
            destruct (IH s h0) as (after & h' & Hrun & Hadv)
        end.
        exists after. eexists ([_; _; _; _] ++ h'). split.
        { rewrite Hrun. f_equal. rewrite <- !app_assoc. reflexivity. }
        eapply advanced_by_cons; [..|exact Hadv]; reflexivity || (cbn; lia).
    + unfold ret, bind at 1, bind at 1, sleep.
      match goal with
      | |- context [fetch_loop _ _ _ ?s ?h0] =>
          destruct (IH s h0) as (after & h' & Hrun & Hadv)
      end.
      exists after. eexists ([_; _] ++ h'). split.
      { rewrite Hrun. f_equal. rewrite <- !app_assoc. reflexivity. }
      eapply advanced_by_cons; [..|exact Hadv]; reflexivity || (cbn; lia).
Qed.

Lemma filter_not_in_empty (E : gset string) (l : list string) :
  E = ∅ -> filter (fun d => d ∉ E) l = l.
Proof.
  intros HE. induction l as [|d l IH]; [reflexivity|].
  rewrite filter_cons_True by set_solver. now rewrite IH.
Qed.

Lemma fetch_calls_existing_query (h : history) (player_key : string) :
  fetch_calls (existing_query h player_key) = []
  /\ count_events is_saved (existing_query h player_key) = 0%nat
  /\ count_events is_failed_save (existing_query h player_key) = 0%nat.
Proof.
  unfold existing_query. now destruct (supabase_select h player_key).
Qed.

(** One run of [backfill_player] on well-formed dates: the query of the
    existing dates when [skip_existing], then the loop over the dates
    that remain. *)
Lemma backfill_player_run (player_key player_name start_date end_date : string)
    (skip_existing : bool) (start end_ : datetime) (h : history) :
  strptime start_date = Returns start ->
  strptime end_date = Returns end_ ->
  let generated := generate_dates start end_ (datetime_now h) in
  let E := if skip_existing then existing_set h player_key else ∅ in
  let query := if skip_existing then existing_query h player_key else [] in
  let dates := if skip_existing then filter (fun d => d ∉ E) generated
               else generated in
  exists stats h',
    backfill_player player_key player_name start_date end_date skip_existing h
    = (Returns stats, h ++ query ++ h')
    /\ advanced_by player_key dates h'
         {| bs_player_key := player_key; bs_player_name := player_name;
            total_dates := length dates; existing_games := size E;
            new_games := 0; api_calls := 0; errors := 0 |} stats.
Proof.
  intros Hs He generated E query dates.
  unfold backfill_player, bind at 1, lift at 1. rewrite Hs.
  unfold bind at 1, lift at 1. rewrite He.
  unfold bind at 1, now. fold generated.
  destruct skip_existing.
  - unfold bind at 1, bind at 1. rewrite get_existing_dates_run. unfold ret at 1.
    fold E. fold dates.
    set (stats0 := {| bs_player_key := player_key; total_dates := length dates |}).
    destruct (fetch_loop_run player_key player_name dates stats0
                (h ++ existing_query h player_key)) as (after & h' & Hrun & Hadv).
    exists after, h'. split; [|exact Hadv].
    destruct dates as [|d dates']; simpl.
    + simpl in Hrun. unfold ret in *. now rewrite <- app_assoc in Hrun.
    + rewrite <- app_assoc in Hrun. exact Hrun.
  - unfold bind at 1, ret at 1. fold dates.
    set (stats0 := {| bs_player_key := player_key; total_dates := length dates |}).
    destruct (fetch_loop_run player_key player_name dates stats0 h)
      as (after & h' & Hrun & Hadv).
    exists after, h'. split; [|exact Hadv].
    destruct dates as [|d dates']; simpl.
    + simpl in Hrun. unfold ret in *. exact Hrun.
    + exact Hrun.
Qed.

End Orchestrator.

Section OrchestratorClaims.
Context `{PyRuntime} `{Services}.

(** C4. For every per-entity backfill run with skip_existing = true and
    existing-dates set E (the set the existing-record filter returns), the
    dates passed to the stats fetcher are, in order, exactly the generated
    dates with the members of E removed. *)
Theorem fetcher_fed_generated_minus_existing
    (player_key player_name start_date end_date : string)
    (start end_ : datetime) (E : gset string) (h : history) :
  strptime start_date = Returns start ->
  strptime end_date = Returns end_ ->
  (get_existing_dates player_key h).1 = Returns E ->
  let generated := generate_dates start end_ (datetime_now h) in
  exists stats h',
    backfill_player player_key player_name start_date end_date true h
    = (Returns stats, h ++ h')
    /\ fetch_calls h'
       = (fun d => (player_key, d)) <$> filter (fun d => d ∉ E) generated.
Proof.
  intros Hs He HE generated.
  rewrite get_existing_dates_run in HE. injection HE as <-.
  destruct (backfill_player_run player_key player_name _ _ true _ _ h Hs He)
    as (stats & h' & Hrun & Hadv).
  exists stats, (existing_query h player_key ++ h'). split; [exact Hrun|].
  rewrite fetch_calls_app.
  rewrite (proj1 (fetch_calls_existing_query h player_key)).
  exact (proj1 Hadv).
Qed.

(** C5, as the code has it. For every per-entity backfill run with
    skip_existing = true, existing_games is the number of dates in the
    set E that the existing-record filter returns for the entity, every
    stored date counting whether or not it is a generated candidate: it
    is never less than the number of generated candidate dates removed,
    and equals it exactly when every date of E is a generated candidate.
    total_dates is the number of candidate dates that remain once the
    members of E are removed. *)
Theorem existing_games_counts_stored_dates
    (player_key player_name start_date end_date : string)
    (start end_ : datetime) (E : gset string) (h : history) :
  strptime start_date = Returns start ->
  strptime end_date = Returns end_ ->
  (get_existing_dates player_key h).1 = Returns E ->
  let generated := generate_dates start end_ (datetime_now h) in
  exists stats h',
    backfill_player player_key player_name start_date end_date true h
    = (Returns stats, h')
    /\ existing_games stats = size E
    /\ total_dates stats = length (filter (fun d => d ∉ E) generated)
    /\ let removed := (length generated - total_dates stats)%nat in
       (removed <= existing_games stats)%nat
       /\ (existing_games stats = removed <-> forall d, d ∈ E -> d ∈ generated).
Proof.
  intros Hs He HE generated.
  rewrite get_existing_dates_run in HE. injection HE as <-.
  destruct (backfill_player_run player_key player_name _ _ true _ _ h Hs He)
    as (stats & h' & Hrun & Hadv).
  exists stats. eexists. split; [exact Hrun|].
  destruct Hadv as (_ & _ & _ & _ & _ & _ & Ht & Hx & _). simpl in Ht, Hx.
  split; [assumption|]. split; [assumption|].
  fold generated in Ht. rewrite Ht, Hx.
  apply removed_count. subst generated.
  rewrite (strptime_midnight _ _ Hs), (strptime_midnight _ _ He).
  apply strptime_range in Hs, He. apply generate_dates_NoDup; lia.
Qed.

(** C7. For every entity key, when the query for the dates already
    persisted fails, the existing-record filter returns the empty set,
    after printing a diagnostic, and the backfill run goes on: it returns
    normally, with no date counted as existing and every generated date
    passed to the fetcher. *)
Theorem existing_query_fails_open (player_key : string) (h : history)
    (e : exception) :
  supabase_select h player_key = Raises e ->
  let diagnostic := [SupabaseSelect player_key (Raises e); Print (MsgQueryFailed e)] in
  get_existing_dates player_key h = (Returns ∅, h ++ diagnostic)
  /\ forall player_name start_date end_date start end_,
       strptime start_date = Returns start ->
       strptime end_date = Returns end_ ->
       let generated := generate_dates start end_ (datetime_now h) in
       exists stats h',
         backfill_player player_key player_name start_date end_date true h
         = (Returns stats, h ++ diagnostic ++ h')
         /\ existing_games stats = 0%nat
         /\ total_dates stats = length generated
         /\ fetch_calls h' = (fun d => (player_key, d)) <$> generated.
Proof.
  intros Hfail diagnostic.
  assert (HE : existing_set h player_key = ∅)
    by (unfold existing_set; now rewrite Hfail).
  assert (HQ : existing_query h player_key = diagnostic)
    by (unfold existing_query; now rewrite Hfail).
  split.
  - now rewrite get_existing_dates_run, HE, HQ.
  - intros player_name start_date end_date start end_ Hs He generated.
    destruct (backfill_player_run player_key player_name _ _ true _ _ h Hs He)
      as (stats & h' & Hrun & Hadv).
    cbv beta iota zeta in Hrun, Hadv.
    rewrite (filter_not_in_empty _ _ HE), HE in Hadv. rewrite HQ in Hrun.
    exists stats, h'. split; [exact Hrun|].
    destruct Hadv as (Hf & _ & _ & _ & _ & _ & Ht & Hx & _). simpl in Ht, Hx.
    change (size (∅ : gset string)) with 0%nat in Hx. auto.
Qed.


End OrchestratorClaims.

(** ** The season run *)

Section SeasonRunner.
Context `{PyRuntime} `{Services}.

(** The dates of the season table are well formed. *)
Lemma SEASONS_well_formed (season_key : string) (info : season_info) :
  SEASONS !! season_key = Some info ->
  exists start end_,
    strptime (season_start info) = Returns start
    /\ strptime (season_end info) = Returns end_.
Proof.
  intros Hin. unfold SEASONS in Hin. apply elem_of_list_to_map_2 in Hin.
  repeat (apply elem_of_cons in Hin as [[= -> ->] | Hin];
          [eexists _, _; split; reflexivity|]).
  now apply elem_of_nil in Hin.
Qed.

Lemma foldl_add_batch (l : list BatchStats) :
  forall t : SeasonTotals,
    let t' := foldl add_batch t l in
    total_players t' = total_players t
    /\ processed_players t' = (processed_players t + length l)%nat
    /\ total_new_games t' = (total_new_games t + sum_of new_games l)%nat
    /\ total_api_calls t' = (total_api_calls t + sum_of api_calls l)%nat
    /\ total_errors t' = (total_errors t + sum_of errors l)%nat.
Proof.
  induction l as [|s l IH]; intros t; simpl.
  - repeat split; lia.
  - destruct (IH (add_batch t s)) as (H1 & H2 & H3 & H4 & H5).
    rewrite H1, H2, H3, H4, H5. simpl. repeat split; lia.
Qed.

(** The loop over the entities: one run per entity, in listing order, the
    totals accumulated over the BatchStats of the runs. *)
Lemma season_loop_run (n : nat) (info : season_info) (start end_ : datetime)
    (players : list player) :
  strptime (season_start info) = Returns start ->
  strptime (season_end info) = Returns end_ ->
  forall (i : nat) (t : SeasonTotals) (h : history),
  exists l h',
    season_loop n info i players t h = (Returns (foldl add_batch t l), h')
    /\ entity_runs n info i players h l h'
    /\ length l = length players
    /\ h `prefix_of` h'.
Proof.
  intros Hs He. induction players as [|p players IH]; intros i t h.
  - exists [], h. split; [reflexivity|]. split; [constructor|]. split; reflexivity.
  - cbn [season_loop]. unfold bind at 1, print at 1. unfold bind at 1, print at 1.
    unfold bind at 1.
    match goal with
    | |- context [backfill_player _ _ _ _ _ ?h0] =>
        destruct (backfill_player_run (player_key p) (player_name p) _ _ true
                    _ _ h0 Hs He) as (stats & h1 & Hrun & _);
        set (hp := h0) in *
    end.
    rewrite Hrun.
    set (h2 := hp ++ _ ++ h1) in *.
    assert (Hprog : forall k : unit -> M SeasonTotals,
              (print (MsgExisting (existing_games stats)) ;;;
               print (MsgNew (new_games stats)) ;;;
               print (MsgApiCalls (api_calls stats)) ;;;
               (if (0 <? errors stats)%nat
                then print (MsgErrors (errors stats)) else ret tt) ;;;
               k tt) h2 = k tt (h2 ++ progress_lines stats)).
    { intros k. unfold bind, print, ret, progress_lines.
      destruct (0 <? errors stats)%nat; simpl;
        rewrite <- !app_assoc; reflexivity. }
    pose proof (Hprog (fun _ => season_loop n info (S i) players (add_batch t stats)))
      as Hp. cbv beta in Hp.
    destruct (IH (S i) (add_batch t stats) (h2 ++ progress_lines stats))
      as (l & h' & Hloop & Hruns & Hlen & Hpre).
    exists (stats :: l), h'. split; [|split; [|split]].
    + etransitivity; [exact Hp|]. exact Hloop.
    + econstructor; [|exact Hruns].
      subst h2 hp. rewrite <- !app_assoc. simpl.
      rewrite <- !app_assoc in Hrun. exact Hrun.
    + simpl. now rewrite Hlen.
    + etransitivity; [|exact Hpre]. subst h2 hp.
      rewrite <- !app_assoc. apply prefix_app_r. reflexivity.
Qed.

(** In the runs of a season each entity costs one API call per date that
    remains for it: the total_dates of the runs add up to their api_calls. *)
Lemma entity_runs_total_dates (n : nat) (info : season_info) (start end_ : datetime)
    (i : nat) (players : list player) (h h' : history) (l : list BatchStats) :
  strptime (season_start info) = Returns start ->
  strptime (season_end info) = Returns end_ ->
  entity_runs n info i players h l h' ->
  sum_of total_dates l = sum_of api_calls l.
Proof.
  intros Hs He Hruns.
  induction Hruns as [|i p players h stats h1 l h2 Hrun _ IH]; [reflexivity|].
  simpl. rewrite IH. f_equal.
  match type of Hrun with
  | backfill_player _ _ _ _ _ ?h0 = _ =>
      destruct (backfill_player_run (player_key p) (player_name p) _ _ true
                  _ _ h0 Hs He) as (stats' & h'' & Hrun' & Hadv)
  end.
  rewrite Hrun in Hrun'. injection Hrun' as <- _.
  destruct Hadv as (_ & Ha & _ & _ & _ & _ & Ht & _).
  simpl in Ha, Ht. lia.
Qed.

End SeasonRunner.

Section SeasonClaims.
Context `{PyRuntime} `{Services}.

(** C8. For every season run invoked with an unrecognized season label,
    the error is reported and the invocation returns at once: no entity
    is processed, and no roster fetch, no remote stats call and no
    persistence call is made. *)
Theorem unknown_season_aborts (season_key : string) (max_players : option Z)
    (h : history) :
  SEASONS !! season_key = None ->
  exists h',
    backfill_season season_key max_players h = (Returns tt, h ++ h')
    /\ h' = [Print (MsgInvalidSeason season_key)]
    /\ count_events is_roster_fetch h' = 0%nat
    /\ count_events is_upsert h' = 0%nat
    /\ fetch_calls h' = [].
Proof.
  intros Hk. exists [Print (MsgInvalidSeason season_key)].
  unfold backfill_season. rewrite Hk. repeat split.
Qed.

(** C9, as the code has it. For every season run over a list of
    entities, the SeasonTotals reported at the end sums, over the
    per-entity BatchStats of all the entities processed, the counters
    new_games, api_calls and errors, and holds the entity counts, total
    and processed. The sum of total_dates is reported with them: it is
    total_api_calls, each run making one API call per date that remains.
    The counter existing_games alone is not summed. *)
Theorem season_totals_sum_new_calls_errors (season_key : string)
    (max_players : option Z) (info : season_info) (roster : list player)
    (h h0 : history) :
  SEASONS !! season_key = Some info ->
  get_league_players (h ++ season_banner season_key info) = (Returns roster, h0) ->
  roster <> [] ->
  let players := capped roster max_players in
  exists l h1 h2 totals,
    entity_runs (length players) info 1 players h1 l h2
    /\ h0 `prefix_of` h1
    /\ backfill_season season_key max_players h
       = (Returns tt, h2 ++ summary_lines totals)
    /\ length l = length players
    /\ total_players totals = length players
    /\ processed_players totals = length players
    /\ total_new_games totals = sum_of new_games l
    /\ total_api_calls totals = sum_of api_calls l
    /\ total_errors totals = sum_of errors l
    /\ total_api_calls totals = sum_of total_dates l.
Proof.
  intros Hk Hroster Hne players.
  destruct (SEASONS_well_formed _ _ Hk) as (start & end_ & Hs & He).
  set (t0 := {| total_players := length players; processed_players := 0;
                total_new_games := 0; total_api_calls := 0; total_errors := 0 |}).
  set (h1 := match max_players with
             | Some n => if n =? 0 then h0 else h0 ++ [Print (MsgLimit n)]
             | None => h0
             end).
  destruct (season_loop_run (length players) info start end_ players Hs He 1%nat t0 h1)
    as (l & h2 & Hloop & Hruns & Hlen & _).
  exists l, h1, h2, (foldl add_batch t0 l).
  destruct (foldl_add_batch l t0) as (H1 & H2 & H3 & H4 & H5).
  split; [exact Hruns|]. split.
  { subst h1. destruct max_players as [n|]; [destruct (n =? 0)|];
      try reflexivity. now apply prefix_app_r. }
  split; [|simpl in *; rewrite Hlen in H2; repeat split; try assumption;
            rewrite (entity_runs_total_dates _ _ _ _ _ _ _ _ _ Hs He Hruns);
            assumption].
  unfold backfill_season. rewrite Hk.
  unfold bind at 1, print at 1. unfold bind at 1, print at 1.
  unfold bind at 1, print at 1. unfold bind at 1, print at 1.
  unfold bind at 1. rewrite <- !app_assoc. simpl.
  change (h ++ _) with (h ++ season_banner season_key info). rewrite Hroster.
  destruct roster as [|p roster]; [contradiction|].
  unfold bind at 1.
  assert (Hcap : (match max_players with
                  | Some n => if n =? 0 then ret (p :: roster)
                              else print (MsgLimit n) ;;; ret (slice_to (p :: roster) n)
                  | None => ret (p :: roster)
                  end) h0 = (Returns players, h1)).
  { subst players h1. unfold capped.
    destruct max_players as [n|]; [destruct (n =? 0)|]; reflexivity. }
  rewrite Hcap. fold t0. unfold bind at 1. rewrite Hloop.
  unfold bind, print, summary_lines. simpl. rewrite <- !app_assoc. reflexivity.
Qed.

End SeasonClaims.

(** * The claims on the scenario of the specification *)

(** The end-to-end scenario: three dates, one new game, three calls. *)
Example scenario_first_run :
  (@backfill_player CPython.runtime Scenario.fresh
     "nba.p.123" "A Player" "2024-10-22" "2024-10-24" true []).1
  = Returns {| bs_player_key := "nba.p.123"; bs_player_name := "A Player";
               total_dates := 3; existing_games := 0; new_games := 1;
               api_calls := 3; errors := 0 |}.
Proof. vm_compute. reflexivity. Qed.

(** The same run again, on the history the first run left. *)
Example scenario_second_run :
  let h := (@backfill_player CPython.runtime Scenario.fresh
              "nba.p.123" "A Player" "2024-10-22" "2024-10-24" true []).2 in
  (@backfill_player CPython.runtime Scenario.fresh
     "nba.p.123" "A Player" "2024-10-22" "2024-10-24" true h).1
  = Returns {| bs_player_key := "nba.p.123"; bs_player_name := "A Player";
               total_dates := 2; existing_games := 1; new_games := 0;
               api_calls := 2; errors := 0 |}.
Proof. vm_compute. reflexivity. Qed.

(** C1 on the game of 2024-10-22: a record, with 34 minutes played. *)
Lemma fetcher_record_iff_positive_witness :
  exists g,
    (@get_player_stats_by_date CPython.runtime Scenario.fresh
       "nba.p.123" "2024-10-22" []).1 = Returns (Some g)
    /\ gl_has_game g = true
    /\ gl_minutes_played g = Some (PyInt 34).
Proof.
  destruct (@fetcher_record_iff_positive CPython.runtime Scenario.fresh
              "nba.p.123" "2024-10-22" []) as (Hiff & Hrec & _).
  destruct (proj2 Hiff) as (g & Hg).
  { exists "3", (PyInt 34). split; vm_compute; reflexivity. }
  exists g. destruct (Hrec g Hg) as (Hhas & _ & _ & Hmin).
  split; [exact Hg|]. split; [exact Hhas|]. rewrite Hmin. vm_compute. reflexivity.
Defined.


(** C3 on 2024-10-23, where the remote call raises. *)
Lemma fetcher_never_raises_witness :
  (@get_player_stats_by_date CPython.runtime Scenario.fresh
     "nba.p.123" "2024-10-23" []).1 = Returns None.
Proof.
  destruct (@fetcher_never_raises CPython.runtime Scenario.fresh
              "nba.p.123" "2024-10-23" []) as (_ & Hraise & _).
  apply (Hraise (Exc (OtherException "HTTPError") "503")). reflexivity.
Defined.

(** C4 with 2024-10-23 stored: the fetcher is given the two other dates. *)
Lemma fetcher_fed_generated_minus_existing_witness :
  exists stats h',
    @backfill_player CPython.runtime Scenario.one_stored
      "nba.p.123" "A Player" "2024-10-22" "2024-10-24" true []
    = (Returns stats, [] ++ h')
    /\ fetch_calls h'
       = [("nba.p.123", "2024-10-22"); ("nba.p.123", "2024-10-24")].
Proof.
  destruct (@fetcher_fed_generated_minus_existing CPython.runtime Scenario.one_stored
              "nba.p.123" "A Player" "2024-10-22" "2024-10-24"
              (midnight 739181) (midnight 739183) (list_to_set ["2024-10-23"]) [])
    as (stats & h' & Hrun & Hcalls);
    [reflexivity | reflexivity | vm_compute; reflexivity |].
  exists stats, h'. split; [exact Hrun|].
  rewrite Hcalls. vm_compute. reflexivity.
Defined.

(** C5 as stated fails: with one date of an earlier season in the store,
    no generated candidate is removed, and existing_games is 1. *)
Lemma existing_games_not_removed_count :
  exists start end_ E stats h',
    strptime "2024-10-22" = Returns start
    /\ strptime "2024-10-24" = Returns end_
    /\ (@get_existing_dates Scenario.old_row "nba.p.123" []).1 = Returns E
    /\ @backfill_player CPython.runtime Scenario.old_row
         "nba.p.123" "A Player" "2024-10-22" "2024-10-24" true []
       = (Returns stats, h')
    /\ let generated := generate_dates start end_ (@datetime_now Scenario.old_row []) in
       existing_games stats
       <> (length generated - length (filter (fun d => d ∉ E) generated))%nat.
Proof.
  exists (midnight 739181), (midnight 739183), (list_to_set ["2023-01-01"]).
  eexists _, _. split; [reflexivity|]. split; [reflexivity|].
  split; [vm_compute; reflexivity|]. split; [vm_compute; reflexivity|].
  vm_compute. discriminate.
Qed.

(** C5 as the code has it, on the same run. *)
Lemma existing_games_counts_stored_dates_witness :
  exists stats h',
    @backfill_player CPython.runtime Scenario.old_row
      "nba.p.123" "A Player" "2024-10-22" "2024-10-24" true []
    = (Returns stats, h')
    /\ existing_games stats = 1%nat
    /\ total_dates stats = 3%nat.
Proof.
  destruct (@existing_games_counts_stored_dates CPython.runtime Scenario.old_row
              "nba.p.123" "A Player" "2024-10-22" "2024-10-24"
              (midnight 739181) (midnight 739183) (list_to_set ["2023-01-01"]) [])
    as (stats & h' & Hrun & Hexisting & Htotal & _);
    [reflexivity | reflexivity | vm_compute; reflexivity |].
  exists stats, h'. split; [exact Hrun|]. split.
  - rewrite Hexisting. vm_compute. reflexivity.
  - rewrite Htotal. vm_compute. reflexivity.
Defined.

(** C6 on the window of the scenario, and on a window that ends after
    today. *)
Lemma date_range_clamped_witness :
  generate_dates (midnight 739181) (midnight 739183) Scenario.november
  = ["2024-10-22"; "2024-10-23"; "2024-10-24"]
  /\ last (generate_dates (midnight 739181) (midnight 739400) Scenario.october_24)
     = Some "2024-10-24".
Proof.
  split.
  - destruct (date_range_clamped 739181 739183 Scenario.november) as [Hin _];
      [vm_compute; discriminate|].
    destruct Hin as (Hdates & _); [vm_compute; discriminate|].
    rewrite Hdates. vm_compute. reflexivity.
  - destruct (date_range_clamped 739181 739400 Scenario.october_24) as [Hin _];
      [vm_compute; discriminate|].
    destruct Hin as (_ & _ & _ & _ & Hlast); [vm_compute; discriminate|].
    rewrite Hlast; [vm_compute; reflexivity | vm_compute; reflexivity].
Defined.

(** C7 with the store down: all three dates are fetched. *)
Lemma existing_query_fails_open_witness :
  @get_existing_dates Scenario.store_failing "nba.p.123" []
  = (Returns ∅,
     [SupabaseSelect "nba.p.123" (Raises Scenario.store_down);
      Print (MsgQueryFailed Scenario.store_down)])
  /\ exists stats h',
       @backfill_player CPython.runtime Scenario.store_failing
         "nba.p.123" "A Player" "2024-10-22" "2024-10-24" true []
       = (Returns stats,
          [] ++ [SupabaseSelect "nba.p.123" (Raises Scenario.store_down);
                 Print (MsgQueryFailed Scenario.store_down)] ++ h')
       /\ existing_games stats = 0%nat
       /\ fetch_calls h'
          = [("nba.p.123", "2024-10-22"); ("nba.p.123", "2024-10-23");
             ("nba.p.123", "2024-10-24")].
Proof.
  destruct (@existing_query_fails_open CPython.runtime Scenario.store_failing
              "nba.p.123" [] Scenario.store_down) as (Hset & Hgoes);
    [reflexivity|].
  split; [exact Hset|].
  destruct (Hgoes "A Player" "2024-10-22" "2024-10-24"
              (midnight 739181) (midnight 739183))
    as (stats & h' & Hrun & Hexisting & _ & Hcalls); [reflexivity | reflexivity |].
  exists stats, h'. split; [exact Hrun|]. split; [exact Hexisting|].
  rewrite Hcalls. vm_compute. reflexivity.
Defined.


(** C8 on a label the season table does not have. *)
Lemma unknown_season_aborts_witness :
  @backfill_season CPython.runtime Scenario.fresh "2022-23" None []
  = (Returns tt, [Print (MsgInvalidSeason "2022-23")]).
Proof.
  destruct (@unknown_season_aborts CPython.runtime Scenario.fresh "2022-23" None [])
    as (h' & Hrun & -> & _); [reflexivity|].
  exact Hrun.
Defined.

(** C9 as stated fails: in a season run with one entity whose first two
    days are stored, the existing_games of the per-entity BatchStats sum to
    2, and no number of the reported SeasonTotals is 2. *)
Lemma season_totals_omit_existing_games :
  exists l h2 totals,
    @entity_runs CPython.runtime Scenario.half_stored 1
      {| season_start := "2024-10-22"; season_end := "2025-06-17" |} 1
      [{| player_key := "nba.p.123"; player_name := "A Player";
          team := "UNK"; positions := ["PG"; "SG"] |}]
      (@get_league_players Scenario.half_stored
         (season_banner "2024-25"
            {| season_start := "2024-10-22"; season_end := "2025-06-17" |})).2
      l h2
    /\ @backfill_season CPython.runtime Scenario.half_stored "2024-25" None []
       = (Returns tt, h2 ++ summary_lines totals)
    /\ sum_of existing_games l = 2%nat
    /\ ~ In (sum_of existing_games l) (reported_counters totals).
Proof.
  eexists _, _, {| total_players := 1; processed_players := 1; total_new_games := 0;
                   total_api_calls := 1; total_errors := 0 |}.
  split; [|split; [|split]].
  - eapply entity_runs_cons; [|apply entity_runs_nil]. vm_compute. reflexivity.
  - vm_compute. reflexivity.
  - vm_compute. reflexivity.
  - vm_compute. intuition discriminate.
Qed.

(** C9 as the code has it, on a season run over three entities: each
    entity has three dates, one of them a game. *)
Lemma season_totals_sum_new_calls_errors_witness :
  exists players l h1 h2 totals,
    player_key <$> players = ["nba.p.1"; "nba.p.2"; "nba.p.3"]
    /\ @entity_runs CPython.runtime Cases.three_players 3
         {| season_start := "2024-10-22"; season_end := "2025-06-17" |} 1
         players h1 l h2
    /\ @backfill_season CPython.runtime Cases.three_players "2024-25" None []
       = (Returns tt, h2 ++ summary_lines totals)
    /\ length l = 3%nat
    /\ totals = {| total_players := 3; processed_players := 3;
                   total_new_games := 3; total_api_calls := 9;
                   total_errors := 0 |}
    /\ sum_of new_games l = 3%nat
    /\ sum_of api_calls l = 9%nat
    /\ sum_of errors l = 0%nat
    /\ sum_of total_dates l = 9%nat.
Proof.
  edestruct (@season_totals_sum_new_calls_errors CPython.runtime Cases.three_players
               "2024-25" None)
    as (l & h1 & h2 & totals & Hruns & _ & Hrun & Hlen & _ & _ & Hnew & Hcalls
        & Herrors & Hdates).
  - reflexivity.
  - vm_compute. reflexivity.
  - discriminate.
  - assert (Htotals : totals = {| total_players := 3; processed_players := 3;
                                  total_new_games := 3; total_api_calls := 9;
                                  total_errors := 0 |}).
    { pose (run := @backfill_season CPython.runtime Cases.three_players
                     "2024-25" None []).
      assert (Hcomputed :
                run = (Returns tt,
                       take (length run.2 - 8) run.2
                       ++ summary_lines {| total_players := 3; processed_players := 3;
                                           total_new_games := 3; total_api_calls := 9;
                                           total_errors := 0 |}))
        by (vm_compute; reflexivity).
      subst run. rewrite Hrun in Hcomputed. injection Hcomputed as Hcomputed.
      apply app_inj_2 in Hcomputed as [_ Hsummary]; [|reflexivity].
      destruct totals. injection Hsummary as -> -> -> -> ->. reflexivity. }
    eexists _, l, h1, h2, totals.
    split; [|split; [exact Hruns|]]; [reflexivity|].
    split; [exact Hrun|]. split; [exact Hlen|]. split; [exact Htotals|].
    rewrite <- Hnew, <- Hcalls, <- Herrors, <- Hdates, Htotals. repeat split.
Defined.

(** * More of the collector *)

(** ** The turns of the loop of [backfill_player] *)

Section LoopTrace.
Context `{PyRuntime} `{Services}.

Lemma fetched_record (date : string) (r : py_result stats_response) (g : game_log) :
  fetched date r = Some g ->
  gl_date g = date /\ has_positive (gl_stats g)
  /\ gl_minutes_played g = gl_stats g !! "3" /\ gl_has_game g = true.
Proof.
  unfold fetched. destruct (any_positive _) eqn:Hpos; [|discriminate].
  intros [= <-]. simpl. apply any_positive_spec in Hpos. auto.
Qed.

Lemma fetch_loop_trace (player_key player_name : string) (dates : list string) :
  forall (stats : BatchStats) (h : history),
  exists after h',
    fetch_loop player_key player_name dates stats h = (Returns after, h ++ h')
    /\ iterations player_key player_name dates h'.
Proof.
  induction dates as [|date dates IH]; intros stats h.
  - exists stats, []. split; [simpl; unfold ret; now rewrite app_nil_r|].
    exists []. split; [reflexivity | constructor].
  - cbn [fetch_loop]. unfold bind at 1. rewrite get_player_stats_by_date_run.
    set (r := yahoo_get_player_stats_by_date h player_key date).
    destruct (fetched date r) as [g|] eqn:Hg.
    + unfold bind at 1. unfold bind at 1. rewrite save_game_log_run.
      fold (row_of player_key player_name g).
      destruct (supabase_upsert _ _) as [u|e]; unfold ret, bind at 1, sleep.
      * match goal with
        | |- context [fetch_loop _ _ _ ?s ?h0] =>
            destruct (IH s h0) as (after & h' & Hrun & blocks & Hcat & Hall)
        end.
        exists after. eexists ([_; _; _] ++ h'). split.
        { rewrite Hrun. f_equal. rewrite <- !app_assoc. reflexivity. }
        eexists (_ :: blocks). split; cycle 1.
        { constructor; [|exact Hall]. eapply iteration_saved. exact Hg. }
        rewrite Hcat. reflexivity.
      * rewrite (proj1 (fetched_record _ _ _ Hg)).
        match goal with
        | |- context [fetch_loop _ _ _ ?s ?h0] =>
            destruct (IH s h0) as (after & h' & Hrun & blocks & Hcat & Hall)
        end.
        exists after. eexists ([_; _; _; _] ++ h'). split.
        { rewrite Hrun. f_equal. rewrite <- !app_assoc. reflexivity. }
        eexists (_ :: blocks). split; cycle 1.
        { constructor; [|exact Hall]. eapply iteration_failed. exact Hg. }
        rewrite Hcat. reflexivity.
    + unfold ret, bind at 1, bind at 1, sleep.
      match goal with
      | |- context [fetch_loop _ _ _ ?s ?h0] =>
          destruct (IH s h0) as (after & h' & Hrun & blocks & Hcat & Hall)
      end.
      exists after. eexists ([_; _] ++ h'). split.
      { rewrite Hrun. f_equal. rewrite <- !app_assoc. reflexivity. }
      eexists (_ :: blocks). split; cycle 1.
      { constructor; [|exact Hall]. eapply iteration_no_game. exact Hg. }
      rewrite Hcat. reflexivity.
Qed.

(** The candidate dates of a run and what precedes the loop. *)
Lemma backfill_player_trace (player_key player_name start_date end_date : string)
    (skip_existing : bool) (start end_ : datetime) (h : history) :
  strptime start_date = Returns start ->
  strptime end_date = Returns end_ ->
  let generated := generate_dates start end_ (datetime_now h) in
  let E := if skip_existing then existing_set h player_key else ∅ in
  let query := if skip_existing then existing_query h player_key else [] in
  let dates := if skip_existing then filter (fun d => d ∉ E) generated
               else generated in
  exists stats h',
    backfill_player player_key player_name start_date end_date skip_existing h
    = (Returns stats, h ++ query ++ h')
    /\ advanced_by player_key dates h'
         {| bs_player_key := player_key; bs_player_name := player_name;
            total_dates := length dates; existing_games := size E;
            new_games := 0; api_calls := 0; errors := 0 |} stats
    /\ iterations player_key player_name dates h'.
Proof.
  intros Hs He generated E query dates.
  destruct (backfill_player_run player_key player_name _ _ skip_existing _ _ h Hs He)
    as (stats & h' & Hrun & Hadv).
  fold generated E query dates in Hrun, Hadv.
  exists stats, h'. split; [exact Hrun|]. split; [exact Hadv|].
  set (stats0 := {| bs_player_key := player_key; bs_player_name := player_name;
                    total_dates := length dates; existing_games := size E;
                    new_games := 0; api_calls := 0; errors := 0 |}).
  destruct (fetch_loop_trace player_key player_name dates stats0 (h ++ query))
    as (after & h'' & Hloop & Hit).
  assert (Hsame : backfill_player player_key player_name start_date end_date
                    skip_existing h
                  = fetch_loop player_key player_name dates stats0 (h ++ query)).
  { unfold backfill_player, bind at 1, lift at 1. rewrite Hs.
    unfold bind at 1, lift at 1. rewrite He.
    unfold bind at 1, now. fold generated.
    destruct skip_existing.
    - unfold bind at 1, bind at 1. rewrite get_existing_dates_run. unfold ret at 1.
      fold E. fold dates. fold stats0.
      destruct dates; [simpl; unfold ret; reflexivity | reflexivity].
    - unfold bind at 1, ret at 1. fold dates. fold stats0.
      subst query. rewrite app_nil_r.
      destruct dates; [simpl; unfold ret; reflexivity | reflexivity]. }
  rewrite Hsame, Hloop in Hrun. injection Hrun as _ Happ.
  rewrite <- app_assoc in Happ. apply app_inv_head in Happ.
  apply app_inv_head in Happ. now subst h''.
Qed.

Lemma iterations_paced (player_key player_name : string) (dates : list string)
    (h : history) :
  iterations player_key player_name dates h -> paced h.
Proof.
  intros (blocks & -> & Hall).
  induction Hall as [|date block dates blocks Hit _ IH]; [constructor|].
  destruct Hit; simpl.
  - apply (paced_call _ _ _ [] _); [reflexivity | reflexivity | exact IH].
  - apply (paced_call _ _ _ [_] _); [reflexivity | reflexivity | exact IH].
  - apply (paced_call _ _ _ [_; _] _); [reflexivity | reflexivity | exact IH].
Qed.

Lemma iterations_counts (player_key player_name : string) (dates : list string)
    (h : history) :
  iterations player_key player_name dates h ->
  count_events is_sleep h = length dates
  /\ count_events is_stats_call h = length dates
  /\ count_events is_select h = 0%nat
  /\ selects h = [].
Proof.
  intros (blocks & -> & Hall).
  induction Hall as [|date block dates blocks Hit _ IH];
    [repeat split|].
  destruct IH as (H1 & H2 & H3 & H4). simpl.
  unfold selects in *. rewrite !count_events_app, omap_app, H1, H2, H3, H4.
  destruct Hit; repeat split.
Qed.

(** The rows upserted by the turns of a loop: each is the row of a game
    record fetched for one of the dates. *)
Lemma iterations_upserts (player_key player_name : string) (dates : list string)
    (h : history) :
  iterations player_key player_name dates h ->
  Forall (fun data =>
            row_player_key data = player_key
            /\ row_player_name data = player_name
            /\ row_game_date data ∈ dates
            /\ has_positive (row_stats data)
            /\ row_minutes_played data = row_stats data !! "3"
            /\ row_opponent data = None /\ row_home_away data = None
            /\ row_game_result data = None) (upserts h)
  /\ (row_game_date <$> upserts h) `sublist_of` dates
  /\ saved_dates h player_key `sublist_of` dates.
Proof.
  intros (blocks & -> & Hall).
  induction Hall as [|date block dates blocks Hit _ IH].
  { repeat split; constructor. }
  destruct IH as (IH1 & IH2 & IH3).
  assert (Hweak : Forall (fun data =>
            row_player_key data = player_key
            /\ row_player_name data = player_name
            /\ row_game_date data ∈ date :: dates
            /\ has_positive (row_stats data)
            /\ row_minutes_played data = row_stats data !! "3"
            /\ row_opponent data = None /\ row_home_away data = None
            /\ row_game_result data = None) (upserts (concat blocks))).
  { eapply Forall_impl; [exact IH1|]. intros data (? & ? & ? & ?).
    repeat split; try tauto. apply elem_of_cons; now right. }
  simpl. unfold upserts, saved_dates in *. rewrite !omap_app.
  destruct Hit as [r Hr | r g u Hr | r g e Hr]; simpl.
  - split; [exact Hweak|]. split; now apply sublist_cons.
  - apply fetched_record in Hr as (Hd & Hp & Hm & _).
    split; [|split].
    + constructor; [|exact Hweak]. simpl. rewrite Hd.
      repeat split; try assumption. apply elem_of_cons; now left.
    + rewrite Hd. now apply sublist_skip.
    + destruct (decide (player_key = player_key)); [|contradiction].
      simpl. rewrite Hd. now apply sublist_skip.
  - apply fetched_record in Hr as (Hd & Hp & Hm & _).
    split; [|split].
    + constructor; [|exact Hweak]. simpl. rewrite Hd.
      repeat split; try assumption. apply elem_of_cons; now left.
    + rewrite Hd. now apply sublist_skip.
    + now apply sublist_cons.
Qed.

End LoopTrace.

(** ** More on the per-entity backfill *)

Section OrchestratorMore.
Context `{PyRuntime} `{Services}.

Lemma strptime_raises_ValueError (s : string) (e : exception) :
  strptime s = Raises e -> exc_type e = ValueError.
Proof.
  unfold strptime. intros Hs.
  repeat match type of Hs with
         | match ?x with _ => _ end = _ => destruct x; try discriminate
         | (if ?b then _ else _) = _ => destruct b; try discriminate
         end;
    injection Hs as <-; reflexivity.
Qed.

Lemma count_stats_calls (h : history) :
  count_events is_stats_call h = length (fetch_calls h).
Proof.
  unfold count_events, fetch_calls.
  induction h as [|[] h IH]; simpl; try rewrite IH; reflexivity.
Qed.

Lemma existing_query_trace (h : history) (player_key : string) :
  count_events is_stats_call (existing_query h player_key) = 0%nat
  /\ count_events is_sleep (existing_query h player_key) = 0%nat
  /\ upserts (existing_query h player_key) = []
  /\ selects (existing_query h player_key) = [player_key]
  /\ count_events is_roster_fetch (existing_query h player_key) = 0%nat.
Proof.
  unfold existing_query. now destruct (supabase_select h player_key).
Qed.

Lemma upserts_app (h1 h2 : history) : upserts (h1 ++ h2) = upserts h1 ++ upserts h2.
Proof. apply omap_app. Qed.

Lemma selects_app (h1 h2 : history) : selects (h1 ++ h2) = selects h1 ++ selects h2.
Proof. apply omap_app. Qed.

Lemma saved_dates_upserts (h : history) (player_key : string) :
  saved_dates h player_key ⊆ row_game_date <$> upserts h.
Proof.
  induction h as [|ev h IH]; [reflexivity|].
  unfold saved_dates, upserts in *. simpl.
  destruct ev as [| | | |data [u|e]| |]; simpl; try exact IH.
  - destruct (decide (row_player_key data = player_key)); simpl.
    + intros d Hd. apply elem_of_cons in Hd as [->|Hd];
        apply elem_of_cons; [now left | right; now apply IH].
    + intros d Hd. apply elem_of_cons. right. now apply IH.
  - intros d Hd. apply elem_of_cons. right. now apply IH.
Qed.

(** The candidate dates of a run on well-formed dates are distinct. *)
Lemma candidates_NoDup (start_date end_date : string) (start end_ today : datetime)
    (E : gset string) (skip_existing : bool) :
  strptime start_date = Returns start ->
  strptime end_date = Returns end_ ->
  NoDup (if skip_existing
         then filter (fun d => d ∉ E) (generate_dates start end_ today)
         else generate_dates start end_ today).
Proof.
  intros Hs He.
  assert (Hnd : NoDup (generate_dates start end_ today)).
  { rewrite (strptime_midnight _ _ Hs), (strptime_midnight _ _ He).
    apply strptime_range in Hs, He. apply generate_dates_NoDup; lia. }
  destruct skip_existing; [now apply NoDup_filter | exact Hnd].
Qed.

(** X1. Rate limiting. In every per-entity backfill run on well-formed
    dates, each remote stats call is followed by a pause of 200 ms before
    the next remote stats call, whatever the call gave (a game, no game,
    an error, a failed upsert); there are exactly as many pauses as API
    calls, and none before the first call. *)
Theorem backfill_player_paced
    (player_key player_name start_date end_date : string) (skip_existing : bool)
    (start end_ : datetime) (h : history) :
  strptime start_date = Returns start ->
  strptime end_date = Returns end_ ->
  exists stats before loop,
    backfill_player player_key player_name start_date end_date skip_existing h
    = (Returns stats, h ++ before ++ loop)
    /\ count_events is_stats_call before = 0%nat
    /\ count_events is_sleep before = 0%nat
    /\ paced loop
    /\ count_events is_sleep loop = api_calls stats.
Proof.
  intros Hs He.
  destruct (backfill_player_trace player_key player_name _ _ skip_existing _ _ h Hs He)
    as (stats & h' & Hrun & Hadv & Hit).
  eexists stats, _, h'. split; [exact Hrun|].
  destruct (iterations_counts _ _ _ _ Hit) as (Hsl & _).
  destruct Hadv as (_ & Ha & _). simpl in Ha.
  split; [|split; [|split; [eapply iterations_paced; exact Hit|lia]]];
    destruct skip_existing; try reflexivity; apply existing_query_trace.
Qed.

(** X2. Only games are persisted. In every per-entity backfill run on
    well-formed dates, each row given to the store's upsert carries the
    entity's key and name, the date of one of the generated candidate
    dates, a stat mapping with at least one value strictly greater than
    zero, as minutes_played the mapping's value at "3", and no opponent,
    home/away or result; with skip_existing, its date is never one the
    existing-record filter returned. *)
Theorem backfill_player_persists_only_games
    (player_key player_name start_date end_date : string) (skip_existing : bool)
    (start end_ : datetime) (h : history) :
  strptime start_date = Returns start ->
  strptime end_date = Returns end_ ->
  let generated := generate_dates start end_ (datetime_now h) in
  exists stats h',
    backfill_player player_key player_name start_date end_date skip_existing h
    = (Returns stats, h ++ h')
    /\ Forall (fun data =>
                 row_player_key data = player_key
                 /\ row_player_name data = player_name
                 /\ row_game_date data ∈ generated
                 /\ (skip_existing = true ->
                     row_game_date data ∉ existing_set h player_key)
                 /\ has_positive (row_stats data)
                 /\ row_minutes_played data = row_stats data !! "3"
                 /\ row_opponent data = None /\ row_home_away data = None
                 /\ row_game_result data = None) (upserts h').
Proof.
  intros Hs He generated.
  destruct (backfill_player_trace player_key player_name _ _ skip_existing _ _ h Hs He)
    as (stats & h' & Hrun & _ & Hit).
  eexists stats, _. split; [exact Hrun|].
  rewrite upserts_app.
  replace (upserts (if skip_existing then existing_query h player_key else []))
    with (@nil game_log_row)
    by (destruct skip_existing; [symmetry; apply existing_query_trace | reflexivity]).
  simpl. destruct (iterations_upserts _ _ _ _ Hit) as (Hrows & _).
  eapply Forall_impl; [exact Hrows|].
  intros data (Hk & Hn & Hd & Hrest). fold generated in Hd.
  split; [exact Hk|]. split; [exact Hn|].
  destruct skip_existing.
  - apply list_elem_of_filter in Hd as [HnE Hg].
    split; [exact Hg|]. split; [intros _; exact HnE | exact Hrest].
  - split; [exact Hd|]. split; [discriminate | exact Hrest].
Qed.

(** X3. Nothing is done twice. In every per-entity backfill run on
    well-formed dates, no date is passed twice to the remote stats query,
    and no date is upserted twice. *)
Theorem backfill_player_no_duplicates
    (player_key player_name start_date end_date : string) (skip_existing : bool)
    (start end_ : datetime) (h : history) :
  strptime start_date = Returns start ->
  strptime end_date = Returns end_ ->
  exists stats h',
    backfill_player player_key player_name start_date end_date skip_existing h
    = (Returns stats, h ++ h')
    /\ NoDup (fetch_calls h')
    /\ NoDup (row_game_date <$> upserts h').
Proof.
  intros Hs He.
  destruct (backfill_player_trace player_key player_name _ _ skip_existing _ _ h Hs He)
    as (stats & h' & Hrun & Hadv & Hit).
  pose proof (candidates_NoDup _ _ _ _ (datetime_now h)
                (if skip_existing then existing_set h player_key else ∅)
                skip_existing Hs He) as Hnd.
  eexists stats, _. split; [exact Hrun|].
  rewrite fetch_calls_app, upserts_app.
  replace (upserts (if skip_existing then existing_query h player_key else []))
    with (@nil game_log_row)
    by (destruct skip_existing; [symmetry; apply existing_query_trace | reflexivity]).
  replace (fetch_calls (if skip_existing then existing_query h player_key else []))
    with (@nil (string * string))
    by (destruct skip_existing;
        [symmetry; apply fetch_calls_existing_query | reflexivity]).
  simpl. destruct Hadv as (Hf & _). rewrite Hf.
  destruct (iterations_upserts _ _ _ _ Hit) as (_ & Hsub & _).
  split.
  - apply NoDup_fmap_2_strong; [|destruct skip_existing; exact Hnd].
    now intros x y _ _ [= ->].
  - eapply sublist_NoDup; [|exact Hsub]. destruct skip_existing; exact Hnd.
Qed.

(** X4. The window is respected. In every per-entity backfill run on
    well-formed dates, each remote stats call is for the entity's key and
    for a calendar day that is not before the start date, not after the
    end date and not after today: no date of the future is fetched. *)
Theorem backfill_player_fetches_within_window
    (player_key player_name start_date end_date : string) (skip_existing : bool)
    (start end_ : datetime) (h : history) :
  strptime start_date = Returns start ->
  strptime end_date = Returns end_ ->
  exists stats h',
    backfill_player player_key player_name start_date end_date skip_existing h
    = (Returns stats, h ++ h')
    /\ Forall (fun call =>
                 call.1 = player_key
                 /\ exists day,
                      call.2 = strftime (midnight day)
                      /\ dt_ordinal start <= day <= dt_ordinal end_
                      /\ day <= dt_ordinal (datetime_now h)) (fetch_calls h').
Proof.
  intros Hs He.
  destruct (backfill_player_trace player_key player_name _ _ skip_existing _ _ h Hs He)
    as (stats & h' & Hrun & Hadv & _).
  eexists stats, _. split; [exact Hrun|].
  rewrite fetch_calls_app.
  replace (fetch_calls (if skip_existing then existing_query h player_key else []))
    with (@nil (string * string))
    by (destruct skip_existing;
        [symmetry; apply fetch_calls_existing_query | reflexivity]).
  simpl. destruct Hadv as (Hf & _). rewrite Hf.
  apply Forall_fmap, Forall_forall. intros d Hd. simpl. split; [reflexivity|].
  assert (Hg : d ∈ generate_dates start end_ (datetime_now h)).
  { destruct skip_existing; [|exact Hd].
    apply list_elem_of_filter in Hd. tauto. }
  rewrite (strptime_midnight _ _ Hs), (strptime_midnight _ _ He),
    generate_dates_range in Hg.
  apply list_elem_of_fmap in Hg as (day & -> & Hday).
  apply elem_of_seqZ in Hday. exists day. split; [reflexivity|]. lia.
Qed.

(** X5. Refetch. With skip_existing = false, a per-entity backfill run on
    well-formed dates never queries the store for the existing dates,
    reports existing_games = 0, and passes every generated date to the
    remote stats query. *)
Theorem backfill_player_refetch
    (player_key player_name start_date end_date : string)
    (start end_ : datetime) (h : history) :
  strptime start_date = Returns start ->
  strptime end_date = Returns end_ ->
  let generated := generate_dates start end_ (datetime_now h) in
  exists stats h',
    backfill_player player_key player_name start_date end_date false h
    = (Returns stats, h ++ h')
    /\ selects h' = []
    /\ existing_games stats = 0%nat
    /\ total_dates stats = length generated
    /\ fetch_calls h' = (fun d => (player_key, d)) <$> generated.
Proof.
  intros Hs He generated.
  destruct (backfill_player_trace player_key player_name _ _ false _ _ h Hs He)
    as (stats & h' & Hrun & Hadv & Hit).
  exists stats, h'. split; [exact Hrun|].
  destruct (iterations_counts _ _ _ _ Hit) as (_ & _ & _ & Hsel).
  destruct Hadv as (Hf & _ & _ & _ & _ & _ & Ht & Hx & _). simpl in Ht, Hx.
  repeat split; assumption.
Qed.

(** X6. Malformed dates. When the start date or the end date of a
    per-entity backfill run does not parse, the run raises a ValueError:
    the one of the start date when that date is malformed, otherwise the
    one of the end date. It is raised before anything is called or
    printed: the history is unchanged. *)
Theorem backfill_player_malformed_date_raises
    (player_key player_name start_date end_date : string) (skip_existing : bool)
    (h : history) :
  value_of (strptime start_date) = None \/ value_of (strptime end_date) = None ->
  exists e,
    backfill_player player_key player_name start_date end_date skip_existing h
    = (Raises e, h)
    /\ exc_type e = ValueError
    /\ (strptime start_date = Raises e
        \/ (exists start, strptime start_date = Returns start)
           /\ strptime end_date = Raises e).
Proof.
  intros Hbad.
  destruct (strptime start_date) as [start|e1] eqn:Hs.
  - destruct (strptime end_date) as [end_|e2] eqn:He.
    + destruct Hbad as [[=] | [=]].
    + exists e2. split; [|split].
      * unfold backfill_player, bind at 1, lift at 1. rewrite Hs.
        unfold bind at 1, lift at 1. now rewrite He.
      * now apply (strptime_raises_ValueError end_date).
      * right. eauto.
  - exists e1. split; [|split].
    + unfold backfill_player, bind at 1, lift at 1. now rewrite Hs.
    + now apply (strptime_raises_ValueError start_date).
    + now left.
Qed.

(** X7. Resuming. When a per-entity backfill run with skip_existing
    starts after a history in which dates were saved for the entity, and
    the store's query returns those dates, none of them is passed again to
    the remote stats query nor upserted again. *)
Theorem backfill_player_resumes
    (player_key player_name start_date end_date : string)
    (start end_ : datetime) (h : history) (rows : list string) :
  strptime start_date = Returns start ->
  strptime end_date = Returns end_ ->
  supabase_select h player_key = Returns rows ->
  saved_dates h player_key ⊆ rows ->
  exists stats h',
    backfill_player player_key player_name start_date end_date true h
    = (Returns stats, h ++ h')
    /\ forall d, d ∈ saved_dates h player_key ->
         ((player_key, d) ∉ fetch_calls h')
         /\ (d ∉ (row_game_date <$> upserts h')).
Proof.
  intros Hs He Hsel Hkept.
  destruct (backfill_player_trace player_key player_name _ _ true _ _ h Hs He)
    as (stats & h' & Hrun & Hadv & Hit).
  eexists stats, _. split; [exact Hrun|].
  intros d Hd.
  assert (HE : d ∈ existing_set h player_key).
  { unfold existing_set. rewrite Hsel. apply elem_of_list_to_set. now apply Hkept. }
  rewrite fetch_calls_app, upserts_app.
  rewrite (proj1 (fetch_calls_existing_query h player_key)).
  replace (upserts (existing_query h player_key)) with (@nil game_log_row)
    by (symmetry; apply existing_query_trace).
  simpl. destruct Hadv as (Hf & _). rewrite Hf.
  destruct (iterations_upserts _ _ _ _ Hit) as (_ & Hsub & _).
  split.
  - intros Hin. apply list_elem_of_fmap in Hin as (d' & [= <-] & Hin).
    apply list_elem_of_filter in Hin. tauto.
  - intros Hin.
    apply (fun Hx => elem_of_submseteq _ _ _ Hx (sublist_submseteq _ _ Hsub)) in Hin.
    apply list_elem_of_filter in Hin. tauto.
Qed.

End OrchestratorMore.

(** ** The counters of a per-entity run *)

Section BatchCounters.
Context `{PyRuntime} `{Services}.

(** Every upsert either succeeds or fails. *)
Lemma count_upserts_split (h : history) :
  count_events is_upsert h
  = (count_events is_saved h + count_events is_failed_save h)%nat.
Proof.
  induction h as [|ev h IH]; [reflexivity|].
  change (ev :: h) with ([ev] ++ h). rewrite !count_events_app, IH.
  destruct ev as [| | | |data [|]| |]; simpl; lia.
Qed.

(** C10. For every per-entity backfill run with well-formed date inputs,
    with [remaining] the candidate dates left after the filter (the
    generated dates not in the existing set when skip_existing, all the
    generated dates otherwise), the BatchStats returned satisfies
    total_dates = the number of remaining dates and api_calls =
    total_dates: the remote stats calls of the run are exactly one per
    remaining date, in order, game or no game. Moreover new_games + errors
    <= api_calls; every upsert of the run is the upsert of a fetched
    record and is counted once, in errors when it failed and in new_games
    when it succeeded; when no candidate date remains, api_calls =
    new_games = errors = 0 and no remote call and no upsert is made. *)
Theorem batch_counters_invariant
    (player_key player_name start_date end_date : string) (skip_existing : bool)
    (start end_ : datetime) (h : history) :
  strptime start_date = Returns start ->
  strptime end_date = Returns end_ ->
  let generated := generate_dates start end_ (datetime_now h) in
  let remaining :=
    if skip_existing
    then filter (fun d => d ∉ existing_set h player_key) generated
    else generated in
  exists stats h',
    backfill_player player_key player_name start_date end_date skip_existing h
    = (Returns stats, h ++ h')
    /\ total_dates stats = length remaining
    /\ api_calls stats = total_dates stats
    /\ fetch_calls h' = (fun d => (player_key, d)) <$> remaining
    /\ length (fetch_calls h') = api_calls stats
    /\ (new_games stats + errors stats <= api_calls stats)%nat
    /\ errors stats = count_events is_failed_save h'
    /\ new_games stats = count_events is_saved h'
    /\ count_events is_upsert h' = (new_games stats + errors stats)%nat
    /\ Forall (fun data =>
                 row_player_key data = player_key
                 /\ row_game_date data ∈ remaining
                 /\ has_positive (row_stats data)) (upserts h')
    /\ (remaining = [] ->
        api_calls stats = 0%nat /\ new_games stats = 0%nat
        /\ errors stats = 0%nat /\ fetch_calls h' = []
        /\ count_events is_upsert h' = 0%nat).
Proof.
  intros Hs He generated remaining.
  destruct (backfill_player_trace player_key player_name _ _ skip_existing _ _ h Hs He)
    as (stats & h' & Hrun & Hadv & Hiter).
  cbv zeta in Hrun, Hadv, Hiter. fold generated in Hadv, Hiter.
  set (query := if skip_existing then existing_query h player_key else []) in *.
  assert (Hdates : (if skip_existing
                    then filter (fun d => d ∉ (if skip_existing
                                               then existing_set h player_key
                                               else ∅)) generated
                    else generated) = remaining).
  { subst remaining. now destruct skip_existing. }
  rewrite Hdates in Hadv, Hiter.
  assert (Hq : fetch_calls query = [] /\ count_events is_saved query = 0%nat
               /\ count_events is_failed_save query = 0%nat
               /\ upserts query = []).
  { subst query. destruct skip_existing; [|repeat split].
    destruct (fetch_calls_existing_query h player_key) as (Q1 & Q2 & Q3).
    repeat split; try assumption.
    unfold existing_query. now destruct (supabase_select h player_key). }
  destruct Hq as (Hq1 & Hq2 & Hq3 & Hq4).
  exists stats, (query ++ h'). split; [exact Hrun|].
  destruct Hadv as (Hf & Ha & Hn & Her & Hle & _ & Ht & _).
  simpl in Ha, Hn, Her, Ht.
  rewrite count_upserts_split, fetch_calls_app, upserts_app, !count_events_app,
    Hq1, Hq2, Hq3, Hq4, Hf.
  simpl. rewrite length_fmap.
  split; [lia|]. split; [lia|]. split; [reflexivity|]. split; [lia|].
  split; [lia|]. split; [lia|]. split; [lia|]. split; [lia|].
  split.
  - eapply Forall_impl; [apply (iterations_upserts _ _ _ _ Hiter)|].
    intros data (Hkey & _ & Hdate & Hpos & _). repeat split; assumption.
  - intros Hnil. rewrite Hnil in *. simpl in *. repeat split; lia.
Qed.

End BatchCounters.

(** C10 on a run of the scenario with 2024-10-23 stored: two dates
    remain, two remote calls are made. *)
Lemma batch_counters_invariant_witness :
  exists stats h',
    @backfill_player CPython.runtime Scenario.one_stored
      "nba.p.123" "A Player" "2024-10-22" "2024-10-24" true []
    = (Returns stats, [] ++ h')
    /\ total_dates stats = 2%nat
    /\ api_calls stats = 2%nat
    /\ fetch_calls h' = [("nba.p.123", "2024-10-22"); ("nba.p.123", "2024-10-24")]
    /\ (new_games stats + errors stats <= api_calls stats)%nat
    /\ count_events is_upsert h' = (new_games stats + errors stats)%nat.
Proof.
  destruct (@batch_counters_invariant CPython.runtime Scenario.one_stored
              "nba.p.123" "A Player" "2024-10-22" "2024-10-24" true
              (midnight 739181) (midnight 739183) [])
    as (stats & h' & Hrun & Htotal & Hcalls & Hfetch & _ & Hle & _ & _ & Hups & _);
    [reflexivity | reflexivity |].
  exists stats, h'. split; [exact Hrun|].
  split; [rewrite Htotal; vm_compute; reflexivity|].
  split; [rewrite Hcalls, Htotal; vm_compute; reflexivity|].
  split; [rewrite Hfetch; vm_compute; reflexivity|].
  split; [exact Hle | exact Hups].
Defined.

(** ** More on the fetcher, the persister and the roster *)

Section CollaboratorsMore.
Context `{PyRuntime} `{Services}.

Lemma foldl_insert_last (kvs : list (string * number)) (m : gmap string number)
    (k : string) :
  foldl (fun m kv => <[kv.1 := kv.2]> m) m kvs !! k
  = match last (omap (fun kv : string * number =>
                         if decide (kv.1 = k) then Some kv.2 else None) kvs) with
    | Some v => Some v
    | None => m !! k
    end.
Proof.
  induction kvs as [|kv kvs IH] using rev_ind; [reflexivity|].
  rewrite foldl_app, omap_app. simpl. rewrite lookup_insert.
  destruct (decide (kv.1 = k)); simpl.
  - now rewrite last_snoc.
  - rewrite app_nil_r. exact IH.
Qed.

Lemma omap_entry_value_for (k : string) (entries : list stat_entry) :
  omap (fun kv : string * number => if decide (kv.1 = k) then Some kv.2 else None)
       (omap coerced_entry entries)
  = omap (entry_value_for k) entries.
Proof.
  unfold entry_value_for.
  induction entries as [|e entries IH]; [reflexivity|].
  simpl. destruct (coerced_entry e) as [[k' v]|]; simpl; [|exact IH].
  destruct (decide (k' = k)); simpl; [f_equal|]; exact IH.
Qed.

(** X8. The last entry wins. The loop over the raw stat entries always
    ends with a mapping in which a stat id has the coerced value of the
    last entry for that id whose value coerces, and is absent when no
    entry for that id coerces. *)
Theorem parse_stats_last_entry_wins (entries : list stat_entry) (k : string) :
  exists m,
    parse_stats entries ∅ = Returns m
    /\ m !! k = last (omap (entry_value_for k) entries).
Proof.
  eexists. split; [apply parse_stats_run|].
  rewrite foldl_insert_last, omap_entry_value_for, lookup_empty.
  now destruct (last _).
Qed.

(** X9. The persister. [save_game_log] never raises and makes exactly one
    upsert, of the row with the given key and name, the record's date,
    stats and minutes played, and no opponent, home/away or result; it
    returns true exactly when the upsert succeeds, and prints a diagnostic
    exactly when it fails. *)
Theorem save_game_log_outcome (player_key player_name : string) (g : game_log)
    (h : history) :
  exists saved h',
    save_game_log player_key player_name g h = (Returns saved, h ++ h')
    /\ upserts h' = [row_of player_key player_name g]
    /\ (saved = true
        <-> exists u, supabase_upsert h (row_of player_key player_name g) = Returns u)
    /\ (saved = true -> h' = [SupabaseUpsert (row_of player_key player_name g)
                                             (Returns tt)])
    /\ (saved = false
        <-> exists e, supabase_upsert h (row_of player_key player_name g) = Raises e
                      /\ last h' = Some (Print (MsgSaveFailed player_key (gl_date g) e))).
Proof.
  rewrite save_game_log_run. fold (row_of player_key player_name g).
  destruct (supabase_upsert h _) as [[]|e].
  - eexists true, _. split; [reflexivity|]. split; [reflexivity|].
    split; [split; eauto|]. split; [reflexivity|].
    split; [discriminate | intros (e & [=] & _)].
  - eexists false, _. split; [reflexivity|]. split; [reflexivity|].
    split; [split; [discriminate | intros (u & [=])]|].
    split; [discriminate|]. split; [eauto | reflexivity].
Qed.

(** X10. The roster. [get_league_players] never raises. If the league
    query or the roster query raises, it returns the empty list after a
    diagnostic, and when the league query raises the roster query is not
    made. Otherwise it returns one player per remote player, in the same
    order, with the same key and name, team "UNK" unless the team
    abbreviation has a value, and no position when the eligible positions
    are absent. *)
Theorem get_league_players_outcome (h : history) :
  exists roster h',
    get_league_players h = (Returns roster, h ++ h')
    /\ (forall e, yahoo_get_league_info (h ++ [Print MsgFetchingPlayers]) = Raises e ->
          roster = []
          /\ h' = [Print MsgFetchingPlayers; YahooLeagueInfo (Raises e);
                   Print (MsgPlayersFailed e)])
    /\ (forall u e,
          yahoo_get_league_info (h ++ [Print MsgFetchingPlayers]) = Returns u ->
          yahoo_get_league_players
            (h ++ [Print MsgFetchingPlayers; YahooLeagueInfo (Returns u)]) = Raises e ->
          roster = [] /\ last h' = Some (Print (MsgPlayersFailed e)))
    /\ (forall u players,
          yahoo_get_league_info (h ++ [Print MsgFetchingPlayers]) = Returns u ->
          yahoo_get_league_players
            (h ++ [Print MsgFetchingPlayers; YahooLeagueInfo (Returns u)])
          = Returns players ->
          length roster = length players
          /\ player_key <$> roster = yp_player_key <$> players
          /\ player_name <$> roster = yp_name_full <$> players
          /\ Forall2 (fun p yp =>
                        team p = match yp_editorial_team_abbr yp with
                                 | Some (Some abbr) => abbr
                                 | _ => "UNK"
                                 end
                        /\ positions p = default [] (yp_eligible_positions yp))
                     roster players)
    /\ count_events is_upsert h' = 0%nat
    /\ fetch_calls h' = [].
Proof.
  unfold get_league_players, bind at 1, print at 1, try_except, bind at 1, call at 1.
  destruct (yahoo_get_league_info (h ++ [Print MsgFetchingPlayers])) as [u|e] eqn:Hinfo.
  - unfold bind at 1, call at 1. rewrite <- !app_assoc. simpl "++".
    destruct (yahoo_get_league_players _) as [players|e] eqn:Hplayers.
    + unfold bind, print, ret. eexists _, _. split.
      { rewrite <- !app_assoc. reflexivity. }
      split; [intros e [=]|]. split; [intros u' e [= <-]; congruence|].
      split; [|split; reflexivity].
      intros u' players' [= <-] Hp. rewrite Hplayers in Hp. injection Hp as <-.
      rewrite length_map. split; [reflexivity|].
      split; [|split].
      * clear Hplayers. induction players; simpl; [reflexivity | now f_equal].
      * clear Hplayers. induction players; simpl; [reflexivity | now f_equal].
      * clear Hplayers.
        induction players as [|yp players IH]; simpl; constructor; [|exact IH].
        simpl. unfold team_of, positions_of.
        split; [now destruct (yp_editorial_team_abbr yp) as [[]|] | reflexivity].
    + unfold bind, print, ret. eexists _, _. split.
      { rewrite <- !app_assoc. reflexivity. }
      split; [intros e' [=]|]. split.
      { intros u' e' [= <-] He. rewrite Hplayers in He. injection He as <-.
        split; reflexivity. }
      split; [|split; reflexivity].
      intros u' players [= <-] Hp. congruence.
  - unfold bind, print, ret. eexists _, _. split.
    { rewrite <- !app_assoc. reflexivity. }
    split; [intros e' [= <-]; split; reflexivity|].
    split; [intros u e' [=]|]. split; [intros u players [=]|].
    split; reflexivity.
Qed.

End CollaboratorsMore.

(** ** More on the season run *)

Section SeasonMore.
Context `{PyRuntime} `{Services}.

Lemma progress_lines_quiet (stats : BatchStats) :
  quiet (progress_lines stats)
  /\ count_events is_roster_fetch (progress_lines stats) = 0%nat.
Proof.
  unfold quiet, progress_lines. now destruct (0 <? errors stats)%nat.
Qed.

Lemma get_league_players_quiet (h : history) :
  exists roster h',
    get_league_players h = (Returns roster, h ++ h') /\ quiet h'.
Proof.
  unfold get_league_players, bind at 1, print at 1, try_except, bind at 1, call at 1.
  destruct (yahoo_get_league_info _) as [u|e].
  - unfold bind at 1, call at 1.
    destruct (yahoo_get_league_players _) as [players|e];
      unfold bind, print, ret; eexists _, _;
      (split; [rewrite <- !app_assoc; reflexivity | repeat split]).
  - unfold bind, print, ret. eexists _, _.
    split; [rewrite <- !app_assoc; reflexivity | repeat split].
Qed.

Lemma length_capped (roster : list player) (max_players : option Z) :
  length (capped roster max_players) = processed_count (length roster) max_players.
Proof.
  unfold capped, processed_count, slice_to. destruct max_players as [n|]; [|reflexivity].
  destruct (Z.eqb_spec n 0); [reflexivity|].
  destruct (Z.leb_spec 0 n), (Z.ltb_spec 0 n); try lia; rewrite length_take;
    [reflexivity | apply Nat.min_l; lia].
Qed.

(** The loop over the entities, with what it adds to the history. *)
Lemma season_loop_trace (n : nat) (info : season_info) (start end_ : datetime)
    (players : list player) :
  strptime (season_start info) = Returns start ->
  strptime (season_end info) = Returns end_ ->
  forall (i : nat) (t : SeasonTotals) (h : history),
  exists t' h',
    season_loop n info i players t h = (Returns t', h ++ h')
    /\ total_players t' = total_players t
    /\ processed_players t' = (processed_players t + length players)%nat
    /\ total_api_calls t' = (total_api_calls t + count_events is_stats_call h')%nat
    /\ total_new_games t' = (total_new_games t + count_events is_saved h')%nat
    /\ total_errors t' = (total_errors t + count_events is_failed_save h')%nat
    /\ count_events is_sleep h' = count_events is_stats_call h'
    /\ selects h' = player_key <$> players
    /\ count_events is_roster_fetch h' = 0%nat
    /\ (count_events is_saved h' + count_events is_failed_save h'
        <= count_events is_stats_call h')%nat.
Proof.
  intros Hs He. induction players as [|p players IH]; intros i t h.
  - exists t, []. rewrite app_nil_r. unfold count_events. simpl.
    repeat split; lia.
  - cbn [season_loop]. unfold bind at 1, print at 1. unfold bind at 1, print at 1.
    unfold bind at 1.
    match goal with
    | |- context [backfill_player _ _ _ _ _ ?h0] =>
        destruct (backfill_player_trace (player_key p) (player_name p) _ _ true
                    _ _ h0 Hs He) as (stats & h1 & Hrun & Hadv & Hit);
        set (hp := h0) in *
    end.
    rewrite Hrun.
    set (h2 := hp ++ _ ++ h1) in *.
    assert (Hprog : forall k : unit -> M SeasonTotals,
              (print (MsgExisting (existing_games stats)) ;;;
               print (MsgNew (new_games stats)) ;;;
               print (MsgApiCalls (api_calls stats)) ;;;
               (if (0 <? errors stats)%nat
                then print (MsgErrors (errors stats)) else ret tt) ;;;
               k tt) h2 = k tt (h2 ++ progress_lines stats)).
    { intros k. unfold bind, print, ret, progress_lines.
      destruct (0 <? errors stats)%nat; simpl;
        rewrite <- !app_assoc; reflexivity. }
    pose proof (Hprog (fun _ => season_loop n info (S i) players (add_batch t stats)))
      as Hp. cbv beta in Hp.
    destruct (IH (S i) (add_batch t stats) (h2 ++ progress_lines stats))
      as (t' & h' & Hloop & H1 & H2 & H3 & H4 & H5 & H6 & H7 & H9 & H10).
    set (hdr := [Print (MsgPlayerHeader i n (player_name p) (player_key p));
                 Print MsgDashes]).
    exists t'.
    exists (hdr ++ existing_query hp (player_key p) ++ h1 ++ progress_lines stats ++ h').
    split.
    { etransitivity; [exact Hp|]. rewrite Hloop. f_equal.
      subst h2 hp hdr. rewrite <- !app_assoc. reflexivity. }
    destruct Hadv as (Hf & Ha & Hn & Her & Hle & Hr & _).
    cbn [api_calls new_games errors] in Ha, Hn, Her.
    destruct (iterations_counts _ _ _ _ Hit) as (Hsl & Hst & _ & Hsel).
    destruct (existing_query_trace hp (player_key p)) as (Q1 & Q2 & _ & Q4 & Q5).
    pose proof (fetch_calls_existing_query hp (player_key p)) as (_ & Q6 & Q7).
    destruct (progress_lines_quiet stats) as ((P1 & P2 & P3 & P4 & P5 & _) & P6).
    assert (D : count_events is_stats_call hdr = 0%nat
                /\ count_events is_saved hdr = 0%nat
                /\ count_events is_failed_save hdr = 0%nat
                /\ count_events is_sleep hdr = 0%nat
                /\ selects hdr = []
                /\ count_events is_roster_fetch hdr = 0%nat) by repeat split.
    destruct D as (D1 & D2 & D3 & D4 & D5 & D6).
    assert (A1 : processed_players (add_batch t stats) = S (processed_players t))
      by (cbn; lia).
    assert (A2 : total_api_calls (add_batch t stats)
                 = (total_api_calls t + api_calls stats)%nat) by reflexivity.
    assert (A3 : total_new_games (add_batch t stats)
                 = (total_new_games t + new_games stats)%nat) by reflexivity.
    assert (A4 : total_errors (add_batch t stats)
                 = (total_errors t + errors stats)%nat) by reflexivity.
    assert (A5 : total_players (add_batch t stats) = total_players t) by reflexivity.
    rewrite !count_events_app, !selects_app.
    rewrite Q1, Q2, Q4, Q5, Q6, Q7, P1, P2, P3, P4, P5, P6, Hsel, H7, Hr,
      D1, D2, D3, D4, D5, D6, H1, H2, H3, H4, H5, H6, H9, Hsl, Hst,
      A1, A2, A3, A4, A5.
    cbn [length app fmap list_fmap].
    repeat split; lia.
Qed.

(** A season run for a label of the table, with a roster that is not
    empty. *)
Lemma backfill_season_trace (season_key : string) (max_players : option Z)
    (info : season_info) (roster : list player) (h hr : history) :
  SEASONS !! season_key = Some info ->
  get_league_players (h ++ season_banner season_key info) = (Returns roster, hr) ->
  roster <> [] ->
  exists totals body,
    backfill_season season_key max_players h
    = (Returns tt, hr ++ body ++ summary_lines totals)
    /\ total_players totals = length (capped roster max_players)
    /\ processed_players totals = length (capped roster max_players)
    /\ total_api_calls totals = count_events is_stats_call body
    /\ total_new_games totals = count_events is_saved body
    /\ total_errors totals = count_events is_failed_save body
    /\ count_events is_sleep body = count_events is_stats_call body
    /\ selects body = player_key <$> capped roster max_players
    /\ count_events is_roster_fetch body = 0%nat
    /\ (count_events is_saved body + count_events is_failed_save body
        <= count_events is_stats_call body)%nat.
Proof.
  intros Hk Hroster Hne.
  destruct (SEASONS_well_formed _ _ Hk) as (start & end_ & Hs & He).
  set (players := capped roster max_players).
  set (t0 := {| total_players := length players; processed_players := 0;
                total_new_games := 0; total_api_calls := 0; total_errors := 0 |}).
  set (limit := match max_players with
                | Some n => if n =? 0 then [] else [Print (MsgLimit n)]
                | None => []
                end).
  destruct (season_loop_trace (length players) info start end_ players Hs He
              1%nat t0 (hr ++ limit))
    as (t' & h' & Hloop & H1 & H2 & H3 & H4 & H5 & H6 & H7 & H9 & H10).
  exists t', (limit ++ h').
  assert (Hlimit : count_events is_stats_call limit = 0%nat
                   /\ count_events is_saved limit = 0%nat
                   /\ count_events is_failed_save limit = 0%nat
                   /\ count_events is_sleep limit = 0%nat
                   /\ selects limit = []
                   /\ count_events is_roster_fetch limit = 0%nat).
  { subst limit. destruct max_players as [n|]; [destruct (n =? 0)|]; repeat split. }
  destruct Hlimit as (L1 & L2 & L3 & L4 & L5 & L6).
  rewrite !count_events_app, selects_app, L1, L2, L3, L4, L5, L6.
  simpl in *. split; [|repeat split; assumption || lia].
  unfold backfill_season. rewrite Hk.
  unfold bind at 1, print at 1. unfold bind at 1, print at 1.
  unfold bind at 1, print at 1. unfold bind at 1, print at 1.
  unfold bind at 1. rewrite <- !app_assoc. simpl.
  change (h ++ _) with (h ++ season_banner season_key info). rewrite Hroster.
  destruct roster as [|p roster]; [contradiction|].
  unfold bind at 1.
  assert (Hcap : (match max_players with
                  | Some n => if n =? 0 then ret (p :: roster)
                              else print (MsgLimit n) ;;; ret (slice_to (p :: roster) n)
                  | None => ret (p :: roster)
                  end) hr = (Returns players, hr ++ limit)).
  { subst players limit. unfold capped.
    destruct max_players as [n|]; [destruct (n =? 0)|];
      unfold ret, bind, print; rewrite ?app_nil_r; reflexivity. }
  rewrite Hcap. fold t0. unfold bind at 1. rewrite Hloop.
  unfold bind, print, summary_lines. simpl. rewrite <- !app_assoc. reflexivity.
Qed.

End SeasonMore.

Section SeasonExtras.
Context `{PyRuntime} `{Services}.

Lemma backfill_season_no_roster (season_key : string) (max_players : option Z)
    (info : season_info) (h hr : history) :
  SEASONS !! season_key = Some info ->
  get_league_players (h ++ season_banner season_key info) = (Returns [], hr) ->
  backfill_season season_key max_players h = (Returns tt, hr ++ [Print MsgNoPlayers]).
Proof.
  intros Hk Hroster. unfold backfill_season. rewrite Hk.
  unfold bind at 1, print at 1. unfold bind at 1, print at 1.
  unfold bind at 1, print at 1. unfold bind at 1, print at 1.
  unfold bind at 1. rewrite <- !app_assoc. simpl.
  change (h ++ _) with (h ++ season_banner season_key info). rewrite Hroster.
  reflexivity.
Qed.

Lemma backfill_season_never_raises_aux (season_key : string)
    (max_players : option Z) (h : history) :
  exists h', backfill_season season_key max_players h = (Returns tt, h ++ h').
Proof.
  destruct (SEASONS !! season_key) as [info|] eqn:Hk.
  - destruct (get_league_players_quiet (h ++ season_banner season_key info))
      as (roster & hq & Hroster & _).
    destruct roster as [|p roster].
    + eexists. rewrite (backfill_season_no_roster _ _ _ _ _ Hk Hroster).
      rewrite <- !app_assoc. reflexivity.
    + destruct (backfill_season_trace season_key max_players info _ h _ Hk Hroster)
        as (totals & body & Hrun & _); [discriminate|].
      eexists. rewrite Hrun, <- !app_assoc. reflexivity.
  - eexists. unfold backfill_season. rewrite Hk. reflexivity.
Qed.

(** X11. A season run never raises: for every season label, cap and
    history, and whatever the collaborators answer, [backfill_season]
    returns normally. *)
Theorem backfill_season_never_raises (season_key : string)
    (max_players : option Z) (h : history) :
  exists h', backfill_season season_key max_players h = (Returns tt, h ++ h').
Proof. apply backfill_season_never_raises_aux. Qed.

(** X12. Without a roster. When, for a label of the season table, the
    roster cannot be obtained or is empty, the season run reports it and
    returns at once: no entity is processed, and no remote stats call,
    store query, upsert or pause is made. *)
Theorem backfill_season_without_roster (season_key : string)
    (max_players : option Z) (info : season_info) (h : history) :
  SEASONS !! season_key = Some info ->
  (get_league_players (h ++ season_banner season_key info)).1 = Returns [] ->
  exists h',
    backfill_season season_key max_players h = (Returns tt, h ++ h')
    /\ last h' = Some (Print MsgNoPlayers)
    /\ quiet h'.
Proof.
  intros Hk Hempty.
  destruct (get_league_players_quiet (h ++ season_banner season_key info))
    as (roster & hq & Hroster & Hq).
  rewrite Hroster in Hempty. injection Hempty as ->.
  exists (season_banner season_key info ++ hq ++ [Print MsgNoPlayers]). split.
  { rewrite (backfill_season_no_roster _ _ _ _ _ Hk Hroster).
    now rewrite <- !app_assoc. }
  split; [now rewrite !app_assoc, last_snoc|].
  destruct Hq as (Q1 & Q2 & Q3 & Q4 & Q5 & Q6).
  unfold quiet. rewrite !count_events_app, !selects_app, !upserts_app,
    Q1, Q2, Q3, Q4, Q5, Q6. repeat split.
Qed.

(** X13. The cap. For a label of the season table and a roster that is
    not empty, the summary of a season run counts as total and as
    processed the same number of entities: the whole roster when there is
    no cap or the cap is 0, the first [n] entities (at most the roster)
    for a cap [n > 0], and the roster without its last [-n] entities for
    a cap [n < 0]. *)
Theorem backfill_season_cap (season_key : string) (max_players : option Z)
    (info : season_info) (roster : list player) (h hr : history) :
  SEASONS !! season_key = Some info ->
  get_league_players (h ++ season_banner season_key info) = (Returns roster, hr) ->
  roster <> [] ->
  exists totals before,
    backfill_season season_key max_players h
    = (Returns tt, before ++ summary_lines totals)
    /\ processed_players totals = total_players totals
    /\ total_players totals
       = match max_players with
         | None => length roster
         | Some n =>
             if n =? 0 then length roster
             else if 0 <? n then Nat.min (Z.to_nat n) (length roster)
             else (length roster - Z.to_nat (- n))%nat
         end.
Proof.
  intros Hk Hroster Hne.
  destruct (backfill_season_trace season_key max_players info _ h _ Hk Hroster Hne)
    as (totals & body & Hrun & Ht & Hp & _).
  exists totals, (hr ++ body). split; [now rewrite <- app_assoc|].
  split; [congruence|]. rewrite Ht, length_capped. unfold processed_count.
  destruct max_players as [n|]; [|reflexivity].
  destruct (n =? 0); [reflexivity|]. destruct (Z.ltb_spec 0 n); [reflexivity | lia].
Qed.

(** X14. One query per entity. For a label of the season table and a
    roster that is not empty, a season run queries the store for the
    existing dates exactly once per processed entity, in listing order,
    and not at all for the entities beyond the cap. *)
Theorem backfill_season_one_query_per_entity (season_key : string)
    (max_players : option Z) (info : season_info) (roster : list player)
    (h hr : history) :
  SEASONS !! season_key = Some info ->
  get_league_players (h ++ season_banner season_key info) = (Returns roster, hr) ->
  roster <> [] ->
  exists h',
    backfill_season season_key max_players h = (Returns tt, h ++ h')
    /\ selects h' = player_key <$> capped roster max_players.
Proof.
  intros Hk Hroster Hne.
  destruct (backfill_season_trace season_key max_players info _ h _ Hk Hroster Hne)
    as (totals & body & Hrun & _ & _ & _ & _ & _ & _ & Hsel & _).
  destruct (get_league_players_quiet (h ++ season_banner season_key info))
    as (roster' & hq & Hroster' & (_ & _ & _ & _ & Q5 & _)).
  rewrite Hroster in Hroster'. injection Hroster' as _ ->.
  exists (season_banner season_key info ++ hq ++ body ++ summary_lines totals).
  split; [rewrite Hrun, <- !app_assoc; reflexivity|].
  rewrite !selects_app, Q5, Hsel. simpl. now rewrite app_nil_r.
Qed.

(** X15. The summary is true to the run. For a label of the season table
    and a roster that is not empty, the totals of the summary are what the
    run did: total_api_calls is the number of remote stats calls,
    total_new_games the number of upserts that succeeded, total_errors the
    number of upserts that failed; and the run pauses once per remote
    stats call. *)
Theorem backfill_season_summary_counts (season_key : string)
    (max_players : option Z) (info : season_info) (roster : list player)
    (h hr : history) :
  SEASONS !! season_key = Some info ->
  get_league_players (h ++ season_banner season_key info) = (Returns roster, hr) ->
  roster <> [] ->
  exists totals before,
    backfill_season season_key max_players h
    = (Returns tt, h ++ before ++ summary_lines totals)
    /\ total_api_calls totals = count_events is_stats_call before
    /\ total_new_games totals = count_events is_saved before
    /\ total_errors totals = count_events is_failed_save before
    /\ count_events is_sleep before = count_events is_stats_call before
    /\ (count_events is_saved before + count_events is_failed_save before
        <= count_events is_stats_call before)%nat.
Proof.
  intros Hk Hroster Hne.
  destruct (backfill_season_trace season_key max_players info _ h _ Hk Hroster Hne)
    as (totals & body & Hrun & _ & _ & Ha & Hn & He & Hsl & _ & _ & Hle).
  destruct (get_league_players_quiet (h ++ season_banner season_key info))
    as (roster' & hq & Hroster' & (Q1 & Q2 & Q3 & Q4 & _)).
  rewrite Hroster in Hroster'. injection Hroster' as _ ->.
  exists totals, (season_banner season_key info ++ hq ++ body).
  split; [rewrite Hrun, <- !app_assoc; reflexivity|].
  rewrite !count_events_app, Q1, Q2, Q3, Q4.
  change (count_events is_stats_call (season_banner season_key info)) with 0%nat.
  change (count_events is_saved (season_banner season_key info)) with 0%nat.
  change (count_events is_failed_save (season_banner season_key info)) with 0%nat.
  change (count_events is_sleep (season_banner season_key info)) with 0%nat.
  simpl. repeat split; assumption.
Qed.

End SeasonExtras.

(** ** The command line *)

Section CommandLineExtras.
Context `{PyRuntime} `{Services} `{Clients}.

(** The [try] block starts with the creation of the store client when the
    store's credentials are present, and raises only if the construction
    of the collector does. *)
Lemma collect_run (env : environ) (argv : list string) :
  exists r evs,
    collect env argv = (r, evs)
    /\ (forall e, r = Raises e ->
          (init env (default "" (league_id_of env argv)) "nba" 2025).1 = Raises e)
    /\ (forall e, (init env (default "" (league_id_of env argv)) "nba" 2025).1
                  = Raises e -> r = Raises e).
Proof.
  unfold collect.
  destruct (init env _ "nba" 2025) as [[u|e] evs] eqn:Hi.
  - destruct (backfill_season_never_raises_aux (season_key_of argv)
                (max_players_of argv) []) as (h' & Hrun).
    rewrite Hrun. eexists _, _. split; [reflexivity|].
    split; intros e [=].
  - eexists _, _. split; [reflexivity|]. simpl. split; intros e' [= <-]; reflexivity.
Qed.

(** X16. Credentials first. When one of the four credentials is unset or
    empty, [main] exits with status 1 after printing what is missing: no
    client is constructed and nothing of the season run happens,
    whatever the command line. *)
Theorem main_requires_credentials (env : environ) (argv : list string)
    (interrupt : option nat) :
  credentials_present env = false ->
  exists evs,
    main env argv interrupt = (Some 1, evs)
    /\ forallb is_output evs = true
    /\ last evs = Some (Out (MainNeedsVariable "YAHOO_CLIENT_SECRET")).
Proof.
  intros Hc. unfold main. rewrite Hc. simpl. eexists. repeat split.
Qed.

(** X17. The league id. With the credentials present, the first argument
    of the command line replaces the league id of the environment, which
    then plays no part; and when the league id so chosen is unset or
    empty (an empty first argument included, even with the variable set),
    [main] exits with status 1 without constructing a client. *)
Theorem main_league_id (env : environ) (argv : list string)
    (interrupt : option nat) :
  credentials_present env = true ->
  (forall a v, argv !! 1%nat = Some a ->
     main (with_league_id env v) argv interrupt = main env argv interrupt)
  /\ (truthy (league_id_of env argv) = false ->
      exists evs,
        main env argv interrupt = (Some 1, evs) /\ forallb is_output evs = true).
Proof.
  intros Hc. split.
  - intros a v Ha. unfold main, collect.
    assert (Hc' : credentials_present (with_league_id env v) = true) by exact Hc.
    rewrite Hc, Hc'. unfold league_id_of. rewrite Ha. reflexivity.
  - intros Hl. unfold main. rewrite Hc, Hl. simpl. eexists. repeat split.
Qed.

(** X18. The cap of the command line. A third argument that is not an
    integer is ignored, as if it were not given, and so is every argument
    after the third. *)
Theorem main_ignores_unparsable_cap (env : environ) (argv : list string)
    (interrupt : option nat) :
  main env argv interrupt = main env (take 4 argv) interrupt
  /\ (forall a, argv !! 3%nat = Some a -> py_int a = None ->
        main env argv interrupt = main env (take 3 argv) interrupt).
Proof.
  assert (H4 : forall i, (i < 4)%nat -> take 4 argv !! i = argv !! i)
    by (intros i Hi; now apply lookup_take_lt).
  assert (H3 : forall i, (i < 3)%nat -> take 3 argv !! i = argv !! i)
    by (intros i Hi; now apply lookup_take_lt).
  split.
  - unfold main, collect, league_id_of, season_key_of, max_players_of.
    rewrite !H4 by lia. reflexivity.
  - intros a Ha Hint.
    unfold main, collect, league_id_of, season_key_of, max_players_of.
    rewrite !H3 by lia. rewrite Ha, Hint.
    rewrite (lookup_take_ge argv 3 3) by lia. reflexivity.
Qed.

(** X19. The exit status. [main] returns, or exits with status 0 or 1. It
    exits with status 0 exactly when, the credentials and the league id
    being there, the user's interrupt is raised by a step of the [try]
    block: what the block did before that step is kept, and the notice
    of the interrupt is the last thing printed. It exits with status 1
    exactly when a credential is missing, or the league id is missing, or
    the construction of the collector raises without being interrupted
    before. In every other case it returns without [sys.exit], also when
    the season label is unknown or the roster cannot be fetched. *)
Theorem main_exit_status (env : environ) (argv : list string)
    (interrupt : option nat) :
  let block := collect env argv in
  let interrupted :=
    exists n, interrupt = Some n /\ (n < length block.2)%nat in
  exists status evs,
    main env argv interrupt = (status, evs)
    /\ (status = None \/ status = Some 0 \/ status = Some 1)
    /\ (status = Some 0 <->
        credentials_present env = true
        /\ truthy (league_id_of env argv) = true
        /\ interrupted)
    /\ (status = Some 0 ->
        exists n, interrupt = Some n
          /\ evs = [Out MainRuleTop; Out MainTitle; Out MainRuleBottom]
                   ++ take n block.2 ++ [Out MainInterrupted])
    /\ (status = Some 1 <->
        credentials_present env = false
        \/ truthy (league_id_of env argv) = false
        \/ (~ interrupted
            /\ exists e, (init env (default "" (league_id_of env argv)) "nba" 2025).1
                         = Raises e)).
Proof.
  intros block interrupted. subst block interrupted. unfold main.
  destruct (credentials_present env) eqn:Hc; simpl negb; cbv iota.
  2: { eexists _, _. split; [reflexivity|]. split; [auto|].
       split; [split; [discriminate | intros ([=] & _)]|].
       split; [discriminate|]. split; [auto | reflexivity]. }
  destruct (truthy (league_id_of env argv)) eqn:Hl; simpl negb; cbv iota.
  2: { eexists _, _. split; [reflexivity|]. split; [auto|].
       split; [split; [discriminate | intros (_ & [=] & _)]|].
       split; [discriminate|]. split; [auto | reflexivity]. }
  destruct (collect_run env argv) as (r & evs & Hblock & Hr1 & Hr2).
  rewrite Hblock. simpl snd.
  assert (Hplain :
            ~ (exists n, interrupt = Some n /\ (n < length evs)%nat) ->
            exists status out,
              match r with
              | Returns _ => (None, [Out MainRuleTop; Out MainTitle; Out MainRuleBottom]
                                    ++ evs)
              | Raises e => (Some 1, [Out MainRuleTop; Out MainTitle; Out MainRuleBottom]
                                     ++ evs ++ [Out (MainError e); Traceback e])
              end = (status, out)
              /\ (status = None \/ status = Some 0 \/ status = Some 1)
              /\ (status = Some 0 <->
                  true = true /\ true = true
                  /\ exists n, interrupt = Some n /\ (n < length evs)%nat)
              /\ (status = Some 0 ->
                  exists n, interrupt = Some n
                    /\ out = [Out MainRuleTop; Out MainTitle; Out MainRuleBottom]
                             ++ take n evs ++ [Out MainInterrupted])
              /\ (status = Some 1 <->
                  true = false \/ true = false
                  \/ (~ (exists n, interrupt = Some n /\ (n < length evs)%nat)
                      /\ exists e,
                           (init env (default "" (league_id_of env argv)) "nba" 2025).1
                           = Raises e))).
  { intros Hnot. destruct r as [u|e]; eexists _, _; (split; [reflexivity|]).
    - split; [auto|]. split; [split; [discriminate | intros (_ & _ & Hi); tauto]|].
      split; [discriminate|]. split; [discriminate|].
      intros [[=] | [[=] | (_ & e & He)]]. now specialize (Hr2 e He).
    - split; [auto|]. split; [split; [discriminate | intros (_ & _ & Hi); tauto]|].
      split; [discriminate|]. split; [|reflexivity].
      intros _. right. right. split; [exact Hnot|]. exists e. now apply Hr1. }
  destruct interrupt as [n|].
  - destruct (Nat.ltb_spec n (length evs)) as [Hn | Hn].
    + eexists _, _. split; [reflexivity|]. split; [auto|].
      split; [split; [intros _; repeat split; eauto | reflexivity]|].
      split; [intros _; eauto|].
      split; [discriminate|].
      intros [[=] | [[=] | (Hnot & _)]]. exfalso. apply Hnot. eauto.
    + apply Hplain. intros (n' & [= <-] & Hlt). lia.
  - apply Hplain. intros (n' & [=] & _).
Qed.

(** X20. The collector's own check. When [main] constructs the collector,
    the credentials of the store are present, so that the constructor
    never raises for missing store credentials: unless the interrupt is
    raised by that very step, it goes on to create the store client with
    the two values of the environment. *)
Theorem main_constructs_store_client (env : environ) (argv : list string)
    (interrupt : option nat) :
  credentials_present env = true ->
  truthy (league_id_of env argv) = true ->
  interrupt <> Some 0%nat ->
  exists url key r rest status,
    SUPABASE_URL env = Some url /\ SUPABASE_KEY env = Some key
    /\ main env argv interrupt
       = (status,
          [Out MainRuleTop; Out MainTitle; Out MainRuleBottom;
           CreateClient url key r] ++ rest).
Proof.
  intros Hc Hl Hi. unfold main. rewrite Hc, Hl. simpl negb. cbv iota.
  unfold credentials_present in Hc. rewrite !andb_true_iff in Hc.
  destruct Hc as (((Hu & Hk) & _) & _).
  assert (Hblock : exists url key r0 r rest,
            SUPABASE_URL env = Some url /\ SUPABASE_KEY env = Some key
            /\ collect env argv = (r0, CreateClient url key r :: rest)).
  { unfold collect, init. rewrite Hu, Hk. simpl.
    destruct (SUPABASE_URL env) as [url|]; [|discriminate].
    destruct (SUPABASE_KEY env) as [key|]; [|discriminate]. simpl.
    exists url, key.
    destruct (create_client url key) as [u|e].
    - destruct (new_yahoo_query _ _ _ _ _) as [q|e].
      + destruct (backfill_season _ _ _) as [r0 h'].
        eexists _, _, _. repeat split; reflexivity.
      + eexists _, _, _. repeat split; reflexivity.
    - eexists _, _, _. repeat split; reflexivity. }
  destruct Hblock as (url & key & r0 & r & rest & Hurl & Hkey & Hblock).
  rewrite Hblock. exists url, key, r.
  assert (Hplain : exists rest' status,
            match r0 with
            | Returns _ =>
                (None, [Out MainRuleTop; Out MainTitle; Out MainRuleBottom]
                       ++ CreateClient url key r :: rest)
            | Raises e =>
                (Some 1, [Out MainRuleTop; Out MainTitle; Out MainRuleBottom]
                         ++ (CreateClient url key r :: rest)
                         ++ [Out (MainError e); Traceback e])
            end
            = (status, [Out MainRuleTop; Out MainTitle; Out MainRuleBottom;
                        CreateClient url key r] ++ rest')).
  { destruct r0; eexists _, _; reflexivity. }
  destruct Hplain as (rest' & status & Hplain).
  destruct interrupt as [[|n]|].
  - contradiction.
  - destruct (S n <? length (CreateClient url key r :: rest))%nat.
    + eexists _, _. split; [exact Hurl|]. split; [exact Hkey|]. reflexivity.
    + exists rest', status. split; [exact Hurl|]. split; [exact Hkey|]. exact Hplain.
  - exists rest', status. split; [exact Hurl|]. split; [exact Hkey|]. exact Hplain.
Qed.

End CommandLineExtras.

(** ** The candidate dates as text *)

(** X21. Canonical dates. For well-formed start and end dates, the start
    date in the year 1000 or later, the candidate dates are written in the
    format they were read in: each parses back with [strptime] to its own
    day, the days are consecutive and start at the start date, however
    the start date was padded. *)
Theorem generated_dates_parse_back (start_date end_date : string)
    (start end_ today : datetime) :
  strptime start_date = Returns start ->
  strptime end_date = Returns end_ ->
  1000 <= (ord2ymd (dt_ordinal start)).1.1 ->
  let generated := generate_dates start end_ today in
  strptime <$> generated
  = (fun day => Returns (midnight day))
      <$> seqZ (dt_ordinal start) (Z.of_nat (length generated)).
Proof.
  intros Hs He Hyear generated. subst generated.
  rewrite (strptime_midnight _ _ Hs), (strptime_midnight _ _ He).
  apply strptime_range in Hs, He.
  apply ord2ymd_year_four_digits in Hyear; [|lia].
  rewrite generate_dates_range. simpl dt_ordinal.
  rewrite length_fmap, length_seqZ.
  set (n := Z.min (dt_ordinal end_) (dt_ordinal today) + 1 - dt_ordinal start).
  destruct (Z.le_gt_cases n 0) as [Hn | Hn].
  - rewrite !seqZ_nil by lia. reflexivity.
  - rewrite Z2Nat.id by lia. rewrite <- list_fmap_compose.
    apply list_fmap_ext. intros i day Hday.
    apply list_elem_of_lookup_2, elem_of_seqZ in Hday. simpl.
    apply strptime_strftime. lia.
Qed.

(** * The further properties on concrete runs *)

Lemma backfill_player_paced_witness :
  exists stats before loop,
    @backfill_player CPython.runtime Scenario.fresh
      "nba.p.123" "A Player" "2024-10-22" "2024-10-24" true []
    = (Returns stats, [] ++ before ++ loop)
    /\ count_events is_stats_call before = 0%nat
    /\ count_events is_sleep before = 0%nat
    /\ paced loop
    /\ count_events is_sleep loop = api_calls stats.
Proof.
  apply (@backfill_player_paced CPython.runtime Scenario.fresh
           "nba.p.123" "A Player" "2024-10-22" "2024-10-24" true
           (midnight 739181) (midnight 739183) []); reflexivity.
Defined.

Lemma backfill_player_persists_only_games_witness :
  exists stats h',
    @backfill_player CPython.runtime Scenario.one_stored
      "nba.p.123" "A Player" "2024-10-22" "2024-10-24" true []
    = (Returns stats, [] ++ h')
    /\ Forall (fun data => row_player_key data = "nba.p.123"
                           /\ has_positive (row_stats data)) (upserts h').
Proof.
  destruct (@backfill_player_persists_only_games CPython.runtime Scenario.one_stored
              "nba.p.123" "A Player" "2024-10-22" "2024-10-24" true
              (midnight 739181) (midnight 739183) [])
    as (stats & h' & Hrun & Hrows); [reflexivity | reflexivity |].
  exists stats, h'. split; [exact Hrun|].
  eapply Forall_impl; [exact Hrows|].
  intros data (Hkey & _ & _ & _ & Hpos & _). split; assumption.
Defined.

Lemma backfill_player_no_duplicates_witness :
  exists stats h',
    @backfill_player CPython.runtime Scenario.fresh
      "nba.p.123" "A Player" "2024-10-22" "2024-10-24" false []
    = (Returns stats, [] ++ h')
    /\ NoDup (fetch_calls h')
    /\ NoDup (row_game_date <$> upserts h').
Proof.
  apply (@backfill_player_no_duplicates CPython.runtime Scenario.fresh
           "nba.p.123" "A Player" "2024-10-22" "2024-10-24" false
           (midnight 739181) (midnight 739183) []); reflexivity.
Defined.

Lemma backfill_player_fetches_within_window_witness :
  exists stats h',
    @backfill_player CPython.runtime Scenario.half_stored
      "nba.p.123" "A Player" "2024-10-22" "2025-06-17" true []
    = (Returns stats, [] ++ h')
    /\ Forall (fun call =>
                 call.1 = "nba.p.123"
                 /\ exists day,
                      call.2 = strftime (midnight day)
                      /\ 739181 <= day <= 739419 /\ day <= 739183)
              (fetch_calls h').
Proof.
  apply (@backfill_player_fetches_within_window CPython.runtime Scenario.half_stored
           "nba.p.123" "A Player" "2024-10-22" "2025-06-17" true
           (midnight 739181) (midnight 739419) []); reflexivity.
Defined.

Lemma backfill_player_refetch_witness :
  exists stats h',
    @backfill_player CPython.runtime Scenario.half_stored
      "nba.p.123" "A Player" "2024-10-22" "2024-10-24" false []
    = (Returns stats, [] ++ h')
    /\ selects h' = []
    /\ existing_games stats = 0%nat
    /\ total_dates stats = 3%nat.
Proof.
  destruct (@backfill_player_refetch CPython.runtime Scenario.half_stored
              "nba.p.123" "A Player" "2024-10-22" "2024-10-24"
              (midnight 739181) (midnight 739183) [])
    as (stats & h' & Hrun & Hsel & Hx & Ht & _); [reflexivity | reflexivity |].
  exists stats, h'. split; [exact Hrun|]. split; [exact Hsel|].
  split; [exact Hx|]. rewrite Ht. vm_compute. reflexivity.
Defined.

Lemma backfill_player_malformed_date_raises_witness :
  exists e,
    @backfill_player CPython.runtime Scenario.fresh
      "nba.p.123" "A Player" "2024-10-22" "2024-13-01" true []
    = (Raises e, [])
    /\ exc_type e = ValueError
    /\ strptime "2024-13-01" = Raises e.
Proof.
  destruct (@backfill_player_malformed_date_raises CPython.runtime Scenario.fresh
              "nba.p.123" "A Player" "2024-10-22" "2024-13-01" true [])
    as (e & Hrun & Hty & [Hstart | (_ & Hend)]);
    [right; reflexivity | discriminate Hstart |].
  exists e. split; [exact Hrun|]. split; [exact Hty | exact Hend].
Defined.

Lemma backfill_player_resumes_witness :
  exists stats h',
    @backfill_player CPython.runtime Scenario.fresh
      "nba.p.123" "A Player" "2024-10-22" "2024-10-24" true
      (@backfill_player CPython.runtime Scenario.fresh
         "nba.p.123" "A Player" "2024-10-22" "2024-10-24" true []).2
    = (Returns stats,
       (@backfill_player CPython.runtime Scenario.fresh
          "nba.p.123" "A Player" "2024-10-22" "2024-10-24" true []).2 ++ h')
    /\ ("nba.p.123", "2024-10-22") ∉ fetch_calls h'.
Proof.
  destruct (@backfill_player_resumes CPython.runtime Scenario.fresh
              "nba.p.123" "A Player" "2024-10-22" "2024-10-24"
              (midnight 739181) (midnight 739183)
              (@backfill_player CPython.runtime Scenario.fresh
                 "nba.p.123" "A Player" "2024-10-22" "2024-10-24" true []).2
              ["2024-10-22"])
    as (stats & h' & Hrun & Hskip);
    [reflexivity | reflexivity | vm_compute; reflexivity
     | vm_compute; intros d Hd; exact Hd |].
  exists stats, h'. split; [exact Hrun|].
  apply (Hskip "2024-10-22"). vm_compute. apply elem_of_cons. now left.
Defined.

Lemma save_game_log_outcome_witness :
  exists h',
    @save_game_log Cases.upsert_failing "nba.p.123" "A Player"
      (game_record "2024-10-22" {["3" := PyInt 34]}) []
    = (Returns false, [] ++ h')
    /\ upserts h'
       = [row_of "nba.p.123" "A Player" (game_record "2024-10-22" {["3" := PyInt 34]})].
Proof.
  destruct (@save_game_log_outcome Cases.upsert_failing "nba.p.123" "A Player"
              (game_record "2024-10-22" {["3" := PyInt 34]}) [])
    as (saved & h' & Hrun & Hrows & _ & _ & Hfalse).
  exists h'. split; [|exact Hrows].
  destruct saved; [|exact Hrun].
  exfalso. assert (Hf : true = false); [|discriminate Hf].
  apply Hfalse. exists Scenario.store_down. split; [reflexivity|].
  rewrite save_game_log_run in Hrun. simpl in Hrun. discriminate Hrun.
Defined.

Lemma get_league_players_outcome_witness :
  exists roster h',
    @get_league_players Cases.three_players [] = (Returns roster, [] ++ h')
    /\ player_key <$> roster = ["nba.p.1"; "nba.p.2"; "nba.p.3"].
Proof.
  destruct (@get_league_players_outcome Cases.three_players [])
    as (roster & h' & Hrun & _ & _ & Hok & _).
  exists roster, h'. split; [exact Hrun|].
  destruct (Hok tt _ eq_refl eq_refl) as (_ & Hkeys & _). exact Hkeys.
Defined.

Lemma backfill_season_without_roster_witness :
  exists h',
    @backfill_season CPython.runtime Cases.no_roster "2024-25" None []
    = (Returns tt, [] ++ h')
    /\ last h' = Some (Print MsgNoPlayers)
    /\ quiet h'.
Proof.
  apply (@backfill_season_without_roster CPython.runtime Cases.no_roster
           "2024-25" None
           {| season_start := "2024-10-22"; season_end := "2025-06-17" |} []);
    [reflexivity | vm_compute; reflexivity].
Defined.

Lemma backfill_season_cap_witness :
  exists totals before,
    @backfill_season CPython.runtime Cases.three_players "2024-25" (Some (-1)) []
    = (Returns tt, before ++ summary_lines totals)
    /\ processed_players totals = 2%nat.
Proof.
  edestruct (@backfill_season_cap CPython.runtime Cases.three_players
               "2024-25" (Some (-1)))
    as (totals & before & Hrun & Hp & Ht).
  - reflexivity.
  - vm_compute. reflexivity.
  - discriminate.
  - exists totals, before. split; [exact Hrun|]. rewrite Hp, Ht. reflexivity.
Defined.

Lemma backfill_season_one_query_per_entity_witness :
  exists h',
    @backfill_season CPython.runtime Cases.three_players "2024-25" (Some 2) []
    = (Returns tt, [] ++ h')
    /\ selects h' = ["nba.p.1"; "nba.p.2"].
Proof.
  edestruct (@backfill_season_one_query_per_entity CPython.runtime Cases.three_players
               "2024-25" (Some 2))
    as (h' & Hrun & Hsel).
  - reflexivity.
  - vm_compute. reflexivity.
  - discriminate.
  - exists h'. split; [exact Hrun|]. rewrite Hsel. reflexivity.
Defined.

Lemma backfill_season_summary_counts_witness :
  exists totals before,
    @backfill_season CPython.runtime Cases.three_players "2024-25" None []
    = (Returns tt, [] ++ before ++ summary_lines totals)
    /\ total_api_calls totals = count_events is_stats_call before
    /\ total_new_games totals = count_events is_saved before.
Proof.
  edestruct (@backfill_season_summary_counts CPython.runtime Cases.three_players
               "2024-25" None)
    as (totals & before & Hrun & Ha & Hn & _).
  - reflexivity.
  - vm_compute. reflexivity.
  - discriminate.
  - exists totals, before. split; [exact Hrun|]. split; assumption.
Defined.

Lemma main_requires_credentials_witness :
  exists evs,
    @main CPython.runtime Scenario.fresh Cases.clients_ok
      Cases.env_without_secret ["backfill_data.py"; "12345"] (Some 2%nat)
    = (Some 1, evs)
    /\ forallb is_output evs = true.
Proof.
  destruct (@main_requires_credentials CPython.runtime Scenario.fresh Cases.clients_ok
              Cases.env_without_secret ["backfill_data.py"; "12345"] (Some 2%nat))
    as (evs & Hrun & Hout & _); [reflexivity|].
  exists evs. split; assumption.
Defined.

Lemma main_league_id_witness :
  @main CPython.runtime Scenario.fresh Cases.clients_ok
    (with_league_id Cases.full_env None) ["backfill_data.py"; "777"] None
  = @main CPython.runtime Scenario.fresh Cases.clients_ok
      Cases.full_env ["backfill_data.py"; "777"] None
  /\ exists evs,
       @main CPython.runtime Scenario.fresh Cases.clients_ok
         Cases.full_env ["backfill_data.py"; ""] None
       = (Some 1, evs).
Proof.
  split.
  - destruct (@main_league_id CPython.runtime Scenario.fresh Cases.clients_ok
                Cases.full_env ["backfill_data.py"; "777"] None) as (Hsame & _);
      [reflexivity|].
    apply (Hsame "777" None). reflexivity.
  - destruct (@main_league_id CPython.runtime Scenario.fresh Cases.clients_ok
                Cases.full_env ["backfill_data.py"; ""] None) as (_ & Hexit);
      [reflexivity|].
    destruct Hexit as (evs & Hrun & _); [reflexivity|].
    exists evs. exact Hrun.
Defined.

Lemma main_ignores_unparsable_cap_witness :
  @main CPython.runtime Scenario.half_stored Cases.clients_ok
    Cases.full_env ["backfill_data.py"; "12345"; "2024-25"; "five"] None
  = @main CPython.runtime Scenario.half_stored Cases.clients_ok
      Cases.full_env ["backfill_data.py"; "12345"; "2024-25"] None.
Proof.
  destruct (@main_ignores_unparsable_cap CPython.runtime Scenario.half_stored
              Cases.clients_ok Cases.full_env
              ["backfill_data.py"; "12345"; "2024-25"; "five"] None) as (_ & Hcap).
  apply (Hcap "five"); reflexivity.
Defined.

(** An unknown season label, a constructor that raises, and an interrupt
    raised by the sixth step of the [try] block. *)
Lemma main_exit_status_witness :
  (@main CPython.runtime Scenario.half_stored Cases.clients_ok
     Cases.full_env ["backfill_data.py"; "12345"; "1999-00"] None).1 = None
  /\ (@main CPython.runtime Scenario.half_stored Cases.clients_failing
        Cases.full_env ["backfill_data.py"; "12345"] None).1 = Some 1
  /\ (@main CPython.runtime Scenario.half_stored Cases.clients_ok
        Cases.full_env ["backfill_data.py"; "12345"] (Some 5%nat)).1 = Some 0.
Proof.
  split; [|split].
  - destruct (@main_exit_status CPython.runtime Scenario.half_stored Cases.clients_ok
                Cases.full_env ["backfill_data.py"; "12345"; "1999-00"] None)
      as (status & evs & Hrun & [-> | [-> | ->]] & Hzero & _ & Hone);
      rewrite Hrun; [reflexivity | |].
    + exfalso. destruct (proj1 Hzero eq_refl) as (_ & _ & n & [=] & _).
    + exfalso. destruct (proj1 Hone eq_refl) as [Hc | [Hl | (_ & e & He)]];
        vm_compute in *; discriminate.
  - destruct (@main_exit_status CPython.runtime Scenario.half_stored
                Cases.clients_failing Cases.full_env ["backfill_data.py"; "12345"]
                None)
      as (status & evs & Hrun & _ & _ & _ & Hone). rewrite Hrun. simpl.
    apply Hone. right. right. split.
    + intros (n & [=] & _).
    + eexists. reflexivity.
  - destruct (@main_exit_status CPython.runtime Scenario.half_stored
                Cases.clients_ok Cases.full_env ["backfill_data.py"; "12345"]
                (Some 5%nat))
      as (status & evs & Hrun & _ & Hzero & _). rewrite Hrun. simpl.
    apply Hzero. split; [reflexivity|]. split; [reflexivity|].
    exists 5%nat. split; [reflexivity|]. vm_compute. lia.
Defined.

Lemma main_constructs_store_client_witness :
  exists r rest status,
    @main CPython.runtime Scenario.half_stored Cases.clients_ok
      Cases.full_env ["backfill_data.py"; "12345"] (Some 1%nat)
    = (status,
       [Out MainRuleTop; Out MainTitle; Out MainRuleBottom;
        CreateClient "https://db.example" "anon" r] ++ rest).
Proof.
  destruct (@main_constructs_store_client CPython.runtime Scenario.half_stored
              Cases.clients_ok Cases.full_env ["backfill_data.py"; "12345"]
              (Some 1%nat))
    as (url & key & r & rest & status & [= <-] & [= <-] & Hrun);
    [reflexivity | reflexivity | discriminate |].
  exists r, rest, status. exact Hrun.
Defined.

Lemma generated_dates_parse_back_witness :
  strptime <$> generate_dates (midnight 738890) (midnight 738892) Scenario.november
  = [Returns (midnight 738890); Returns (midnight 738891); Returns (midnight 738892)].
Proof.
  rewrite (generated_dates_parse_back "2024-1-5" "2024-01-07"
             (midnight 738890) (midnight 738892) Scenario.november);
    [vm_compute; reflexivity | reflexivity | reflexivity | vm_compute; discriminate].
Defined.
